(** * carm-company-profile: storage backends, auto-detection and manager

    A shallow embedding of the Python package [carm_company_profile]
    (storage/base.py, storage/local_storage.py, storage/azure_storage.py,
    storage/__init__.py, manager.py, loader.py) together with the
    properties its specification states about it and further properties
    read off the code.

    Layout of the development:
    - Python values the code manipulates: exceptions, strings, the
      state-and-exception monad [M];
    - the platform the code runs on: [pathlib] paths and a POSIX file
      system, the blob service;
    - the external data model ([carm_data_models.CompanyProfile], [json]);
    - the two backends, the manager, the auto-detector and the loader,
      one module per Python class or module;
    - the theorems. *)

From Stdlib Require Import Ascii.
From stdpp Require Import base option list strings gmap fin_maps sorting.

(** ** Exceptions and the effect monad *)

(** The exception classes the code raises or lets through.  Those raised
    with a message by the package carry it. *)
Inductive exn : Type :=
  | FileNotFoundError (msg : string)
  | FileExistsError
  | NotADirectoryError
  | IsADirectoryError
  | ValueError (msg : string)
  | AttributeError (msg : string)
  | ImportError (msg : string)
  | UnicodeDecodeError
  | JSONDecodeError
  | ValidationError (msg : string)
  | ResourceNotFoundError
  | ResourceExistsError.

#[global] Instance exn_eq_dec : EqDecision exn.
Proof. solve_decision. Defined.

(** The storage contract's NotFound is Python's [FileNotFoundError]. *)
Definition is_NotFound (e : exn) : bool :=
  match e with FileNotFoundError _ => true | _ => false end.

(** A Python statement run in world [W]: it leaves a world behind and
    either raises or returns.  The world survives an exception. *)
Definition M (W A : Type) : Type := W → W * (exn + A).

#[global] Instance M_ret {W} : MRet (M W) := λ A a w, (w, inr a).
#[global] Instance M_bind {W} : MBind (M W) := λ A B f m w,
  match m w with
  | (w', inl e) => (w', inl e)
  | (w', inr a) => f a w'
  end.

Definition raise {W A} (e : exn) : M W A := λ w, (w, inl e).

(** A computation that only reads the world. *)
Definition reads {W A} (f : W → exn + A) : M W A := λ w, (w, f w).

(** ** Strings *)

Module Str.

(** [s.endswith(suffix)] *)
Fixpoint endswith (s suffix : string) : bool :=
  if String.eqb s suffix then true
  else match s with
       | "" => false
       | String _ s' => endswith s' suffix
       end.

(** [s[:n]] for [0 <= n] *)
Fixpoint take (n : nat) (s : string) : string :=
  match n, s with
  | S n', String c s' => String c (take n' s')
  | _, _ => ""
  end.

(** [s[:-n]] *)
Definition drop_last (n : nat) (s : string) : string :=
  take (String.length s - n) s.

(** [s.rfind(c)], [None] for [-1] *)
Fixpoint rfind (c : ascii) (s : string) : option nat :=
  match s with
  | "" => None
  | String a s' =>
      match rfind c s' with
      | Some i => Some (S i)
      | None => if Ascii.eqb a c then Some 0 else None
      end
  end.

(** [s.lstrip(c)] for one character *)
Fixpoint lstrip_char (c : ascii) (s : string) : string :=
  match s with
  | String a s' => if Ascii.eqb a c then lstrip_char c s' else s
  | "" => ""
  end.

(** [c in s] *)
Fixpoint contains (c : ascii) (s : string) : bool :=
  match s with
  | "" => false
  | String a s' => Ascii.eqb a c || contains c s'
  end.

(** [s.split(sep)] for a one-character separator *)
Fixpoint split (sep : ascii) (s : string) : list string :=
  match s with
  | "" => [""]
  | String a s' =>
      if Ascii.eqb a sep then "" :: split sep s'
      else match split sep s' with
           | w :: ws => String a w :: ws
           | [] => [String a ""]
           end
  end.

(** [sep.join(ws)] *)
Fixpoint join (sep : string) (ws : list string) : string :=
  match ws with
  | [] => ""
  | [w] => w
  | w :: ws' => w +:+ sep +:+ join sep ws'
  end.

Definition lower_ascii (a : ascii) : ascii :=
  let n := nat_of_ascii a in
  if (65 <=? n)%nat && (n <=? 90)%nat then ascii_of_nat (n + 32) else a.

(** [s.lower()].  Strings are UTF-8 byte strings here; [str.lower] is
    modelled on the ASCII letters, which decides every comparison of
    the result with an ASCII word that has no [k] in it. *)
Fixpoint lower (s : string) : string :=
  match s with
  | "" => ""
  | String a s' => String (lower_ascii a) (lower s')
  end.

(** [sorted(l)] on strings: ascending by code point, which on UTF-8 byte
    strings is the byte-wise lexicographic order. *)
Definition sorted (l : list string) : list string := merge_sort String.le l.

End Str.

(** ** pathlib *)

Module pathlib.

(** A [PurePosixPath]: its root (none for a relative path, [/], or [//]
    when the string starts with exactly two slashes) and its components.
    Parsing drops empty and single-dot components; [..] components are
    kept for the operating system to resolve. *)
Record Path : Type := mkPath { root : string; parts : list string }.

(** [p.is_absolute()] *)
Definition absolute (p : Path) : bool := negb (String.eqb (root p) "").

#[global] Instance Path_eq_dec : EqDecision Path.
Proof. solve_decision. Defined.

Definition keeps (w : string) : bool :=
  negb (String.eqb w "") && negb (String.eqb w ".").

Definition root_of (s : string) : string :=
  match s with
  | String "/" (String "/" (String "/" _)) => "/"
  | String "/" (String "/" _) => "//"
  | String "/" _ => "/"
  | _ => ""
  end.

(** [Path(s)] *)
Definition of_string (s : string) : Path :=
  {| root := root_of s; parts := List.filter keeps (Str.split "/" s) |}.

(** [p / s]: an absolute right operand replaces the left one. *)
Definition div (p : Path) (s : string) : Path :=
  let q := of_string s in
  if absolute q then q
  else {| root := root p; parts := parts p ++ parts q |}.

(** [p.parent]: lexical, the path itself when it has no component. *)
Definition parent (p : Path) : Path :=
  {| root := root p; parts := removelast (parts p) |}.

(** [str(p)] *)
Definition str (p : Path) : string :=
  match root p, parts p with
  | "", [] => "."
  | r, ps => r +:+ Str.join "/" ps
  end.

(** [PurePath.stem] is not the same in every Python: up to 3.13 a
    leading or a trailing dot opens no suffix; from 3.14 on the last dot
    always does, unless only dots precede it. *)
Class Version : Type := { from_314 : bool }.

(** The stem of a file name: the name without its last suffix. *)
Definition stem_of_name `{Version} (n : string) : string :=
  match Str.rfind "." n with
  | Some i =>
      if from_314 then
        if negb (String.eqb (Str.lstrip_char "." (Str.take i n)) "")
        then Str.take i n else n
      else
        if (0 <? i)%nat && (i <? String.length n - 1)%nat
        then Str.take i n else n
  | None => n
  end.

(** [fnmatch(name, "*.json")], case-sensitive as on POSIX; a leading dot
    is not special for [Path.glob]. *)
Definition matches_star_json (n : string) : bool := Str.endswith n ".json".

End pathlib.

Import pathlib.

(** ** The file system *)

Module os.

(** What sits at a canonical path: a regular file with its bytes, or a
    directory.  Names are compared byte by byte, as on a case-sensitive
    file system; symbolic links, permissions and the limits on names
    ([within_limits] below) are outside the model. *)
Inductive node : Type := File (content : string) | Dir.

#[global] Instance node_eq_dec : EqDecision node.
Proof. solve_decision. Defined.

(** The process's view of the file system: the working directory and a
    finite map from canonical paths (component lists from the root) to
    nodes.  The root is a directory and is not stored. *)
Record FileSystem : Type := mkFS {
  cwd : list string;
  nodes : gmap (list string) node;
}.

Definition node_at (fs : FileSystem) (k : list string) : option node :=
  match k with
  | [] => Some Dir
  | _ => nodes fs !! k
  end.

Definition ENOENT : exn := FileNotFoundError "[Errno 2] No such file or directory".

(** Path resolution: each component is looked up in the directory
    reached so far, which must exist and be a directory; [..] steps to
    the parent (the root is its own parent).  The result is the
    canonical path of the last component, which need not exist. *)
Fixpoint resolve (fs : FileSystem) (cur comps : list string) : exn + list string :=
  match comps with
  | [] => inr cur
  | c :: rest =>
      match node_at fs cur with
      | Some Dir =>
          resolve fs (if decide (c = "..") then removelast cur else cur ++ [c]) rest
      | Some (File _) => inl NotADirectoryError
      | None => inl ENOENT
      end
  end.

Definition start (fs : FileSystem) (p : Path) : list string :=
  if absolute p then [] else cwd fs.

Definition locate (fs : FileSystem) (p : Path) : exn + list string :=
  resolve fs (start fs p) (parts p).

(** [os.stat(p)] *)
Definition stat (fs : FileSystem) (p : Path) : exn + node :=
  match locate fs p with
  | inl e => inl e
  | inr k => match node_at fs k with
             | Some n => inr n
             | None => inl ENOENT
             end
  end.

(** [p.exists()]: a failing [stat] is absence. *)
Definition path_exists (fs : FileSystem) (p : Path) : bool :=
  match stat fs p with inr _ => true | inl _ => false end.

(** [p.is_dir()] *)
Definition is_dir (fs : FileSystem) (p : Path) : bool :=
  match stat fs p with inr Dir => true | _ => false end.

Definition put (k : list string) (n : node) (fs : FileSystem) : FileSystem :=
  {| cwd := cwd fs; nodes := <[k := n]> (nodes fs) |}.

Definition remove (k : list string) (fs : FileSystem) : FileSystem :=
  {| cwd := cwd fs; nodes := delete k (nodes fs) |}.

(** [os.mkdir(p)] *)
Definition mkdir (p : Path) : M FileSystem unit := λ fs,
  match locate fs p with
  | inl e => (fs, inl e)
  | inr k => match node_at fs k with
             | Some _ => (fs, inl FileExistsError)
             | None => (put k Dir fs, inr ())
             end
  end.

(** [p.mkdir(parents=False, exist_ok=True)]: any [OSError] other than a
    missing parent is forgiven when the path is a directory. *)
Definition mkdir_exist_ok (p : Path) : M FileSystem unit := λ fs,
  match mkdir p fs with
  | (fs', inr _) => (fs', inr ())
  | (fs', inl (FileNotFoundError m)) => (fs', inl (FileNotFoundError m))
  | (fs', inl e) => if is_dir fs' p then (fs', inr ()) else (fs', inl e)
  end.

(** [p.mkdir(parents=True, exist_ok=True)], by recursion on the
    components of [p] in reverse: on a missing parent the lexical parent
    is created first, then the path itself. *)
Fixpoint mkdir_parents_rev (rt : string) (rparts : list string) : M FileSystem unit := λ fs,
  let p := {| root := rt; parts := rev rparts |} in
  match mkdir p fs with
  | (fs', inr _) => (fs', inr ())
  | (fs', inl (FileNotFoundError m)) =>
      match rparts with
      | [] => (fs', inl (FileNotFoundError m))
      | _ :: rparent =>
          match mkdir_parents_rev rt rparent fs' with
          | (fs1, inl e) => (fs1, inl e)
          | (fs1, inr _) => mkdir_exist_ok p fs1
          end
      end
  | (fs', inl e) => if is_dir fs' p then (fs', inr ()) else (fs', inl e)
  end.

Definition mkdir_parents (p : Path) : M FileSystem unit :=
  mkdir_parents_rev (root p) (rev (parts p)).

(** [open(p, 'w').write(text)]: creates or truncates the file. *)
Definition write_text (p : Path) (text : string) : M FileSystem unit := λ fs,
  match locate fs p with
  | inl e => (fs, inl e)
  | inr k => match node_at fs k with
             | Some Dir => (fs, inl IsADirectoryError)
             | _ => (put k (File text) fs, inr ())
             end
  end.

(** [open(p, 'r').read()] *)
Definition read_bytes (fs : FileSystem) (p : Path) : exn + string :=
  match stat fs p with
  | inl e => inl e
  | inr Dir => inl IsADirectoryError
  | inr (File c) => inr c
  end.

(** [p.unlink()]; unlinking a directory is refused ([EISDIR] on Linux). *)
Definition unlink (p : Path) : M FileSystem unit := λ fs,
  match locate fs p with
  | inl e => (fs, inl e)
  | inr k => match node_at fs k with
             | None => (fs, inl ENOENT)
             | Some Dir => (fs, inl IsADirectoryError)
             | Some (File _) => (remove k fs, inr ())
             end
  end.

(** The name under which [k'] is a direct child of [k], if it is one. *)
Definition child_name (k k' : list string) : option string :=
  match last k' with
  | Some n => if decide (k' = k ++ [n]) then Some n else None
  | None => None
  end.

(** [os.scandir] of the directory at canonical path [k], in the order the
    file system happens to give. *)
Definition scandir (fs : FileSystem) (k : list string) : list string :=
  omap (λ kn, child_name k kn.1) (map_to_list (nodes fs)).

(** [p.glob("*.json")], as the names of the matching entries: nothing
    when [p] is not a directory, otherwise its direct children whose
    name matches. *)
Definition glob_star_json (fs : FileSystem) (p : Path) : list string :=
  if is_dir fs p then
    match locate fs p with
    | inr k => filter (λ n, matches_star_json n) (scandir fs k)
    | inl _ => []
    end
  else [].

(** The limits on what a path may be: no NUL byte, at most [NAME_MAX]
    bytes in a component, fewer than [PATH_MAX] bytes in all (Linux with
    its usual file systems).  A call on a path beyond them is refused,
    by Python with [ValueError] or by the kernel with [ENAMETOOLONG],
    and on that error [Path.exists] raises up to Python 3.13; the
    operations above are those on paths within the limits. *)
Definition NAME_MAX : nat := 255.

Definition PATH_MAX : nat := 4096.

Definition name_within_limits (n : string) : bool :=
  negb (Str.contains "000" n) && (String.length n <=? NAME_MAX)%nat.

Definition within_limits (p : Path) : bool :=
  forallb name_within_limits (parts p) && (String.length (str p) <? PATH_MAX)%nat.

End os.

Import os.

(** ** The external data model *)

(** How reading stored bytes as JSON can fail. *)
Inductive parse_error : Type := not_utf8 | not_json.

Definition parse_exn (e : parse_error) : exn :=
  match e with
  | not_utf8 => UnicodeDecodeError
  | not_json => JSONDecodeError
  end.

(** [carm_data_models.CompanyProfile] (a pydantic model) and the [json]
    module are used by this package and defined outside it.  The class
    lists what the package calls:
    - [model_validate data]: a validated profile, or pydantic's
      [ValidationError] with its text;
    - [model_dump p]: the profile as a mapping from top-level field names
      to values;
    - [model_dump_json p]: the bytes of [p.model_dump_json(indent=2)] in
      UTF-8;
    - [json_load bytes]: decoding as UTF-8 and JSON parsing of stored
      bytes, failing on bytes that are not UTF-8 or not JSON;
    - [dict_value d]: a Python [dict] seen as a value. *)
Class DataModel : Type := {
  CompanyProfile : Type;
  Value : Type;
  dict_value : gmap string Value → Value;
  model_validate : Value → string + CompanyProfile;
  model_dump : CompanyProfile → gmap string Value;
  model_dump_json : CompanyProfile → string;
  json_load : string → parse_error + Value;
}.

(** [CompanyProfile.model_validate(data)] as a statement. *)
Definition validate `{DataModel} {W} (data : Value) : M W CompanyProfile :=
  λ w, match model_validate data with
       | inl msg => (w, inl (ValidationError msg))
       | inr p => (w, inr p)
       end.

(** Two profiles with the same validated field content. *)
Definition same_content `{DataModel} (p q : CompanyProfile) : Prop :=
  model_dump p = model_dump q.

(** Assumptions on the collaborator that properties of the package rest
    on.  Each is stated where it is used. *)

(** What [model_dump_json] writes is read back by [json.load] and
    [model_validate] as a profile with the same field content. *)
Definition json_round_trip {model : DataModel} : Prop :=
  ∀ p, ∃ data q,
    json_load (model_dump_json p) = inr data ∧
    model_validate data = inr q ∧
    same_content q p.

(** Validation works field by field and is the identity on a value that
    was dumped from a validated profile. *)
Definition validation_keeps_dumped_fields {model : DataModel} : Prop :=
  ∀ p d q k,
    model_validate (dict_value d) = inr q →
    d !! k = model_dump p !! k →
    model_dump q !! k = model_dump p !! k.

(** ** storage/base.py: the storage contract *)

(** [BaseStorage]: the five abstract methods over a backend object [B]
    acting on a world [W].  [load], [exists] and [list] only read the
    world. *)
Class BaseStorage `{DataModel} (B W : Type) : Type := {
  load : B → string → W → exn + CompanyProfile;
  save : B → string → CompanyProfile → M W unit;
  delete : B → string → M W unit;
  exists_ : B → string → W → bool;
  list_ : B → W → exn + list string;
}.

Section base_helpers.
Context `{DataModel} {B W : Type} `{!BaseStorage B W}.

(** [BaseStorage.load_dict] *)
Definition load_dict (self : B) (profile_id : string) (w : W)
  : exn + gmap string Value :=
  match load self profile_id w with
  | inl e => inl e
  | inr profile => inr (model_dump profile)
  end.

(** [BaseStorage.save_dict] *)
Definition save_dict (self : B) (profile_id : string)
    (data : gmap string Value) : M W unit :=
  profile ← validate (dict_value data);
  save self profile_id profile.

End base_helpers.

(** ** storage/local_storage.py *)

Module LocalFileStorage.
Section with_model.
Context `{DataModel} {python : Version}.

Record t : Type := { profiles_dir : Path }.

(** [LocalFileStorage.__init__] *)
Definition __init__ (profiles_dir : string) : M FileSystem t :=
  let dir := of_string profiles_dir in
  _ ← mkdir_parents dir;
  mret {| profiles_dir := dir |}.

Definition _get_file_path (self : t) (profile_id : string) : Path :=
  div (profiles_dir self) (profile_id +:+ ".json").

Definition load (self : t) (profile_id : string) (fs : FileSystem)
  : exn + CompanyProfile :=
  let file_path := _get_file_path self profile_id in
  if negb (path_exists fs file_path) then
    inl (FileNotFoundError
           ("Profile '" +:+ profile_id +:+ "' not found at " +:+ str file_path))
  else
    match read_bytes fs file_path with
    | inl e => inl e
    | inr bytes =>
        match json_load bytes with
        | inl e => inl (parse_exn e)
        | inr data =>
            match model_validate data with
            | inl msg => inl (ValidationError msg)
            | inr profile => inr profile
            end
        end
    end.

Definition save (self : t) (profile_id : string) (profile : CompanyProfile)
  : M FileSystem unit :=
  let file_path := _get_file_path self profile_id in
  _ ← mkdir_parents (parent file_path);
  write_text file_path (model_dump_json profile).

Definition delete (self : t) (profile_id : string) : M FileSystem unit :=
  let file_path := _get_file_path self profile_id in
  λ fs,
    if negb (path_exists fs file_path) then
      (fs, inl (FileNotFoundError ("Profile '" +:+ profile_id +:+ "' not found")))
    else unlink file_path fs.

Definition exists_ (self : t) (profile_id : string) (fs : FileSystem) : bool :=
  path_exists fs (_get_file_path self profile_id).

Definition list_ (self : t) (fs : FileSystem) : exn + list string :=
  if negb (path_exists fs (profiles_dir self)) then inr []
  else inr (Str.sorted (stem_of_name <$> glob_star_json fs (profiles_dir self))).

#[global] Instance storage : BaseStorage t FileSystem := {
  load := load; save := save; delete := delete;
  exists_ := exists_; list_ := list_;
}.

End with_model.
End LocalFileStorage.

(** ** The blob service *)

Module azure.

(** The storage account behind a connection string: its containers, and
    in each the blobs by name with their bytes.  Blob names are flat. *)
Record Cloud : Type := mkCloud {
  containers : gmap string (gmap string string);
}.

(** What the package's code does not fix of [azure.storage.blob]:
    whether [BlobServiceClient.from_connection_string] accepts a
    connection string, and the outcome of
    [BlobServiceClient.get_container_client(name)], the call whose
    [ResourceNotFoundError] [_ensure_container_exists] waits for. *)
Class SDK : Type := {
  from_connection_string : string → Z → exn + unit;
  get_container_client : Cloud → string → exn + unit;
}.

(** The lookup as the released SDK has it: [get_container_client] builds
    a client object and sends no request, so it returns whether or not
    the container is there. *)
Definition lookup_sends_nothing `{SDK} : Prop :=
  ∀ c n, get_container_client c n = inr ().

Definition container_exists (c : Cloud) (n : string) : bool :=
  bool_decide (is_Some (containers c !! n)).

(** A [BlobClient]: the container and the blob it addresses.  Building
    one sends no request. *)
Record BlobClient : Type := { container : string; blob : string }.

(** [BlobServiceClient.create_container(name)] *)
Definition create_container (n : string) : M Cloud unit := λ c,
  match containers c !! n with
  | Some _ => (c, inl ResourceExistsError)
  | None => ({| containers := <[n := ∅]> (containers c) |}, inr ())
  end.

(** [BlobClient.download_blob().readall()] *)
Definition download_blob (b : BlobClient) (c : Cloud) : exn + string :=
  match containers c !! container b with
  | None => inl ResourceNotFoundError
  | Some blobs =>
      match blobs !! blob b with
      | None => inl ResourceNotFoundError
      | Some bytes => inr bytes
      end
  end.

(** What a caller passes as [content_settings]: the SDK's
    [ContentSettings(content_type=...)], or a dictionary
    [{'content_type': ...}]. *)
Inductive content_settings : Type :=
  | ContentSettings (content_type : string)
  | content_type_dict (content_type : string).

(** The headers [upload_blob] builds before it sends anything: it reads
    the attributes of [content_settings], [cache_control] first, and a
    dictionary has none. *)
Definition blob_headers (settings : option content_settings) : exn + option string :=
  match settings with
  | None => inr None
  | Some (ContentSettings content_type) => inr (Some content_type)
  | Some (content_type_dict _) =>
      inl (AttributeError "'dict' object has no attribute 'cache_control'")
  end.

(** [BlobClient.upload_blob(data, overwrite=True, content_settings=...)];
    the account keeps the bytes of a blob, not its headers. *)
Definition upload_blob (b : BlobClient) (data : string)
    (settings : option content_settings) : M Cloud unit := λ c,
  match blob_headers settings with
  | inl e => (c, inl e)
  | inr _ =>
      match containers c !! container b with
      | None => (c, inl ResourceNotFoundError)
      | Some blobs =>
          ({| containers :=
                <[container b := <[blob b := data]> blobs]> (containers c) |},
           inr ())
      end
  end.

(** [BlobClient.delete_blob()] *)
Definition delete_blob (b : BlobClient) : M Cloud unit := λ c,
  match containers c !! container b with
  | None => (c, inl ResourceNotFoundError)
  | Some blobs =>
      match blobs !! blob b with
      | None => (c, inl ResourceNotFoundError)
      | Some _ =>
          ({| containers :=
                <[container b := base.delete (blob b) blobs]> (containers c) |},
           inr ())
      end
  end.

(** [BlobClient.exists()] *)
Definition blob_exists (b : BlobClient) (c : Cloud) : bool :=
  match containers c !! container b with
  | None => false
  | Some blobs => bool_decide (is_Some (blobs !! blob b))
  end.

(** [ContainerClient.list_blobs()], every page of it, as blob names. *)
Definition list_blobs (container_name : string) (c : Cloud) : exn + list string :=
  match containers c !! container_name with
  | None => inl ResourceNotFoundError
  | Some blobs => inr (map_to_list blobs).*1
  end.

End azure.

(** ** storage/azure_storage.py *)

Module AzureBlobStorage.

(** The module's import block: [AZURE_AVAILABLE] is whether
    [azure.storage.blob] could be imported.  [sdk_installed] is that
    fact about the running interpreter. *)
Definition import_sdk (sdk_installed : bool) : exn + unit :=
  if sdk_installed then inr ()
  else inl (ImportError "No module named 'azure'").

Definition AZURE_AVAILABLE (sdk_installed : bool) : bool :=
  match import_sdk sdk_installed with
  | inr _ => true
  | inl (ImportError _) => false
  | inl _ => false
  end.

(** Importing [azure_storage] itself: the [ImportError] of the SDK is
    caught inside the module, so the import succeeds either way. *)
Definition import_module (sdk_installed : bool) : exn + unit :=
  match import_sdk sdk_installed with
  | inr _ => inr ()
  | inl (ImportError _) => inr ()
  | inl e => inl e
  end.

Section with_model.
Context `{DataModel} {sdk : azure.SDK}.
Import azure.

(** The object's fields; its [blob_service_client] is the handle on the
    storage account, here the [Cloud] the methods run in. *)
Record t : Type := {
  connection_string : string;
  container_name : string;
  timeout_seconds : Z;
}.

Definition _ensure_container_exists (self : t) : M Cloud unit := λ c,
  match get_container_client c (container_name self) with
  | inr _ => (c, inr ())
  | inl ResourceNotFoundError => create_container (container_name self) c
  | inl e => (c, inl e)
  end.

(** [AzureBlobStorage.__init__] *)
Definition __init__ (sdk_installed : bool)
    (connection_string container_name : string) (timeout_seconds : Z)
  : M Cloud t :=
  if negb (AZURE_AVAILABLE sdk_installed) then
    raise (ImportError ("Azure Storage SDK not installed. " +:+
                        "Install with: pip install carm-company-profile[azure]"))
  else
    let self := {| connection_string := connection_string;
                   container_name := container_name;
                   timeout_seconds := timeout_seconds |} in
    _ ← reads (λ _, from_connection_string connection_string timeout_seconds);
    _ ← _ensure_container_exists self;
    mret self.

Definition _get_blob_name (profile_id : string) : string :=
  profile_id +:+ ".json".

Definition _get_blob_client (self : t) (profile_id : string) : BlobClient :=
  let blob_name := _get_blob_name profile_id in
  {| container := container_name self; blob := blob_name |}.

Definition load (self : t) (profile_id : string) (c : Cloud)
  : exn + CompanyProfile :=
  let blob_client := _get_blob_client self profile_id in
  let body :=
    match download_blob blob_client c with
    | inl e => inl e
    | inr content =>
        match json_load content with
        | inl e => inl (parse_exn e)
        | inr data =>
            match model_validate data with
            | inl msg => inl (ValidationError msg)
            | inr profile => inr profile
            end
        end
    end in
  match body with
  | inl ResourceNotFoundError =>
      inl (FileNotFoundError
             ("Profile '" +:+ profile_id +:+ "' not found in Azure Blob Storage"))
  | r => r
  end.

Definition save (self : t) (profile_id : string) (profile : CompanyProfile)
  : M Cloud unit :=
  let blob_client := _get_blob_client self profile_id in
  let json_data := model_dump_json profile in
  upload_blob blob_client json_data (Some (content_type_dict "application/json")).

Definition delete (self : t) (profile_id : string) : M Cloud unit := λ c,
  let blob_client := _get_blob_client self profile_id in
  match delete_blob blob_client c with
  | (c', inl ResourceNotFoundError) =>
      (c', inl (FileNotFoundError ("Profile '" +:+ profile_id +:+ "' not found")))
  | r => r
  end.

Definition exists_ (self : t) (profile_id : string) (c : Cloud) : bool :=
  let blob_client := _get_blob_client self profile_id in
  blob_exists blob_client c.

Definition list_ (self : t) (c : Cloud) : exn + list string :=
  match get_container_client c (container_name self) with
  | inl e => inl e
  | inr _ =>
      match list_blobs (container_name self) c with
      | inl e => inl e
      | inr names =>
          inr (Str.sorted
                 (Str.drop_last 5 <$> filter (λ n, Str.endswith n ".json") names))
      end
  end.

#[global] Instance storage : BaseStorage t Cloud := {
  load := load; save := save; delete := delete;
  exists_ := exists_; list_ := list_;
}.

End with_model.
End AzureBlobStorage.

(** ** storage/__init__.py *)

Module storage_package.

(** The package's own [AZURE_AVAILABLE]: whether
    [from .azure_storage import AzureBlobStorage] raised [ImportError]. *)
Definition AZURE_AVAILABLE (sdk_installed : bool) : bool :=
  match AzureBlobStorage.import_module sdk_installed with
  | inr _ => true
  | inl (ImportError _) => false
  | inl _ => false
  end.

End storage_package.

(** ** Python built-ins used by the detector *)

Module builtins.

Fixpoint lstrip (s : string) : string :=
  match s with
  | String a s' => if Ascii.is_space a then lstrip s' else s
  | "" => ""
  end.

Definition strip (s : string) : string :=
  String.rev (lstrip (String.rev (lstrip s))).

(** Decimal digits with single underscores allowed between digits. *)
Fixpoint digits (acc : Z) (after_digit : bool) (s : string) : option Z :=
  match s with
  | "" => if after_digit then Some acc else None
  | String a s' =>
      match Ascii.is_nat a with
      | Some d => digits (10 * acc + Z.of_nat d) true s'
      | None =>
          if Ascii.eqb a "_" && after_digit then
            match s' with
            | "" => None
            | _ => digits acc false s'
            end
          else None
      end
  end.

(** An ASCII literal in base ten: white space around, a sign, digits. *)
Definition int_literal (s : string) : option Z :=
  match strip s with
  | String "-" s' => Z.opp <$> digits 0 false s'
  | String "+" s' => digits 0 false s'
  | s' => digits 0 false s'
  end.

Fixpoint is_ascii (s : string) : bool :=
  match s with
  | "" => true
  | String a s' => (nat_of_ascii a <? 128)%nat && is_ascii s'
  end.

Fixpoint digit_count (s : string) : nat :=
  match s with
  | "" => 0
  | String a s' =>
      match Ascii.is_nat a with
      | Some _ => S (digit_count s')
      | None => digit_count s'
      end
  end.

(** Two things [int] does with a string are the interpreter's own: the
    largest number of digits it converts
    ([sys.get_int_max_str_digits()], 4300 unless set otherwise, 0 for no
    limit), and what it makes of text with a character outside ASCII,
    which rests on the Unicode tables it was built with. *)
Class Interpreter : Type := {
  int_max_str_digits : nat;
  int_non_ascii : string → option Z;
}.

(** The limit is looked at for more than 640 digits only. *)
Definition over_digit_limit `{Interpreter} (s : string) : bool :=
  (640 <? digit_count s)%nat && (0 <? int_max_str_digits)%nat
  && (int_max_str_digits <? digit_count s)%nat.

(** [int(s)] on a string, base ten; [None] for [ValueError]. *)
Definition int `{Interpreter} (s : string) : option Z :=
  if is_ascii s then
    if over_digit_limit s then None else int_literal s
  else int_non_ascii s.

(** [os.getenv(key)] and [os.getenv(key, default)] *)
Definition getenv (environ : gmap string string) (key : string) : option string :=
  environ !! key.

Definition getenv_default (environ : gmap string string) (key fallback : string)
  : string :=
  default fallback (environ !! key).

(** Truth value of an optional string: [None] and [""] are false. *)
Definition truthy (v : option string) : bool :=
  match v with
  | None | Some "" => false
  | Some _ => true
  end.

End builtins.

(** ** manager.py *)

(** The world of a process that may use either backend: the file system,
    the storage account, and what was printed. *)
Record World : Type := mkWorld {
  fs : FileSystem;
  cloud : azure.Cloud;
  stdout : list string;
}.

Definition print (line : string) : M World unit := λ w,
  ({| fs := fs w; cloud := cloud w; stdout := stdout w ++ [line] |}, inr ()).

(** Run a file-system statement, or a blob-service statement, in the
    process's world. *)
Definition on_fs {A} (m : M FileSystem A) : M World A := λ w,
  let '(fs', r) := m (fs w) in
  ({| fs := fs'; cloud := cloud w; stdout := stdout w |}, r).

Definition on_cloud {A} (m : M azure.Cloud A) : M World A := λ w,
  let '(c', r) := m (cloud w) in
  ({| fs := fs w; cloud := c'; stdout := stdout w |}, r).

(** A backend chosen at run time. *)
Inductive Storage : Type :=
  | Local (s : LocalFileStorage.t)
  | Azure (s : AzureBlobStorage.t).

Section any_storage.
Context `{DataModel} {python : Version} {sdk : azure.SDK}
        {interp : builtins.Interpreter}.

#[global] Instance Storage_storage : BaseStorage Storage World := {
  load s id w :=
    match s with
    | Local s => LocalFileStorage.load s id (fs w)
    | Azure s => AzureBlobStorage.load s id (cloud w)
    end;
  save s id p :=
    match s with
    | Local s => on_fs (LocalFileStorage.save s id p)
    | Azure s => on_cloud (AzureBlobStorage.save s id p)
    end;
  delete s id :=
    match s with
    | Local s => on_fs (LocalFileStorage.delete s id)
    | Azure s => on_cloud (AzureBlobStorage.delete s id)
    end;
  exists_ s id w :=
    match s with
    | Local s => LocalFileStorage.exists_ s id (fs w)
    | Azure s => AzureBlobStorage.exists_ s id (cloud w)
    end;
  list_ s w :=
    match s with
    | Local s => LocalFileStorage.list_ s (fs w)
    | Azure s => AzureBlobStorage.list_ s (cloud w)
    end;
}.

(** [_auto_detect_storage()], in a process with environment [environ]
    and with or without the Azure SDK installed.  The
    [AZURE_AVAILABLE] it tests is the one imported from the [storage]
    package. *)
Definition _auto_detect_storage (environ : gmap string string)
    (sdk_installed : bool) : M World Storage :=
  let environment :=
    Str.lower (builtins.getenv_default environ "ENVIRONMENT" "development") in
  let azure_connection_string :=
    builtins.getenv environ "AZURE_STORAGE_CONNECTION_STRING" in
  let azure_container_name :=
    builtins.getenv_default environ "AZURE_STORAGE_CONTAINER_NAME" "company-profiles" in
  if String.eqb environment "production"
     && builtins.truthy azure_connection_string
     && storage_package.AZURE_AVAILABLE sdk_installed
  then
    _ ← print ("🔵 Using Azure Blob Storage (container: "
               +:+ azure_container_name +:+ ")");
    match builtins.int
            (builtins.getenv_default environ "AZURE_STORAGE_TIMEOUT_SECONDS" "30") with
    | None =>
        raise (ValueError
                 ("invalid literal for int() with base 10: '" +:+
                  builtins.getenv_default environ "AZURE_STORAGE_TIMEOUT_SECONDS" "30"
                  +:+ "'"))
    | Some timeout =>
        s ← on_cloud (AzureBlobStorage.__init__ sdk_installed
                        (default "" azure_connection_string)
                        azure_container_name timeout);
        mret (Azure s)
    end
  else
    let profiles_dir := builtins.getenv_default environ "PROFILES_DIR" "./profiles" in
    _ ← print ("📁 Using Local File Storage (directory: " +:+ profiles_dir +:+ ")");
    s ← on_fs (LocalFileStorage.__init__ profiles_dir);
    mret (Local s).

End any_storage.

Module ProfileManager.
Section with_storage.
Context `{DataModel} {B W : Type} `{!BaseStorage B W}.

Record t : Type := { storage : B }.

Definition load (self : t) (profile_id : string) (w : W) : exn + CompanyProfile :=
  load (storage self) profile_id w.

Definition save (self : t) (profile_id : string) (profile : CompanyProfile)
  : M W unit :=
  save (storage self) profile_id profile.

Definition delete (self : t) (profile_id : string) : M W unit :=
  delete (storage self) profile_id.

Definition exists_ (self : t) (profile_id : string) (w : W) : bool :=
  exists_ (storage self) profile_id w.

Definition list_ (self : t) (w : W) : exn + list string :=
  list_ (storage self) w.

Definition create (self : t) (profile_id : string)
    (profile_data : gmap string Value) : M W CompanyProfile :=
  already ← reads (λ w, inr (exists_ self profile_id w));
  if already : bool then
    raise (ValueError ("Profile '" +:+ profile_id +:+ "' already exists"))
  else
    profile ← validate (dict_value profile_data);
    _ ← save self profile_id profile;
    mret profile.

(** [profile_dict.update(updates)]: the keys of [updates] override. *)
Definition dict_update (profile_dict updates : gmap string Value)
  : gmap string Value :=
  updates ∪ profile_dict.

Definition update (self : t) (profile_id : string)
    (updates : gmap string Value) : M W CompanyProfile :=
  profile ← reads (load self profile_id);
  let profile_dict := dict_update (model_dump profile) updates in
  updated_profile ← validate (dict_value profile_dict);
  _ ← save self profile_id updated_profile;
  mret updated_profile.

End with_storage.

Section init.
Context `{DataModel} {python : Version} {sdk : azure.SDK}
        {interp : builtins.Interpreter}.

(** [ProfileManager.__init__(storage)]: the given backend, or the
    detected one when none is given. *)
Definition __init__ (environ : gmap string string) (sdk_installed : bool)
    (storage : option Storage) : M World (t (B := Storage)) :=
  match storage with
  | Some s => mret {| storage := s |}
  | None =>
      s ← _auto_detect_storage environ sdk_installed;
      mret {| storage := s |}
  end.

End init.
End ProfileManager.

(** ** loader.py *)

Module loader.
Section with_model.
Context `{DataModel} {python : Version} {sdk : azure.SDK}
        {interp : builtins.Interpreter}.

(** The interpreter that has imported the module: the world it runs in
    and the module's global [_manager], [None] until the first use. *)
Record Process : Type := {
  world : World;
  _manager : option (ProfileManager.t (B := Storage));
}.

(** A statement on the world, run in the process. *)
Definition in_world {A} (m : M World A) : M Process A := λ st,
  let '(w', r) := m (world st) in
  ({| world := w'; _manager := _manager st |}, r).

(** [_get_manager()], called when the process environment is [environ].
    The assignment to the global happens only when [ProfileManager()]
    has returned. *)
Definition _get_manager (environ : gmap string string) (sdk_installed : bool)
  : M Process (ProfileManager.t (B := Storage)) := λ st,
  match _manager st with
  | None =>
      match ProfileManager.__init__ environ sdk_installed None (world st) with
      | (w', inl e) => ({| world := w'; _manager := None |}, inl e)
      | (w', inr manager) =>
          ({| world := w'; _manager := Some manager |}, inr manager)
      end
  | Some manager => (st, inr manager)
  end.

Definition load_company_profile (environ : gmap string string)
    (sdk_installed : bool) (profile_id : string) : M Process CompanyProfile :=
  manager ← _get_manager environ sdk_installed;
  in_world (reads (ProfileManager.load manager profile_id)).

Definition save_company_profile (environ : gmap string string)
    (sdk_installed : bool) (profile_id : string) (profile : CompanyProfile)
  : M Process unit :=
  manager ← _get_manager environ sdk_installed;
  in_world (ProfileManager.save manager profile_id profile).

Definition list_company_profiles (environ : gmap string string)
    (sdk_installed : bool) : M Process (list string) :=
  manager ← _get_manager environ sdk_installed;
  in_world (reads (ProfileManager.list_ manager)).

Definition profile_exists (environ : gmap string string)
    (sdk_installed : bool) (profile_id : string) : M Process bool :=
  manager ← _get_manager environ sdk_installed;
  in_world (reads (λ w, inr (ProfileManager.exists_ manager profile_id w))).

End with_model.
End loader.

(** ** Operation histories *)

(** A call that changes the store, and a history of such calls run in
    order against a backend.  A call that raises leaves the world it
    reached and the history goes on, as a caller catching the exception
    would. *)
Inductive op `{DataModel} : Type :=
  | Save (profile_id : string) (profile : CompanyProfile)
  | Delete (profile_id : string).

Section histories.
Context `{DataModel} {B W : Type} `{!BaseStorage B W}.

Definition run_op (self : B) (o : op) (w : W) : W :=
  match o with
  | Save profile_id profile => (save self profile_id profile w).1
  | Delete profile_id => (delete self profile_id w).1
  end.

Definition run (self : B) (history : list op) (w : W) : W :=
  foldl (λ w o, run_op self o w) w history.

End histories.

Definition op_id `{DataModel} (o : op) : string :=
  match o with
  | Save profile_id _ => profile_id
  | Delete profile_id => profile_id
  end.

(** Whether the last call on [profile_id] in the history is a [save]:
    [false] when it was never saved, or deleted after its last save. *)
Definition live `{DataModel} (profile_id : string) (history : list op) : bool :=
  foldl (λ b o,
           match o with
           | Save i _ => if decide (i = profile_id) then true else b
           | Delete i => if decide (i = profile_id) then false else b
           end) false history.

(** An ID that names a file directly inside the profiles directory. *)
Definition no_separator (profile_id : string) : Prop :=
  Str.contains "/" profile_id = false.

(** The profile of the last [save] on [profile_id] in the history, unless
    a [delete] on it came later. *)
Definition last_saved `{DataModel} (profile_id : string) (history : list op)
  : option CompanyProfile :=
  foldl (λ r o,
           match o with
           | Save i p => if decide (i = profile_id) then Some p else r
           | Delete i => if decide (i = profile_id) then None else r
           end) None history.

(** The records a history leaves in a store that was empty, by key, when
    every call went through. *)
Definition stored `{DataModel} (history : list op) : gmap string string :=
  foldl (λ m o,
           match o with
           | Save i p => <[i +:+ ".json" := model_dump_json p]> m
           | Delete i => base.delete (i +:+ ".json") m
           end) ∅ history.

(** ** Notions used in the statements *)

(** [fs'] has every directory of [fs]. *)
Definition keeps_dirs (fs fs' : FileSystem) : Prop :=
  cwd fs = cwd fs' ∧ ∀ k, node_at fs k = Some Dir → node_at fs' k = Some Dir.

(** What both backends do with the bytes of a record: [json.load], then
    [model_validate]. *)
Definition parse_profile `{DataModel} (bytes : string) : exn + CompanyProfile :=
  match json_load bytes with
  | inl e => inl (parse_exn e)
  | inr data =>
      match model_validate data with
      | inl msg => inl (ValidationError msg)
      | inr profile => inr profile
      end
  end.

(** The profiles directory of a local backend is the directory at the
    canonical path [kd]. *)
Definition dir_at (self : LocalFileStorage.t) (fs : FileSystem)
    (kd : list string) : Prop :=
  locate fs (LocalFileStorage.profiles_dir self) = inr kd ∧
  node_at fs kd = Some Dir.

(** The canonical path of [id.json] inside the directory at [kd]. *)
Definition record_key (kd : list string) (profile_id : string) : list string :=
  kd ++ [profile_id +:+ ".json"].

(** The profiles directory exists and has no entry. *)
Definition empty_dir (self : LocalFileStorage.t) (fs : FileSystem) : bool :=
  is_dir fs (LocalFileStorage.profiles_dir self) &&
  match locate fs (LocalFileStorage.profiles_dir self) with
  | inr kd => bool_decide (scandir fs kd = [])
  | inl _ => false
  end.

(** A backend nothing was saved to yet: an empty profiles directory, or a
    container without blobs (or not created). *)
Definition fresh (s : Storage) (w : World) : bool :=
  match s with
  | Local l => empty_dir l (fs w)
  | Azure a =>
      match azure.containers (cloud w) !! AzureBlobStorage.container_name a with
      | Some blobs => bool_decide (blobs = ∅)
      | None => true
      end
  end.

(** The IDs a backend maps to keys of its own store one to one: any ID
    for the blob backend, the IDs without path separator for the local
    one. *)
Definition flat_id (s : Storage) (profile_id : string) : Prop :=
  match s with
  | Local _ => no_separator profile_id
  | Azure _ => True
  end.

(** The IDs whose record has a path within the limits of the platform. *)
Definition id_within_limits (s : Storage) (profile_id : string) : Prop :=
  match s with
  | Local l => within_limits (LocalFileStorage._get_file_path l profile_id) = true
  | Azure _ => True
  end.

(** An ID the local backend keeps a record for inside its own directory:
    no path separator, and a record path within the limits of the
    platform. *)
Definition storable (l : LocalFileStorage.t) (profile_id : string) : Prop :=
  no_separator profile_id ∧
  within_limits (LocalFileStorage._get_file_path l profile_id) = true.

(** The local backend's directory is in place. *)
Definition ready (s : Storage) (w : World) : Prop :=
  match s with
  | Local l => is_dir (fs w) (LocalFileStorage.profiles_dir l) = true
  | Azure _ => True
  end.

(** Some character of [s] is not a dot. *)
Definition has_non_dot (s : string) : bool :=
  negb (String.eqb (Str.lstrip_char "." s) "").

(** No entry [*.json] of the local backend's directory has only dots (or
    nothing) before the extension: these are the names whose stem is not,
    in every Python, what precedes the extension. *)
Definition listable (s : Storage) (w : World) : Prop :=
  match s with
  | Local l =>
      Forall (λ n, has_non_dot (Str.drop_last 5 n) = true)
             (glob_star_json (fs w) (LocalFileStorage.profiles_dir l))
  | Azure _ => True
  end.

(** When [list()] returns: always on the local backend; on the blob
    backend when the container lookup returns and the container is in
    place. *)
Definition can_list {sdk : azure.SDK} (s : Storage) (w : World) : Prop :=
  match s with
  | Local _ => True
  | Azure a =>
      azure.get_container_client (cloud w) (AzureBlobStorage.container_name a) = inr () ∧
      azure.container_exists (cloud w) (AzureBlobStorage.container_name a) = true
  end.

(** The NotFound errors of the two backends' [delete]. *)
Definition local_not_found (profile_id : string) : exn :=
  FileNotFoundError ("Profile '" +:+ profile_id +:+ "' not found").

Definition azure_not_found (profile_id : string) : exn :=
  FileNotFoundError ("Profile '" +:+ profile_id +:+ "' not found in Azure Blob Storage").

(** Every entry of the directory at [kd] is the record of an ID whose
    last call in the history is a [save]. *)
Definition local_inv `{DataModel} (self : LocalFileStorage.t) (kd : list string)
    (history : list op) (fs : FileSystem) : Prop :=
  dir_at self fs kd ∧
  ∀ n x, nodes fs !! (kd ++ [n]) = Some x →
    ∃ profile_id text,
      n = profile_id +:+ ".json" ∧ x = File text ∧ live profile_id history = true.

(** Every blob of the container is the record of an ID whose last call in
    the history is a [save]. *)
Definition azure_inv `{DataModel} (self : AzureBlobStorage.t)
    (history : list op) (c : azure.Cloud) : Prop :=
  ∀ blobs n x,
    azure.containers c !! AzureBlobStorage.container_name self = Some blobs →
    blobs !! n = Some x →
    ∃ profile_id, n = profile_id +:+ ".json" ∧ live profile_id history = true.

(** The environment of the failing run of the detector: production, a
    connection string, nothing else set. *)
Definition production_environ : gmap string string :=
  {[ "ENVIRONMENT" := "production";
     "AZURE_STORAGE_CONNECTION_STRING" := "UseDevelopmentStorage=true" ]}.

(** The two conditions on the environment that the detector tests. *)
Definition wants_azure (environ : gmap string string) : bool :=
  String.eqb (Str.lower (builtins.getenv_default environ "ENVIRONMENT" "development"))
             "production"
  && builtins.truthy (builtins.getenv environ "AZURE_STORAGE_CONNECTION_STRING").

(** An ID that names a file directly inside the profiles directory and
    whose file name has that ID as its stem in every Python. *)
Definition plain_id (profile_id : string) : Prop :=
  no_separator profile_id ∧ has_non_dot profile_id = true.

(** The IDs whose records a backend lists back as they were saved. *)
Definition listed_id (s : Storage) (profile_id : string) : Prop :=
  match s with
  | Local _ => plain_id profile_id
  | Azure _ => True
  end.

(** The store of a backend is in place and holds nothing: an empty
    profiles directory, or an empty container. *)
Definition empty_store (s : Storage) (w : World) : bool :=
  match s with
  | Local l => empty_dir l (fs w)
  | Azure a =>
      match azure.containers (cloud w) !! AzureBlobStorage.container_name a with
      | Some blobs => bool_decide (blobs = ∅)
      | None => false
      end
  end.

(** Every node of [fs] is a node of [fs'], which has no file besides. *)
Definition only_adds_dirs (fs fs' : FileSystem) : Prop :=
  cwd fs' = cwd fs ∧
  (∀ k n, nodes fs !! k = Some n → nodes fs' !! k = Some n) ∧
  (∀ k text, nodes fs' !! k = Some (File text) → nodes fs !! k = Some (File text)).

(** The directory at [kd] is the profiles directory of a local backend
    and its entries are the files of [records], by name. *)
Definition local_holds (self : LocalFileStorage.t) (kd : list string)
    (records : gmap string string) (fs : FileSystem) : Prop :=
  dir_at self fs kd ∧ ∀ n, nodes fs !! (kd ++ [n]) = File <$> records !! n.

(** ** A small data model to run the code on *)

(** A profile with a required flag [active] and an optional flag
    [verified] (default [false]); unknown keys are ignored. *)
Module sample.

Record profile : Type := { active : bool; verified : bool }.

Inductive value : Type :=
  | VMissing
  | VBool (b : bool)
  | VDoc (active verified : value).

Definition flag (v : value) (fallback : option bool) : option bool :=
  match v with
  | VBool b => Some b
  | VMissing => fallback
  | VDoc _ _ => None
  end.

Definition validate_doc (data : value) : string + profile :=
  match data with
  | VDoc a v =>
      match flag a None, flag v (Some false) with
      | Some a, Some v => inr {| active := a; verified := v |}
      | _, _ => inl "validation error for CompanyProfile"
      end
  | _ => inl "validation error for CompanyProfile"
  end.

Definition dump (p : profile) : gmap string value :=
  {[ "active" := VBool (active p); "verified" := VBool (verified p) ]}.

Definition json_bool (b : bool) : string := if b then "true" else "false".

Definition dump_json (p : profile) : string :=
  "{ active: " +:+ json_bool (active p) +:+
  ", verified: " +:+ json_bool (verified p) +:+ " }".

Definition all_profiles : list profile :=
  [ {| active := false; verified := false |};
    {| active := false; verified := true |};
    {| active := true; verified := false |};
    {| active := true; verified := true |} ].

Definition load_json (bytes : string) : parse_error + value :=
  match List.find (λ p, String.eqb (dump_json p) bytes) all_profiles with
  | Some p => inr (VDoc (VBool (active p)) (VBool (verified p)))
  | None => inl not_json
  end.

#[export] Instance model : DataModel := {
  CompanyProfile := profile;
  Value := value;
  dict_value d :=
    VDoc (default VMissing (d !! "active")) (default VMissing (d !! "verified"));
  model_validate := validate_doc;
  model_dump := dump;
  model_dump_json := dump_json;
  json_load := load_json;
}.

(** Python 3.12, say; and Python 3.14. *)
#[export] Instance py312 : Version := {| from_314 := false |}.

Definition py314 : Version := {| from_314 := true |}.

(** The key of a setting [key=value] of a connection string, in lower
    case. *)
Definition setting_key (setting : string) : string :=
  Str.lower (hd "" (Str.split "=" setting)).

(** Parsing a connection string: settings [key=value] separated by
    semicolons, among them the account name or the blob endpoint. *)
Definition parse_connection_str (conn : string) : exn + unit :=
  let settings :=
    Str.split ";" (String.rev (Str.lstrip_char ";" (String.rev conn))) in
  if existsb (λ setting, negb (Str.contains "=" setting)) settings then
    inl (ValueError "Connection string is either blank or malformed.")
  else if existsb (λ setting, String.eqb (setting_key setting) "accountname"
                              || String.eqb (setting_key setting) "blobendpoint")
            settings then inr ()
  else inl (ValueError "Connection string missing required connection details.").

(** A blob SDK that takes the connection strings naming an account or an
    endpoint, and whose container lookup builds a client without asking
    the service. *)
#[export] Instance installed_sdk : azure.SDK := {
  from_connection_string conn _ := parse_connection_str conn;
  get_container_client _ _ := inr ();
}.

(** The Arabic-Indic digits (U+0660 to U+0669, the bytes [D9 A0] to
    [D9 A9] in UTF-8) written as ASCII digits. *)
Fixpoint arabic_indic (s : string) : option string :=
  match s with
  | "" => Some ""
  | String "217" (String b s') =>
      let n := nat_of_ascii b in
      if (160 <=? n)%nat && (n <=? 169)%nat then
        String (ascii_of_nat (n - 112)) <$> arabic_indic s'
      else None
  | String a s' =>
      if (nat_of_ascii a <? 128)%nat then String a <$> arabic_indic s' else None
  end.

(** An interpreter with the default limit on digits; of the text outside
    ASCII it reads the Arabic-Indic digits and nothing else. *)
#[export] Instance cpython : builtins.Interpreter := {
  int_max_str_digits := 4300;
  int_non_ascii s := arabic_indic s ≫= builtins.int_literal;
}.

Definition acme : CompanyProfile := {| active := true; verified := false |}.
Definition other : CompanyProfile := {| active := false; verified := true |}.

(** A process started in [/srv] where nothing else exists. *)
Definition empty_fs : FileSystem := {| cwd := ["srv"]; nodes := {[ ["srv"] := Dir ]} |}.

Definition empty_cloud : azure.Cloud := {| azure.containers := ∅ |}.

(** The local backend on [./profiles], and the file system its
    constructor leaves. *)
Definition store : LocalFileStorage.t :=
  {| LocalFileStorage.profiles_dir := of_string "./profiles" |}.

Definition fs0 : FileSystem := (LocalFileStorage.__init__ "./profiles" empty_fs).1.

(** The blob backend on the default container, and an account where
    that container is in place and empty. *)
Definition account : string :=
  "DefaultEndpointsProtocol=https;AccountName=carm;AccountKey=a2V5;" +:+
  "EndpointSuffix=core.windows.net".

Definition blob_store : AzureBlobStorage.t :=
  {| AzureBlobStorage.connection_string := account;
     AzureBlobStorage.container_name := "company-profiles";
     AzureBlobStorage.timeout_seconds := 30 |}.

Definition cloud0 : azure.Cloud :=
  (azure.create_container "company-profiles" empty_cloud).1.

(** The account when [acme.json] was uploaded to the container by other
    means. *)
Definition cloud_acme : azure.Cloud :=
  (azure.upload_blob (AzureBlobStorage._get_blob_client blob_store "acme")
     (dump_json acme) (Some (azure.ContentSettings "application/json")) cloud0).1.

Definition world0 : World := {| fs := fs0; cloud := cloud0; stdout := [] |}.

Definition manager : ProfileManager.t := {| ProfileManager.storage := Local store |}.

Definition blob_manager : ProfileManager.t :=
  {| ProfileManager.storage := Azure blob_store |}.

(** The scenario of the package's own test: create, update, look up,
    list, delete; what each step returned, step by step. *)
Definition scenario (m : ProfileManager.t (B := Storage)) (w0 : World) :=
  let '(w1, created) :=
    ProfileManager.create m "acme" {[ "active" := VBool true ]} w0 in
  let '(w2, updated) :=
    ProfileManager.update m "acme" {[ "verified" := VBool true ]} w1 in
  let '(w3, deleted) := ProfileManager.delete m "acme" w2 in
  (created, updated, ProfileManager.load m "acme" w2,
   ProfileManager.exists_ m "acme" w2, ProfileManager.list_ m w2,
   deleted, ProfileManager.exists_ m "acme" w3).

(** [profiles/acme.json] holding bytes that are not JSON. *)
Definition fs_junk : FileSystem :=
  (write_text (LocalFileStorage._get_file_path store "acme") "not json" fs0).1.

(** A local backend on [a.json/..], in a process where that directory was
    never made. *)
Definition dotdot_store : LocalFileStorage.t :=
  {| LocalFileStorage.profiles_dir := of_string "a.json/.." |}.

Definition bare_world : World :=
  {| fs := empty_fs; cloud := empty_cloud; stdout := [] |}.

(** A process in [/srv] where [profiles] is a regular file. *)
Definition fs_blocked : FileSystem :=
  (write_text (of_string "profiles") "notes" empty_fs).1.

(** A second local backend, on [./backup], and the file system with the
    directories of both. *)
Definition backup_store : LocalFileStorage.t :=
  {| LocalFileStorage.profiles_dir := of_string "./backup" |}.

Definition fs_two : FileSystem := (LocalFileStorage.__init__ "./backup" fs0).1.

Definition world_acme : World := {| fs := fs0; cloud := cloud_acme; stdout := [] |}.

(** A second blob backend, on the container [archive], and the account
    with the containers of both, an [acme.json] in each. *)
Definition archive_store : AzureBlobStorage.t :=
  {| AzureBlobStorage.connection_string := account;
     AzureBlobStorage.container_name := "archive";
     AzureBlobStorage.timeout_seconds := 30 |}.

Definition cloud_two : azure.Cloud :=
  (azure.upload_blob (AzureBlobStorage._get_blob_client archive_store "acme")
     (dump_json other) (Some (azure.ContentSettings "application/json"))
     (azure.create_container "archive" cloud_acme).1).1.

(** The calls of a short session. *)
Definition session : list op :=
  [Save "acme" acme; Save "zeta" other; Delete "acme"].

(** A process that has imported the loader and not used it yet. *)
Definition process0 : loader.Process :=
  {| loader.world := bare_world; loader._manager := None |}.

End sample.

(** Closed goals are settled by running the code. *)
Ltac by_running := vm_compute; repeat split; first [reflexivity | discriminate].

(** * Properties *)

(** ** Strings and paths *)

Section string_facts.

Lemma append_nil_l (t : string) : "" +:+ t = t.
Proof. reflexivity. Qed.

Lemma append_cons (a : ascii) (s t : string) :
  String a s +:+ t = String a (s +:+ t).
Proof. reflexivity. Qed.

Lemma length_append (s t : string) :
  String.length (s +:+ t) = String.length s + String.length t.
Proof. induction s as [|a s IH]; [done|]. rewrite append_cons. cbn. by rewrite IH. Qed.

(** [id + ".json"] determines [id]. *)
Lemma append_inj_l (s1 s2 t : string) : s1 +:+ t = s2 +:+ t → s1 = s2.
Proof.
  revert s2. induction s1 as [|a s1 IH]; intros [|b s2] Heq;
    rewrite ?append_cons, ?append_nil_l in Heq.
  - done.
  - apply (f_equal String.length) in Heq. cbn in Heq.
    rewrite length_append in Heq. lia.
  - apply (f_equal String.length) in Heq. cbn in Heq.
    rewrite length_append in Heq. lia.
  - injection Heq as -> Heq. f_equal. by apply IH.
Qed.

Lemma endswith_unfold (s t : string) :
  Str.endswith s t =
  if String.eqb s t then true
  else match s with "" => false | String _ s' => Str.endswith s' t end.
Proof. by destruct s. Qed.

Lemma endswith_spec (s t : string) :
  Str.endswith s t = true ↔ ∃ pre, s = pre +:+ t.
Proof.
  induction s as [|a s IH]; rewrite endswith_unfold.
  - destruct (String.eqb_spec "" t) as [<-|E].
    + split; [by exists ""|done].
    + split; [done|]. intros [pre Hpre].
      destruct pre; rewrite ?append_cons, ?append_nil_l in Hpre; done.
  - destruct (String.eqb_spec (String a s) t) as [<-|E].
    + split; [by exists ""|done].
    + rewrite IH. split.
      * intros [pre ->]. by exists (String a pre).
      * intros [[|b pre] Hpre]; rewrite ?append_cons, ?append_nil_l in Hpre.
        -- by subst t.
        -- injection Hpre as -> ->. by exists pre.
Qed.

Lemma endswith_append (s t : string) : Str.endswith (s +:+ t) t = true.
Proof. apply endswith_spec. by exists s. Qed.

Lemma take_append (s t : string) : Str.take (String.length s) (s +:+ t) = s.
Proof.
  induction s as [|a s IH]; rewrite ?append_cons, ?append_nil_l; cbn;
    [by destruct t|]. by rewrite IH.
Qed.

Lemma drop_last_append (s t : string) :
  Str.drop_last (String.length t) (s +:+ t) = s.
Proof.
  unfold Str.drop_last. rewrite length_append.
  replace (String.length s + String.length t - String.length t)
    with (String.length s) by lia.
  apply take_append.
Qed.

Lemma rfind_append (c : ascii) (s t : string) :
  Str.rfind c (s +:+ t) =
  match Str.rfind c t with
  | Some i => Some (String.length s + i)
  | None => Str.rfind c s
  end.
Proof.
  induction s as [|a s IH]; rewrite ?append_cons, ?append_nil_l; cbn.
  - by destruct (Str.rfind c t).
  - rewrite IH. by destruct (Str.rfind c t).
Qed.

Lemma contains_append (c : ascii) (s t : string) :
  Str.contains c (s +:+ t) = Str.contains c s || Str.contains c t.
Proof.
  induction s as [|a s IH]; rewrite ?append_cons, ?append_nil_l; cbn; [done|].
  rewrite IH. by rewrite orb_assoc.
Qed.

Lemma split_without_separator (c : ascii) (s : string) :
  Str.contains c s = false → Str.split c s = [s].
Proof.
  induction s as [|a s IH]; cbn; [done|].
  intros [Ha Hs]%orb_false_elim. rewrite Ha, (IH Hs). done.
Qed.

Lemma json_name_length (profile_id : string) :
  String.length (profile_id +:+ ".json") = String.length profile_id + 5.
Proof. by rewrite length_append. Qed.

Lemma has_non_dot_not_empty (s : string) : has_non_dot s = true → s ≠ "".
Proof. by intros Hs ->. Qed.

(** The stem of [id.json] is [id] when [id] is not made of dots only, in
    every Python. *)
Lemma stem_of_json_name {python : Version} (profile_id : string) :
  has_non_dot profile_id = true →
  stem_of_name (profile_id +:+ ".json") = profile_id.
Proof.
  intros Hd. pose proof (has_non_dot_not_empty _ Hd) as Hne. unfold stem_of_name.
  rewrite rfind_append. change (Str.rfind "." ".json") with (Some 0).
  cbv beta iota. rewrite Nat.add_0_r, json_name_length, take_append.
  destruct from_314.
  - unfold has_non_dot in Hd. by rewrite Hd.
  - assert (0 < String.length profile_id) as Hlen.
    { destruct profile_id; [done|cbn; lia]. }
    destruct (Nat.ltb_spec 0 (String.length profile_id)); [|lia].
    destruct (Nat.ltb_spec (String.length profile_id)
                (String.length profile_id + 5 - 1)); [|lia].
    done.
Qed.

Lemma json_name_not_dotdot (profile_id : string) : profile_id +:+ ".json" ≠ "..".
Proof. intros E%(f_equal String.length). rewrite json_name_length in E. cbn in E. lia. Qed.

(** A name [id.json] without separator is one path component. *)
Lemma of_string_json_name (profile_id : string) :
  no_separator profile_id →
  of_string (profile_id +:+ ".json") =
  {| root := ""; parts := [profile_id +:+ ".json"] |}.
Proof.
  intros Hsep. unfold of_string.
  rewrite split_without_separator
    by (rewrite contains_append, Hsep; done).
  f_equal.
  - destruct profile_id as [|a s]; [done|].
    cbn in Hsep. apply orb_false_elim in Hsep as [Ha _].
    rewrite append_cons.
    destruct a as [[] [] [] [] [] [] [] []]; try done.
  - cbn. unfold keeps.
    assert (profile_id +:+ ".json" ≠ "") as H1.
    { intros E%(f_equal String.length). rewrite json_name_length in E. cbn in E. lia. }
    assert (profile_id +:+ ".json" ≠ ".") as H2.
    { intros E%(f_equal String.length). rewrite json_name_length in E. cbn in E. lia. }
    apply String.eqb_neq in H1, H2. by rewrite H1, H2.
Qed.

End string_facts.

(** ** The file system *)

Section fs_facts.
Implicit Types (fs : FileSystem) (p : Path) (k : list string) (n : node).

Lemma node_at_put fs k n k' :
  k ≠ [] →
  node_at (put k n fs) k' = if decide (k = k') then Some n else node_at fs k'.
Proof.
  intros Hk. unfold node_at, put; cbn.
  destruct k' as [|c k']; [by rewrite decide_False|].
  rewrite lookup_insert. done.
Qed.

Lemma node_at_remove fs k k' :
  k ≠ [] →
  node_at (remove k fs) k' = if decide (k = k') then None else node_at fs k'.
Proof.
  intros Hk. unfold node_at, remove; cbn.
  destruct k' as [|c k'].
  - rewrite decide_False; done.
  - rewrite lookup_delete. done.
Qed.

Lemma put_put fs k n n' : put k n (put k n' fs) = put k n fs.
Proof. unfold put; cbn. by rewrite insert_insert_eq. Qed.

Lemma node_at_None_key fs k : node_at fs k ≠ Some Dir → k ≠ [].
Proof. by intros H ->. Qed.

Lemma resolve_keeps_dirs fs fs' cur comps k :
  (∀ k, node_at fs k = Some Dir → node_at fs' k = Some Dir) →
  resolve fs cur comps = inr k → resolve fs' cur comps = inr k.
Proof.
  intros Hd. revert cur. induction comps as [|c rest IH]; intros cur; cbn; [done|].
  destruct (node_at fs cur) as [[|]|] eqn:E; try done.
  rewrite (Hd _ E). apply IH.
Qed.

Lemma locate_keeps_dirs fs fs' p k :
  keeps_dirs fs fs' → locate fs p = inr k → locate fs' p = inr k.
Proof.
  intros [Hc Hd]. unfold locate, start. rewrite <-Hc.
  by apply resolve_keeps_dirs.
Qed.

(** Writing a regular file where no directory is, or removing one,
    moves no directory. *)
Lemma put_file_keeps_dirs fs k text :
  node_at fs k ≠ Some Dir →
  keeps_dirs fs (put k (File text) fs) ∧ keeps_dirs (put k (File text) fs) fs.
Proof.
  intros Hk. pose proof (node_at_None_key _ _ Hk) as Hne.
  split; (split; [done|]); intros k'; rewrite node_at_put by done;
    case_decide; subst; done.
Qed.

Lemma remove_file_keeps_dirs fs k text :
  node_at fs k = Some (File text) →
  keeps_dirs fs (remove k fs) ∧ keeps_dirs (remove k fs) fs.
Proof.
  intros Hk. assert (k ≠ []) as Hne by (intros ->; done).
  split; (split; [done|]); intros k'; rewrite node_at_remove by done;
    case_decide; subst; [congruence|done..].
Qed.

Lemma put_dir_keeps_dirs fs k :
  node_at fs k = None → keeps_dirs fs (put k Dir fs).
Proof.
  intros Hk. assert (k ≠ []) as Hne by (intros ->; done).
  split; [done|]. intros k'. rewrite node_at_put by done.
  case_decide; done.
Qed.

Lemma path_exists_spec fs p :
  path_exists fs p = true ↔ ∃ k n, locate fs p = inr k ∧ node_at fs k = Some n.
Proof.
  unfold path_exists, stat. split.
  - destruct (locate fs p) as [e|k]; [done|].
    destruct (node_at fs k) as [n|] eqn:E; [|done]. eauto.
  - intros (k & n & -> & ->). done.
Qed.

Lemma is_dir_spec fs p :
  is_dir fs p = true ↔ ∃ k, locate fs p = inr k ∧ node_at fs k = Some Dir.
Proof.
  unfold is_dir, stat. split.
  - destruct (locate fs p) as [e|k]; [done|].
    destruct (node_at fs k) as [[|]|] eqn:E; try done. eauto.
  - intros (k & -> & ->). done.
Qed.

Lemma is_dir_exists fs p : is_dir fs p = true → path_exists fs p = true.
Proof. rewrite is_dir_spec, path_exists_spec. intros (k & ? & ?). eauto. Qed.

(** What a successful [write_text] did. *)
Lemma write_text_ok fs p text fs' :
  write_text p text fs = (fs', inr ()) →
  ∃ k, locate fs p = inr k ∧ node_at fs k ≠ Some Dir ∧ fs' = put k (File text) fs.
Proof.
  unfold write_text. destruct (locate fs p) as [e|k]; [done|].
  destruct (node_at fs k) as [[|]|] eqn:E; intros [= <-]; exists k;
    split_and!; congruence.
Qed.

Lemma written_file_is_there fs p text k :
  locate fs p = inr k → node_at fs k ≠ Some Dir →
  locate (put k (File text) fs) p = inr k ∧
  node_at (put k (File text) fs) k = Some (File text).
Proof.
  intros Hloc Hk. split.
  - eapply locate_keeps_dirs; [|done]. by apply put_file_keeps_dirs.
  - rewrite node_at_put by (by eapply node_at_None_key). by rewrite decide_True.
Qed.

(** [mkdir(parents=True, exist_ok=True)] on an existing directory does
    nothing. *)
Lemma mkdir_on_dir fs p :
  is_dir fs p = true → mkdir p fs = (fs, inl FileExistsError).
Proof.
  intros (k & Hloc & Hk)%is_dir_spec. unfold mkdir. by rewrite Hloc, Hk.
Qed.

Lemma path_rev_rev p :
  {| root := root p; parts := rev (rev (parts p)) |} = p.
Proof. rewrite rev_involutive. by destruct p. Qed.

Lemma mkdir_parents_rev_on_dir fs rt r :
  is_dir fs {| root := rt; parts := rev r |} = true →
  mkdir_parents_rev rt r fs = (fs, inr ()).
Proof.
  intros Hd. destruct r as [|c r]; cbn [mkdir_parents_rev]; cbv zeta;
    rewrite (mkdir_on_dir _ _ Hd), Hd; done.
Qed.

Lemma mkdir_parents_on_dir fs p :
  is_dir fs p = true → mkdir_parents p fs = (fs, inr ()).
Proof.
  intros Hd. apply mkdir_parents_rev_on_dir. by rewrite path_rev_rev.
Qed.

Lemma mkdir_ok_is_dir fs p fs' :
  mkdir p fs = (fs', inr ()) → is_dir fs' p = true.
Proof.
  unfold mkdir. destruct (locate fs p) as [e|k] eqn:Hloc; [done|].
  destruct (node_at fs k) eqn:Hk; [done|]. intros [= <-].
  apply is_dir_spec. exists k. split.
  - eapply locate_keeps_dirs; [|done]. by apply put_dir_keeps_dirs.
  - rewrite node_at_put by (intros ->; done). by rewrite decide_True.
Qed.

Lemma mkdir_exist_ok_is_dir fs p fs' :
  mkdir_exist_ok p fs = (fs', inr ()) → is_dir fs' p = true.
Proof.
  unfold mkdir_exist_ok.
  destruct (mkdir p fs) as [fs1 [e|[]]] eqn:E.
  - destruct e; try done; destruct (is_dir fs1 p) eqn:D; intros [= <-]; done.
  - intros [= <-]. by eapply mkdir_ok_is_dir.
Qed.

(** After [mkdir(parents=True, exist_ok=True)] returned, the path is a
    directory. *)
Lemma mkdir_parents_rev_is_dir fs rt r fs' :
  mkdir_parents_rev rt r fs = (fs', inr ()) →
  is_dir fs' {| root := rt; parts := rev r |} = true.
Proof.
  set (p := {| root := rt; parts := rev r |}).
  destruct r as [|c r]; cbn [mkdir_parents_rev]; cbv zeta; fold p;
    destruct (mkdir p fs) as [fs1 [e|[]]] eqn:E.
  - destruct e; try done; destruct (is_dir fs1 p) eqn:D; intros [= <-]; done.
  - intros [= <-]. by eapply mkdir_ok_is_dir.
  - destruct e; try (destruct (is_dir fs1 p) eqn:D; intros [= <-]; done).
    destruct (mkdir_parents_rev rt r fs1) as [fs2 [e|[]]]; [done|].
    apply mkdir_exist_ok_is_dir.
  - intros [= <-]. by eapply mkdir_ok_is_dir.
Qed.

Lemma mkdir_parents_is_dir fs p fs' :
  mkdir_parents p fs = (fs', inr ()) → is_dir fs' p = true.
Proof.
  intros Hm%mkdir_parents_rev_is_dir. by rewrite path_rev_rev in Hm.
Qed.

End fs_facts.

(** ** The local backend, any ID *)

Section local_facts.
Context {model : DataModel} {python : Version} {sdk : azure.SDK}.
Implicit Types (self : LocalFileStorage.t) (fs : FileSystem).

Lemma parse_profile_round_trip (p : CompanyProfile) :
  json_round_trip →
  ∃ q, parse_profile (model_dump_json p) = inr q ∧ same_content q p.
Proof.
  intros Hrt. destruct (Hrt p) as (data & q & Hl & Hv & Hq).
  exists q. unfold parse_profile. by rewrite Hl, Hv.
Qed.

Lemma parse_profile_not_NotFound (bytes : string) (e : exn) :
  parse_profile bytes = inl e → is_NotFound e = false.
Proof.
  unfold parse_profile. destruct (json_load bytes) as [[]|data].
  - by intros [= <-].
  - by intros [= <-].
  - destruct (model_validate data); [by intros [= <-]|done].
Qed.

(** [load] on an absent path, on a regular file and on a directory. *)
Lemma local_load_absent self profile_id fs :
  LocalFileStorage.exists_ self profile_id fs = false →
  LocalFileStorage.load self profile_id fs =
  inl (FileNotFoundError
         ("Profile '" +:+ profile_id +:+ "' not found at " +:+
          str (LocalFileStorage._get_file_path self profile_id))).
Proof.
  unfold LocalFileStorage.exists_, LocalFileStorage.load. by intros ->.
Qed.

Lemma local_load_file self profile_id fs k bytes :
  locate fs (LocalFileStorage._get_file_path self profile_id) = inr k →
  node_at fs k = Some (File bytes) →
  LocalFileStorage.exists_ self profile_id fs = true ∧
  LocalFileStorage.load self profile_id fs = parse_profile bytes.
Proof.
  intros Hloc Hk.
  unfold LocalFileStorage.exists_, LocalFileStorage.load, read_bytes,
    path_exists, stat, parse_profile.
  rewrite Hloc, Hk. done.
Qed.

Lemma local_load_present self profile_id fs :
  LocalFileStorage.exists_ self profile_id fs = true →
  LocalFileStorage.load self profile_id fs =
  match read_bytes fs (LocalFileStorage._get_file_path self profile_id) with
  | inl e => inl e
  | inr bytes => parse_profile bytes
  end.
Proof.
  unfold LocalFileStorage.exists_, LocalFileStorage.load. intros ->. done.
Qed.

(** What a [save] that returned did. *)
Lemma local_save_ok self profile_id profile fs fs' :
  LocalFileStorage.save self profile_id profile fs = (fs', inr ()) →
  ∃ fs1 k,
    let file_path := LocalFileStorage._get_file_path self profile_id in
    mkdir_parents (parent file_path) fs = (fs1, inr ()) ∧
    locate fs1 file_path = inr k ∧
    node_at fs1 k ≠ Some Dir ∧
    fs' = put k (File (model_dump_json profile)) fs1.
Proof.
  unfold LocalFileStorage.save, mbind, M_bind.
  destruct (mkdir_parents (parent _) fs) as [fs1 [e|[]]] eqn:Hmk; [done|].
  intros (k & Hloc & Hk & ->)%write_text_ok. by exists fs1, k.
Qed.

Lemma local_save_then_load self profile_id profile fs fs' :
  LocalFileStorage.save self profile_id profile fs = (fs', inr ()) →
  LocalFileStorage.exists_ self profile_id fs' = true ∧
  LocalFileStorage.load self profile_id fs' = parse_profile (model_dump_json profile).
Proof.
  intros (fs1 & k & _ & Hloc & Hk & ->)%local_save_ok.
  destruct (written_file_is_there fs1 _ (model_dump_json profile) k Hloc Hk).
  by eapply local_load_file.
Qed.

(** Saving again what was just saved changes nothing. *)
Lemma local_save_twice self profile_id profile fs fs' :
  LocalFileStorage.save self profile_id profile fs = (fs', inr ()) →
  LocalFileStorage.save self profile_id profile fs' = (fs', inr ()).
Proof.
  intros (fs1 & k & Hmk & Hloc & Hk & ->)%local_save_ok.
  set (file_path := LocalFileStorage._get_file_path self profile_id) in *.
  set (text := model_dump_json profile).
  destruct (written_file_is_there fs1 _ text k Hloc Hk) as [Hloc' Hk'].
  apply mkdir_parents_is_dir in Hmk.
  assert (is_dir (put k (File text) fs1) (parent file_path) = true) as Hd.
  { apply is_dir_spec in Hmk as (kd & Hld & Hkd). apply is_dir_spec.
    exists kd. split.
    - eapply locate_keeps_dirs; [|done]. by apply put_file_keeps_dirs.
    - rewrite node_at_put by (by eapply node_at_None_key).
      case_decide; [congruence|done]. }
  unfold LocalFileStorage.save, mbind, M_bind.
  fold file_path text. rewrite (mkdir_parents_on_dir _ _ Hd).
  unfold write_text. by rewrite Hloc', Hk', put_put.
Qed.

(** A record that is a regular file is overwritten whatever it holds. *)
Lemma local_save_over_file self profile_id profile fs k old :
  locate fs (LocalFileStorage._get_file_path self profile_id) = inr k →
  node_at fs k = Some (File old) →
  is_dir fs (parent (LocalFileStorage._get_file_path self profile_id)) = true →
  LocalFileStorage.save self profile_id profile fs =
  (put k (File (model_dump_json profile)) fs, inr ()).
Proof.
  intros Hloc Hk Hd. unfold LocalFileStorage.save, mbind, M_bind.
  rewrite (mkdir_parents_on_dir _ _ Hd). unfold write_text.
  by rewrite Hloc, Hk.
Qed.

End local_facts.

(** ** The blob backend *)

Section azure_facts.
Context {model : DataModel} {python : Version} {sdk : azure.SDK}.
Import azure.
Implicit Types (self : AzureBlobStorage.t) (c : Cloud).

Lemma parse_profile_keeps_translation (bytes : string) :
  match parse_profile bytes with
  | inl ResourceNotFoundError => inl (azure_not_found "")
  | r => r
  end = parse_profile bytes.
Proof.
  unfold parse_profile. destruct (json_load bytes) as [[]|data]; [done..|].
  by destruct (model_validate data).
Qed.

Lemma azure_load_spec self profile_id c :
  AzureBlobStorage.load self profile_id c =
  match containers c !! AzureBlobStorage.container_name self with
  | Some blobs =>
      match blobs !! (profile_id +:+ ".json") with
      | Some bytes => parse_profile bytes
      | None => inl (azure_not_found profile_id)
      end
  | None => inl (azure_not_found profile_id)
  end.
Proof.
  unfold AzureBlobStorage.load, download_blob, AzureBlobStorage._get_blob_name.
  destruct (containers c !! _) as [blobs|]; [|done].
  destruct (blobs !! _) as [bytes|]; [|done].
  pose proof (parse_profile_keeps_translation bytes) as Hp.
  unfold parse_profile in *.
  destruct (json_load bytes) as [[]|data]; [done..|].
  by destruct (model_validate data).
Qed.

Lemma azure_exists_spec self profile_id c :
  AzureBlobStorage.exists_ self profile_id c =
  match containers c !! AzureBlobStorage.container_name self with
  | Some blobs => bool_decide (is_Some (blobs !! (profile_id +:+ ".json")))
  | None => false
  end.
Proof. done. Qed.

(** [upload_blob] with a [ContentSettings] object stores the bytes when
    the container is there. *)
Lemma upload_blob_spec (b : BlobClient) (data content_type : string) c :
  upload_blob b data (Some (ContentSettings content_type)) c =
  match containers c !! container b with
  | Some blobs =>
      ({| containers := <[container b := <[blob b := data]> blobs]> (containers c) |},
       inr ())
  | None => (c, inl ResourceNotFoundError)
  end.
Proof. done. Qed.

(** [save] hands [upload_blob] a dictionary, so the call raises before
    anything is sent. *)
Lemma azure_save_spec self profile_id profile c :
  AzureBlobStorage.save self profile_id profile c =
  (c, inl (AttributeError "'dict' object has no attribute 'cache_control'")).
Proof. done. Qed.

Lemma azure_delete_spec self profile_id c :
  AzureBlobStorage.delete self profile_id c =
  match containers c !! AzureBlobStorage.container_name self with
  | Some blobs =>
      match blobs !! (profile_id +:+ ".json") with
      | Some _ =>
          ({| containers :=
                <[AzureBlobStorage.container_name self :=
                    base.delete (profile_id +:+ ".json") blobs]> (containers c) |},
           inr ())
      | None =>
          (c, inl (FileNotFoundError ("Profile '" +:+ profile_id +:+ "' not found")))
      end
  | None => (c, inl (FileNotFoundError ("Profile '" +:+ profile_id +:+ "' not found")))
  end.
Proof.
  unfold AzureBlobStorage.delete, delete_blob, AzureBlobStorage._get_blob_name.
  destruct (containers c !! _) as [blobs|]; [|done].
  by destruct (blobs !! _).
Qed.

Lemma azure_save_then_load self profile_id profile c c' :
  AzureBlobStorage.save self profile_id profile c = (c', inr ()) →
  AzureBlobStorage.exists_ self profile_id c' = true ∧
  AzureBlobStorage.load self profile_id c' = parse_profile (model_dump_json profile).
Proof. by rewrite azure_save_spec. Qed.

Lemma azure_save_twice self profile_id profile c c' :
  AzureBlobStorage.save self profile_id profile c = (c', inr ()) →
  AzureBlobStorage.save self profile_id profile c' = (c', inr ()).
Proof. by rewrite azure_save_spec. Qed.

(** Another ID's blob is out of reach of [save] and [delete]. *)
Lemma azure_save_frame self profile_id profile other c :
  profile_id ≠ other →
  let c' := (AzureBlobStorage.save self profile_id profile c).1 in
  AzureBlobStorage.exists_ self other c' = AzureBlobStorage.exists_ self other c ∧
  AzureBlobStorage.load self other c' = AzureBlobStorage.load self other c.
Proof.
  intros _. cbv zeta. by rewrite azure_save_spec.
Qed.

Lemma azure_delete_frame self profile_id other c :
  profile_id ≠ other →
  let c' := (AzureBlobStorage.delete self profile_id c).1 in
  AzureBlobStorage.exists_ self other c' = AzureBlobStorage.exists_ self other c ∧
  AzureBlobStorage.load self other c' = AzureBlobStorage.load self other c.
Proof.
  intros Hne. cbv zeta.
  rewrite azure_delete_spec, !azure_load_spec, !azure_exists_spec.
  destruct (containers c !! _) as [blobs|] eqn:E; cbn; [|by rewrite E].
  destruct (blobs !! (profile_id +:+ ".json")) eqn:Eb; cbn; [|by rewrite E].
  rewrite !lookup_insert_eq, lookup_delete_ne; [done|].
  intros Heq%append_inj_l. done.
Qed.

Lemma azure_delete_then_absent self profile_id c c' :
  AzureBlobStorage.delete self profile_id c = (c', inr ()) →
  AzureBlobStorage.exists_ self profile_id c' = false.
Proof.
  rewrite azure_delete_spec, azure_exists_spec.
  destruct (containers c !! _) as [blobs|] eqn:E; [|done].
  destruct (blobs !! (profile_id +:+ ".json")) eqn:Eb; [|done].
  intros [= <-]. cbn. rewrite lookup_insert_eq, lookup_delete_eq.
  apply bool_decide_eq_false_2. by intros [? ?].
Qed.

(** Absence, as [exists] sees it, is what makes [load] and [delete]
    raise NotFound. *)
Lemma azure_absent self profile_id c :
  AzureBlobStorage.exists_ self profile_id c = false →
  AzureBlobStorage.load self profile_id c = inl (azure_not_found profile_id) ∧
  AzureBlobStorage.delete self profile_id c =
  (c, inl (FileNotFoundError ("Profile '" +:+ profile_id +:+ "' not found"))).
Proof.
  rewrite azure_load_spec, azure_delete_spec, azure_exists_spec.
  destruct (containers c !! _) as [blobs|] eqn:E; [|done].
  intros Hb%bool_decide_eq_false_1.
  destruct (blobs !! _) eqn:Eb; [|done]. destruct Hb. eauto.
Qed.

End azure_facts.

(** ** The local backend, IDs without a path separator *)

Section local_plain.
Context {model : DataModel} {python : Version} {sdk : azure.SDK}.
Implicit Types (self : LocalFileStorage.t) (fs : FileSystem) (kd : list string).

Lemma is_dir_dir_at self fs :
  is_dir fs (LocalFileStorage.profiles_dir self) = true ↔ ∃ kd, dir_at self fs kd.
Proof. apply is_dir_spec. Qed.

Lemma file_path_plain self profile_id :
  no_separator profile_id →
  LocalFileStorage._get_file_path self profile_id =
  {| root := root (LocalFileStorage.profiles_dir self);
     parts := parts (LocalFileStorage.profiles_dir self) ++ [profile_id +:+ ".json"] |}.
Proof.
  intros Hs. unfold LocalFileStorage._get_file_path, div.
  by rewrite (of_string_json_name _ Hs).
Qed.

Lemma parent_file_path_plain self profile_id :
  no_separator profile_id →
  parent (LocalFileStorage._get_file_path self profile_id) =
  LocalFileStorage.profiles_dir self.
Proof.
  intros Hs. rewrite (file_path_plain _ _ Hs). unfold parent; cbn.
  rewrite removelast_last. by destruct (LocalFileStorage.profiles_dir self).
Qed.

Lemma resolve_snoc fs cur comps c :
  resolve fs cur (comps ++ [c]) =
  match resolve fs cur comps with
  | inl e => inl e
  | inr k =>
      match node_at fs k with
      | Some Dir => inr (if decide (c = "..") then removelast k else k ++ [c])
      | Some (File _) => inl NotADirectoryError
      | None => inl ENOENT
      end
  end.
Proof.
  revert cur. induction comps as [|c' rest IH]; intros cur; cbn.
  - by destruct (node_at fs cur) as [[|]|].
  - destruct (node_at fs cur) as [[|]|]; [done| |done]. apply IH.
Qed.

Lemma locate_plain self profile_id fs kd :
  no_separator profile_id → dir_at self fs kd →
  locate fs (LocalFileStorage._get_file_path self profile_id) =
  inr (record_key kd profile_id).
Proof.
  intros Hs [Hloc Hkd]. rewrite (file_path_plain _ _ Hs).
  unfold locate, start, absolute in *; cbn. rewrite resolve_snoc, Hloc, Hkd.
  rewrite decide_False by apply json_name_not_dotdot. done.
Qed.

Lemma node_at_record fs kd profile_id :
  node_at fs (record_key kd profile_id) = nodes fs !! record_key kd profile_id.
Proof. unfold node_at, record_key. by destruct kd. Qed.

Lemma record_key_inj kd i j : record_key kd i = record_key kd j → i = j.
Proof.
  unfold record_key. intros Heq%app_inv_head. injection Heq as Heq.
  by apply append_inj_l in Heq.
Qed.

Lemma record_key_not_dir kd i : record_key kd i ≠ kd.
Proof.
  unfold record_key. intros Heq%(f_equal length).
  rewrite length_app in Heq. cbn in Heq. lia.
Qed.

Lemma record_key_not_root kd i : record_key kd i ≠ [].
Proof. unfold record_key. by destruct kd. Qed.

(** The four operations on a separator-free ID, in a directory that
    exists: each looks at one key of the file system. *)
Lemma local_exists_plain self profile_id fs kd :
  no_separator profile_id → dir_at self fs kd →
  LocalFileStorage.exists_ self profile_id fs =
  bool_decide (is_Some (nodes fs !! record_key kd profile_id)).
Proof.
  intros Hs Hd. unfold LocalFileStorage.exists_, path_exists, stat.
  rewrite (locate_plain _ _ _ _ Hs Hd), node_at_record.
  destruct (nodes fs !! _) eqn:E.
  - symmetry. apply bool_decide_eq_true_2. eauto.
  - symmetry. apply bool_decide_eq_false_2. by intros [? ?].
Qed.

Lemma local_load_plain self profile_id fs kd :
  no_separator profile_id → dir_at self fs kd →
  LocalFileStorage.load self profile_id fs =
  match nodes fs !! record_key kd profile_id with
  | Some (File bytes) => parse_profile bytes
  | Some Dir => inl IsADirectoryError
  | None =>
      inl (FileNotFoundError
             ("Profile '" +:+ profile_id +:+ "' not found at " +:+
              str (LocalFileStorage._get_file_path self profile_id)))
  end.
Proof.
  intros Hs Hd. unfold LocalFileStorage.load, path_exists, read_bytes, stat.
  rewrite (locate_plain _ _ _ _ Hs Hd), node_at_record.
  by destruct (nodes fs !! _) as [[|]|].
Qed.

Lemma local_save_plain self profile_id profile fs kd :
  no_separator profile_id → dir_at self fs kd →
  LocalFileStorage.save self profile_id profile fs =
  match nodes fs !! record_key kd profile_id with
  | Some Dir => (fs, inl IsADirectoryError)
  | _ => (put (record_key kd profile_id) (File (model_dump_json profile)) fs, inr ())
  end.
Proof.
  intros Hs Hd. unfold LocalFileStorage.save, mbind, M_bind.
  rewrite (parent_file_path_plain _ _ Hs).
  rewrite mkdir_parents_on_dir by (apply is_dir_dir_at; eauto).
  unfold write_text. rewrite (locate_plain _ _ _ _ Hs Hd), node_at_record.
  by destruct (nodes fs !! _) as [[|]|].
Qed.

Lemma local_delete_plain self profile_id fs kd :
  no_separator profile_id → dir_at self fs kd →
  LocalFileStorage.delete self profile_id fs =
  match nodes fs !! record_key kd profile_id with
  | Some (File _) => (remove (record_key kd profile_id) fs, inr ())
  | Some Dir => (fs, inl IsADirectoryError)
  | None => (fs, inl (FileNotFoundError ("Profile '" +:+ profile_id +:+ "' not found")))
  end.
Proof.
  intros Hs Hd. unfold LocalFileStorage.delete, path_exists, stat, unlink.
  rewrite (locate_plain _ _ _ _ Hs Hd), node_at_record.
  by destruct (nodes fs !! _) as [[|]|].
Qed.

(** Records come and go; the directory stays. *)
Lemma dir_at_put self fs kd profile_id text :
  dir_at self fs kd →
  nodes fs !! record_key kd profile_id ≠ Some Dir →
  dir_at self (put (record_key kd profile_id) (File text) fs) kd.
Proof.
  intros [Hloc Hkd] Hk. rewrite <-node_at_record in Hk. split.
  - eapply locate_keeps_dirs; [|done]. by apply put_file_keeps_dirs.
  - rewrite node_at_put by apply record_key_not_root.
    rewrite decide_False by apply record_key_not_dir. done.
Qed.

Lemma dir_at_remove self fs kd profile_id text :
  dir_at self fs kd →
  nodes fs !! record_key kd profile_id = Some (File text) →
  dir_at self (remove (record_key kd profile_id) fs) kd.
Proof.
  intros [Hloc Hkd] Hk. rewrite <-node_at_record in Hk. split.
  - eapply locate_keeps_dirs; [|done]. by eapply remove_file_keeps_dirs.
  - rewrite node_at_remove by apply record_key_not_root.
    rewrite decide_False by apply record_key_not_dir. done.
Qed.

Lemma dir_at_save self profile_id profile fs kd :
  no_separator profile_id → dir_at self fs kd →
  dir_at self (LocalFileStorage.save self profile_id profile fs).1 kd.
Proof.
  intros Hs Hd. rewrite (local_save_plain _ _ _ _ _ Hs Hd).
  destruct (nodes fs !! _) as [[|]|] eqn:E; cbn; [|done|];
    apply dir_at_put; congruence.
Qed.

Lemma dir_at_delete self profile_id fs kd :
  no_separator profile_id → dir_at self fs kd →
  dir_at self (LocalFileStorage.delete self profile_id fs).1 kd.
Proof.
  intros Hs Hd. rewrite (local_delete_plain _ _ _ _ Hs Hd).
  destruct (nodes fs !! _) as [[|]|] eqn:E; cbn; [|done..].
  by eapply dir_at_remove.
Qed.

(** [save] and [delete] touch the key of their own ID only. *)
Lemma local_save_nodes self profile_id profile fs kd k :
  no_separator profile_id → dir_at self fs kd →
  k ≠ record_key kd profile_id →
  nodes (LocalFileStorage.save self profile_id profile fs).1 !! k = nodes fs !! k.
Proof.
  intros Hs Hd Hk. rewrite (local_save_plain _ _ _ _ _ Hs Hd).
  destruct (nodes fs !! record_key _ _) as [[|]|]; cbn; [|done|];
    by rewrite lookup_insert_ne.
Qed.

Lemma local_delete_nodes self profile_id fs kd k :
  no_separator profile_id → dir_at self fs kd →
  k ≠ record_key kd profile_id →
  nodes (LocalFileStorage.delete self profile_id fs).1 !! k = nodes fs !! k.
Proof.
  intros Hs Hd Hk. rewrite (local_delete_plain _ _ _ _ Hs Hd).
  destruct (nodes fs !! record_key _ _) as [[|]|]; cbn; [|done..].
  by rewrite lookup_delete_ne.
Qed.

Lemma local_plain_reads self fs fs' kd profile_id :
  no_separator profile_id → dir_at self fs kd → dir_at self fs' kd →
  nodes fs' !! record_key kd profile_id = nodes fs !! record_key kd profile_id →
  LocalFileStorage.exists_ self profile_id fs' = LocalFileStorage.exists_ self profile_id fs ∧
  LocalFileStorage.load self profile_id fs' = LocalFileStorage.load self profile_id fs.
Proof.
  intros Hs Hd Hd' Heq.
  rewrite (local_exists_plain _ _ fs' _ Hs Hd'), (local_exists_plain _ _ fs _ Hs Hd).
  rewrite (local_load_plain _ _ fs' _ Hs Hd'), (local_load_plain _ _ fs _ Hs Hd).
  by rewrite Heq.
Qed.

Lemma local_save_frame self profile_id profile other fs :
  is_dir fs (LocalFileStorage.profiles_dir self) = true →
  no_separator profile_id → no_separator other → profile_id ≠ other →
  let fs' := (LocalFileStorage.save self profile_id profile fs).1 in
  LocalFileStorage.exists_ self other fs' = LocalFileStorage.exists_ self other fs ∧
  LocalFileStorage.load self other fs' = LocalFileStorage.load self other fs.
Proof.
  intros [kd Hd]%is_dir_dir_at Hs Ho Hne. cbv zeta.
  apply (local_plain_reads _ _ _ kd); [done|done|by apply dir_at_save|].
  eapply local_save_nodes; [done..|]. intros Heq%record_key_inj. done.
Qed.

Lemma local_delete_frame self profile_id other fs :
  is_dir fs (LocalFileStorage.profiles_dir self) = true →
  no_separator profile_id → no_separator other → profile_id ≠ other →
  let fs' := (LocalFileStorage.delete self profile_id fs).1 in
  LocalFileStorage.exists_ self other fs' = LocalFileStorage.exists_ self other fs ∧
  LocalFileStorage.load self other fs' = LocalFileStorage.load self other fs.
Proof.
  intros [kd Hd]%is_dir_dir_at Hs Ho Hne. cbv zeta.
  apply (local_plain_reads _ _ _ kd); [done|done|by apply dir_at_delete|].
  eapply local_delete_nodes; [done..|]. intros Heq%record_key_inj. done.
Qed.

End local_plain.

(** ** Listing *)

Section listing.
Context {model : DataModel} {python : Version} {sdk : azure.SDK}.

Lemma sorted_is_sorted (l : list string) : StronglySorted String.le (Str.sorted l).
Proof. apply StronglySorted_merge_sort; apply _. Qed.

Lemma sorted_elem_of (l : list string) (x : string) : x ∈ Str.sorted l ↔ x ∈ l.
Proof. unfold Str.sorted. by rewrite merge_sort_Permutation. Qed.

Lemma sorted_NoDup (l : list string) : NoDup (Str.sorted l) ↔ NoDup l.
Proof. unfold Str.sorted. by rewrite merge_sort_Permutation. Qed.

Lemma child_name_spec (k k' : list string) (n : string) :
  child_name k k' = Some n ↔ k' = k ++ [n].
Proof.
  unfold child_name. split.
  - destruct (last k') as [m|]; [|done]. case_decide; [|done]. congruence.
  - intros ->. rewrite last_snoc. by rewrite decide_True.
Qed.

Lemma elem_of_scandir (fs : FileSystem) (k : list string) (n : string) :
  n ∈ scandir fs k ↔ is_Some (nodes fs !! (k ++ [n])).
Proof.
  unfold scandir. rewrite list_elem_of_omap. split.
  - intros ([k' x] & Hin%elem_of_map_to_list & Hc%child_name_spec).
    cbn in Hc. subst k'. eauto.
  - intros [x Hx]. exists (k ++ [n], x). split.
    + by apply elem_of_map_to_list.
    + by apply child_name_spec.
Qed.

Lemma NoDup_omap_inj {A B} (f : A → option B) (l : list A) :
  (∀ a b y, f a = Some y → f b = Some y → a = b) →
  NoDup l → NoDup (omap f l).
Proof.
  intros Hinj. induction 1 as [|a l Ha Hl IH]; cbn; [constructor|].
  destruct (f a) as [y|] eqn:E; [|done]. constructor; [|done].
  intros (b & Hb & Hfb)%list_elem_of_omap.
  by rewrite (Hinj a b y E Hfb) in Ha.
Qed.

Lemma NoDup_scandir (fs : FileSystem) (k : list string) : NoDup (scandir fs k).
Proof.
  unfold scandir.
  assert (omap (λ kn : list string * node, child_name k kn.1) (map_to_list (nodes fs))
          = omap (child_name k) (map_to_list (nodes fs)).*1) as ->.
  { induction (map_to_list (nodes fs)) as [|[k' x] l IH]; cbn; [done|].
    rewrite IH. done. }
  apply NoDup_omap_inj; [|apply NoDup_fst_map_to_list].
  intros a b y ->%child_name_spec ->%child_name_spec. done.
Qed.

(** A name matching [*.json] with more than dots before the extension is
    [id.json] for its stem [id]. *)
Lemma json_name_stem (n : string) :
  matches_star_json n = true → has_non_dot (Str.drop_last 5 n) = true →
  stem_of_name n = Str.drop_last 5 n ∧ n = Str.drop_last 5 n +:+ ".json".
Proof.
  intros [x ->]%endswith_spec. change 5 with (String.length ".json").
  rewrite drop_last_append. intros Hx. by rewrite (stem_of_json_name _ Hx).
Qed.

Lemma json_name_drop_last (n : string) :
  Str.endswith n ".json" = true → n = Str.drop_last 5 n +:+ ".json".
Proof.
  intros [x ->]%endswith_spec.
  change 5 with (String.length ".json"). by rewrite drop_last_append.
Qed.

(** In a directory the path of a separator-free ID exists exactly when
    the profiles directory does and has the entry. *)
Lemma local_exists_plain_iff (self : LocalFileStorage.t) (profile_id : string)
    (fs : FileSystem) :
  no_separator profile_id →
  LocalFileStorage.exists_ self profile_id fs = true ↔
  ∃ kd, dir_at self fs kd ∧ is_Some (nodes fs !! record_key kd profile_id).
Proof.
  intros Hs. split.
  - unfold LocalFileStorage.exists_. rewrite path_exists_spec.
    intros (k & n & Hloc & Hk). rewrite (file_path_plain _ _ Hs) in Hloc.
    unfold locate, start in Hloc; cbn in Hloc. rewrite resolve_snoc in Hloc.
    destruct (resolve fs _ (parts _)) as [e|kd] eqn:Hd; [done|].
    destruct (node_at fs kd) as [[|]|] eqn:Hkd; try done.
    rewrite decide_False in Hloc by apply json_name_not_dotdot.
    injection Hloc as <-. exists kd. split; [done|].
    fold (record_key kd profile_id) in Hk. rewrite node_at_record in Hk. eauto.
  - intros (kd & Hd & Hk). rewrite (local_exists_plain _ _ _ _ Hs Hd).
    by apply bool_decide_eq_true_2.
Qed.

Lemma dir_at_unique (self : LocalFileStorage.t) (fs : FileSystem) kd kd' :
  dir_at self fs kd → dir_at self fs kd' → kd = kd'.
Proof. intros [H1 _] [H2 _]. congruence. Qed.

Lemma elem_of_glob (self : LocalFileStorage.t) (fs : FileSystem) (n : string) :
  n ∈ glob_star_json fs (LocalFileStorage.profiles_dir self) ↔
  matches_star_json n = true ∧
  ∃ kd, dir_at self fs kd ∧ is_Some (nodes fs !! (kd ++ [n])).
Proof.
  unfold glob_star_json.
  destruct (is_dir fs _) eqn:Hd.
  - apply is_dir_dir_at in Hd as [kd Hd]. destruct Hd as [Hloc Hkd].
    rewrite Hloc, list_elem_of_filter, elem_of_scandir, Is_true_true. split.
    + intros [? ?]. split; [done|]. by exists kd.
    + intros [? (kd' & Hd' & ?)].
      rewrite (dir_at_unique self fs kd kd'); done.
  - split; [by intros ?%elem_of_nil|]. intros [_ (kd & Hd' & _)].
    assert (is_dir fs (LocalFileStorage.profiles_dir self) = true) as E
      by (apply is_dir_dir_at; eauto).
    congruence.
Qed.

Lemma NoDup_glob (fs : FileSystem) (p : Path) : NoDup (glob_star_json fs p).
Proof.
  unfold glob_star_json. destruct (is_dir fs p); [|constructor].
  destruct (locate fs p); [constructor|]. apply NoDup_filter, NoDup_scandir.
Qed.

Lemma local_list_returns (self : LocalFileStorage.t) (fs : FileSystem) :
  ∃ l, LocalFileStorage.list_ self fs = inr l ∧ StronglySorted String.le l.
Proof.
  unfold LocalFileStorage.list_. destruct (negb _).
  - exists []. split; [done|constructor].
  - eexists. split; [done|]. apply sorted_is_sorted.
Qed.

Lemma local_list_elem_of (self : LocalFileStorage.t) (fs : FileSystem)
    (l : list string) (x : string) :
  LocalFileStorage.list_ self fs = inr l →
  x ∈ l ↔ x ∈ stem_of_name <$> glob_star_json fs (LocalFileStorage.profiles_dir self).
Proof.
  unfold LocalFileStorage.list_.
  destruct (path_exists fs _) eqn:E; cbn; intros [= <-].
  - apply sorted_elem_of.
  - unfold glob_star_json.
    destruct (is_dir fs _) eqn:D; [|done].
    apply is_dir_exists in D. congruence.
Qed.

(** When no entry has only dots before the extension, the listing has no
    duplicates and lists a separator-free ID exactly when it exists. *)
Lemma local_list_exact (self : LocalFileStorage.t) (fs : FileSystem)
    (l : list string) :
  LocalFileStorage.list_ self fs = inr l →
  Forall (λ n, has_non_dot (Str.drop_last 5 n) = true)
         (glob_star_json fs (LocalFileStorage.profiles_dir self)) →
  NoDup l ∧
  ∀ profile_id, no_separator profile_id →
    (profile_id ∈ l ↔ LocalFileStorage.exists_ self profile_id fs = true).
Proof.
  intros Hl Hok. rewrite Forall_forall in Hok.
  assert (∀ n, n ∈ glob_star_json fs (LocalFileStorage.profiles_dir self) →
               stem_of_name n = Str.drop_last 5 n ∧
               n = Str.drop_last 5 n +:+ ".json") as Hstem.
  { intros n Hn. apply json_name_stem; [|by apply Hok].
    by apply elem_of_glob in Hn as [? _]. }
  split.
  - unfold LocalFileStorage.list_ in Hl.
    destruct (negb _); injection Hl as <-; [constructor|].
    apply sorted_NoDup, NoDup_fmap_2_strong; [|apply NoDup_glob].
    intros a b Ha Hb Heq.
    destruct (Hstem a Ha) as [Ea ->]. destruct (Hstem b Hb) as [Eb ->].
    rewrite Ea, Eb in Heq. by rewrite Heq.
  - intros profile_id Hs. rewrite (local_list_elem_of _ _ _ _ Hl).
    rewrite list_elem_of_fmap, (local_exists_plain_iff _ _ _ Hs). split.
    + intros (n & -> & Hn). destruct (Hstem n Hn) as [En Hname].
      apply elem_of_glob in Hn as (Hm & kd & Hd & Hk).
      exists kd. split; [done|]. unfold record_key. by rewrite En, <-Hname.
    + intros (kd & Hd & Hk). exists (profile_id +:+ ".json").
      assert (profile_id +:+ ".json" ∈
              glob_star_json fs (LocalFileStorage.profiles_dir self)) as Hn.
      { apply elem_of_glob. split; [apply endswith_append|]. eauto. }
      split; [|done]. destruct (Hstem _ Hn) as [-> _].
      change 5 with (String.length ".json"). by rewrite drop_last_append.
Qed.

End listing.

Section azure_listing.
Context {model : DataModel} {python : Version} {sdk : azure.SDK}.
Import azure.

(** The blob listing is sorted, free of duplicates, and lists exactly
    the IDs that exist. *)
Lemma azure_list_exact (self : AzureBlobStorage.t) (c : Cloud) (l : list string) :
  AzureBlobStorage.list_ self c = inr l →
  StronglySorted String.le l ∧ NoDup l ∧
  ∀ profile_id, profile_id ∈ l ↔ AzureBlobStorage.exists_ self profile_id c = true.
Proof.
  unfold AzureBlobStorage.list_, list_blobs.
  destruct (get_container_client c _) as [e|[]]; [done|].
  destruct (containers c !! AzureBlobStorage.container_name self) as [blobs|] eqn:E;
    [|done].
  intros [= <-]. split; [apply sorted_is_sorted|]. split.
  - apply sorted_NoDup, NoDup_fmap_2_strong.
    + intros a b [Ha _]%list_elem_of_filter [Hb _]%list_elem_of_filter Heq.
      apply Is_true_true in Ha, Hb.
      rewrite (json_name_drop_last a Ha), (json_name_drop_last b Hb). by rewrite Heq.
    + apply NoDup_filter, NoDup_fst_map_to_list.
  - intros profile_id. rewrite sorted_elem_of, list_elem_of_fmap, azure_exists_spec, E.
    rewrite bool_decide_eq_true. split.
    + intros (n & -> & [Hn Hin]%list_elem_of_filter).
      apply Is_true_true in Hn. rewrite <-(json_name_drop_last n Hn).
      apply list_elem_of_fmap in Hin as ([n' x] & -> & Hx%elem_of_map_to_list). eauto.
    + intros [x Hx]. exists (profile_id +:+ ".json"). split.
      * change 5 with (String.length ".json"). by rewrite drop_last_append.
      * apply list_elem_of_filter. split.
        -- apply Is_true_true, endswith_append.
        -- apply list_elem_of_fmap. exists (profile_id +:+ ".json", x).
           split; [done|]. by apply elem_of_map_to_list.
Qed.

Lemma azure_list_returns (self : AzureBlobStorage.t) (c : Cloud) :
  get_container_client c (AzureBlobStorage.container_name self) = inr () →
  container_exists c (AzureBlobStorage.container_name self) = true →
  ∃ l, AzureBlobStorage.list_ self c = inr l.
Proof.
  intros Hlookup [blobs Hb]%bool_decide_eq_true_1.
  unfold AzureBlobStorage.list_, list_blobs. rewrite Hlookup, Hb. eauto.
Qed.

End azure_listing.

(** ** Deleting *)

Section local_delete.
Context {model : DataModel} {python : Version} {sdk : azure.SDK}.
Implicit Types (self : LocalFileStorage.t) (fs : FileSystem).

(** Absence, as [exists] sees it, makes [load] and [delete] raise
    NotFound and change nothing. *)
Lemma local_absent self profile_id fs :
  LocalFileStorage.exists_ self profile_id fs = false →
  (∃ msg, LocalFileStorage.load self profile_id fs = inl (FileNotFoundError msg)) ∧
  LocalFileStorage.delete self profile_id fs = (fs, inl (local_not_found profile_id)).
Proof.
  intros Hex. split.
  - eexists. by apply local_load_absent.
  - unfold LocalFileStorage.delete. unfold LocalFileStorage.exists_ in Hex.
    by rewrite Hex.
Qed.

Lemma local_delete_ok self profile_id fs fs' :
  LocalFileStorage.delete self profile_id fs = (fs', inr ()) →
  ∃ k old,
    locate fs (LocalFileStorage._get_file_path self profile_id) = inr k ∧
    node_at fs k = Some (File old) ∧ fs' = remove k fs.
Proof.
  unfold LocalFileStorage.delete, unlink.
  destruct (path_exists fs _); cbn; [|done].
  destruct (locate fs _) as [e|k]; [done|].
  destruct (node_at fs k) as [[old|]|] eqn:E; try done.
  intros [= <-]. eauto.
Qed.

Lemma local_delete_then_absent self profile_id fs fs' :
  LocalFileStorage.delete self profile_id fs = (fs', inr ()) →
  LocalFileStorage.exists_ self profile_id fs' = false.
Proof.
  intros (k & old & Hloc & Hk & ->)%local_delete_ok.
  unfold LocalFileStorage.exists_, path_exists, stat.
  assert (k ≠ []) as Hne by (intros ->; done).
  rewrite (locate_keeps_dirs fs (remove k fs) _ k);
    [|by eapply remove_file_keeps_dirs|done].
  rewrite node_at_remove by done. by rewrite decide_True.
Qed.

End local_delete.

(** ** Histories *)

Section history_facts.
Context {model : DataModel} {python : Version} {sdk : azure.SDK}.

Lemma live_snoc (profile_id : string) (history : list op) (o : op) :
  live profile_id (history ++ [o]) =
  match o with
  | Save i _ => if decide (i = profile_id) then true else live profile_id history
  | Delete i => if decide (i = profile_id) then false else live profile_id history
  end.
Proof. unfold live. by rewrite foldl_app. Qed.

Lemma run_snoc {B W} `{!BaseStorage B W} (self : B) (history : list op) (o : op) (w : W) :
  run self (history ++ [o]) w = run_op self o (run self history w).
Proof. unfold run. by rewrite foldl_app. Qed.

Lemma run_local (l : LocalFileStorage.t) (history : list op) (w : World) :
  fs (run (Local l) history w) = run l history (fs w).
Proof.
  induction history as [|o history IH] using rev_ind; [done|].
  rewrite !run_snoc, <-IH. generalize (run (Local l) history w) as w'. intros w'.
  destruct o as [i p|i]; unfold run_op.
  - change (save (Local l) i p w') with (on_fs (LocalFileStorage.save l i p) w').
    change (save l i p (fs w')) with (LocalFileStorage.save l i p (fs w')).
    unfold on_fs. by destruct (LocalFileStorage.save l i p (fs w')).
  - change (delete (Local l) i w') with (on_fs (LocalFileStorage.delete l i) w').
    change (delete l i (fs w')) with (LocalFileStorage.delete l i (fs w')).
    unfold on_fs. by destruct (LocalFileStorage.delete l i (fs w')).
Qed.

Lemma run_azure (a : AzureBlobStorage.t) (history : list op) (w : World) :
  cloud (run (Azure a) history w) = run a history (cloud w).
Proof.
  induction history as [|o history IH] using rev_ind; [done|].
  rewrite !run_snoc, <-IH. generalize (run (Azure a) history w) as w'. intros w'.
  destruct o as [i p|i]; unfold run_op.
  - change (save (Azure a) i p w') with (on_cloud (AzureBlobStorage.save a i p) w').
    change (save a i p (cloud w')) with (AzureBlobStorage.save a i p (cloud w')).
    unfold on_cloud. by destruct (AzureBlobStorage.save a i p (cloud w')).
  - change (delete (Azure a) i w') with (on_cloud (AzureBlobStorage.delete a i) w').
    change (delete a i (cloud w')) with (AzureBlobStorage.delete a i (cloud w')).
    unfold on_cloud. by destruct (AzureBlobStorage.delete a i (cloud w')).
Qed.

Lemma empty_dir_inv (self : LocalFileStorage.t) (fs : FileSystem) :
  empty_dir self fs = true → ∃ kd, local_inv self kd [] fs.
Proof.
  unfold empty_dir. intros [Hd Hs]%andb_true_iff.
  apply is_dir_dir_at in Hd as [kd Hd]. exists kd. split; [done|].
  destruct Hd as [Hloc _]. rewrite Hloc in Hs. apply bool_decide_eq_true_1 in Hs.
  intros n x Hx.
  assert (n ∈ scandir fs kd) as Hin by (apply elem_of_scandir; eauto).
  rewrite Hs in Hin. by apply elem_of_nil in Hin.
Qed.

Lemma local_inv_step (self : LocalFileStorage.t) kd (history : list op) (o : op)
    (fs : FileSystem) :
  no_separator (op_id o) →
  local_inv self kd history fs →
  local_inv self kd (history ++ [o]) (run_op self o fs).
Proof.
  intros Hs [Hd Hinv]. destruct o as [i p|i]; cbn in Hs; unfold run_op.
  - change (save self i p fs) with (LocalFileStorage.save self i p fs).
    split; [by apply dir_at_save|].
    intros n x. rewrite (local_save_plain _ _ _ _ _ Hs Hd).
    assert (nodes fs !! record_key kd i ≠ Some Dir) as Hnd.
    { intros E. destruct (Hinv _ _ E) as (? & ? & _ & ? & _). done. }
    destruct (decide (kd ++ [n] = record_key kd i)) as [Heq|Hne].
    + intros Hx. exists i, (model_dump_json p).
      apply app_inv_head in Heq. injection Heq as ->.
      rewrite live_snoc, decide_True by done. split_and!; [done| |done].
      destruct (nodes fs !! record_key kd i) as [[|]|]; cbn in Hx;
        fold (record_key kd i) in Hx; rewrite ?lookup_insert_eq in Hx; congruence.
    + intros Hx.
      assert (nodes fs !! (kd ++ [n]) = Some x) as Hold.
      { destruct (nodes fs !! record_key kd i) as [[|]|]; cbn in Hx;
          rewrite ?lookup_insert_ne in Hx; done. }
      destruct (Hinv _ _ Hold) as (j & text & -> & -> & Hlive).
      exists j, text. rewrite live_snoc. case_decide; done.
  - change (delete self i fs) with (LocalFileStorage.delete self i fs).
    split; [by apply dir_at_delete|].
    intros n x. rewrite (local_delete_plain _ _ _ _ Hs Hd).
    destruct (nodes fs !! record_key kd i) as [[old|]|] eqn:E; cbn; intros Hx.
    + destruct (decide (record_key kd i = kd ++ [n])) as [Heq|Hne].
      { rewrite <-Heq, lookup_delete_eq in Hx. done. }
      rewrite lookup_delete_ne in Hx by done.
      destruct (Hinv _ _ Hx) as (j & text & -> & -> & Hlive).
      exists j, text. rewrite live_snoc.
      case_decide; [by subst|done].
    + destruct (Hinv _ _ E) as (? & ? & _ & ? & _). done.
    + destruct (Hinv _ _ Hx) as (j & text & -> & -> & Hlive).
      exists j, text. rewrite live_snoc.
      case_decide; [subst; unfold record_key in E; congruence|done].
Qed.

Lemma local_inv_run (self : LocalFileStorage.t) kd (history : list op)
    (fs : FileSystem) :
  Forall (λ o, no_separator (op_id o)) history →
  local_inv self kd [] fs →
  local_inv self kd history (run self history fs).
Proof.
  intros Hall Hinit.
  induction history as [|o history IH] using rev_ind; [done|].
  apply Forall_app in Hall as [Hall Ho]. rewrite Forall_singleton in Ho.
  rewrite run_snoc. apply local_inv_step; [done|]. by apply IH.
Qed.

Lemma local_inv_absent (self : LocalFileStorage.t) kd (history : list op)
    (fs : FileSystem) (profile_id : string) :
  local_inv self kd history fs → no_separator profile_id →
  live profile_id history = false →
  LocalFileStorage.exists_ self profile_id fs = false.
Proof.
  intros [Hd Hinv] Hs Hlive. rewrite (local_exists_plain _ _ _ _ Hs Hd).
  apply bool_decide_eq_false_2. intros [x Hx].
  destruct (Hinv _ _ Hx) as (j & text & Heq%append_inj_l & _ & Hj).
  congruence.
Qed.

End history_facts.

Section azure_history.
Context {model : DataModel} {python : Version} {sdk : azure.SDK}.
Import azure.

Lemma fresh_azure_inv (self : AzureBlobStorage.t) (c : Cloud) :
  match containers c !! AzureBlobStorage.container_name self with
  | Some blobs => bool_decide (blobs = ∅)
  | None => true
  end = true →
  azure_inv self [] c.
Proof.
  intros Hf blobs n x Hb Hx. rewrite Hb in Hf.
  apply bool_decide_eq_true_1 in Hf. subst blobs. by rewrite lookup_empty in Hx.
Qed.

Lemma azure_inv_step (self : AzureBlobStorage.t) (history : list op) (o : op)
    (c : Cloud) :
  azure_inv self history c →
  azure_inv self (history ++ [o]) (run_op self o c).
Proof.
  intros Hinv blobs' n x. destruct o as [i p|i]; unfold run_op.
  - change (save self i p c) with (AzureBlobStorage.save self i p c).
    rewrite azure_save_spec. cbn [fst]. intros E Hx.
    destruct (Hinv _ _ _ E Hx) as (j & -> & Hj).
    exists j. rewrite live_snoc. case_decide; done.
  - change (delete self i c) with (AzureBlobStorage.delete self i c).
    rewrite azure_delete_spec.
    destruct (containers c !! _) as [blobs|] eqn:E; cbn; [|congruence].
    destruct (blobs !! (i +:+ ".json")) eqn:Eb; cbn.
    + rewrite lookup_insert_eq. intros [= <-] Hx.
      destruct (decide (n = i +:+ ".json")) as [->|Hne].
      { by rewrite lookup_delete_eq in Hx. }
      rewrite lookup_delete_ne in Hx by done.
      destruct (Hinv _ _ _ E Hx) as (j & -> & Hj).
      exists j. rewrite live_snoc. case_decide; [by subst|done].
    + rewrite E. intros [= <-] Hx.
      destruct (Hinv _ _ _ E Hx) as (j & -> & Hj).
      exists j. rewrite live_snoc. case_decide; [subst; congruence|done].
Qed.

Lemma azure_inv_run (self : AzureBlobStorage.t) (history : list op) (c : Cloud) :
  azure_inv self [] c → azure_inv self history (run self history c).
Proof.
  intros Hinit. induction history as [|o history IH] using rev_ind; [done|].
  rewrite run_snoc. by apply azure_inv_step.
Qed.

Lemma azure_inv_absent (self : AzureBlobStorage.t) (history : list op)
    (c : Cloud) (profile_id : string) :
  azure_inv self history c → live profile_id history = false →
  AzureBlobStorage.exists_ self profile_id c = false.
Proof.
  intros Hinv Hlive. rewrite azure_exists_spec.
  destruct (containers c !! _) as [blobs|] eqn:E; [|done].
  apply bool_decide_eq_false_2. intros [x Hx].
  destruct (Hinv _ _ _ E Hx) as (j & Heq%append_inj_l & Hj). congruence.
Qed.

End azure_history.

(** ** The manager *)

Section manager_facts.
Context `{DataModel} {B W : Type} `{!BaseStorage B W}.
Implicit Types (self : ProfileManager.t (B := B)) (w : W).

Lemma create_existing self profile_id data w :
  ProfileManager.exists_ self profile_id w = true →
  ProfileManager.create self profile_id data w =
  (w, inl (ValueError ("Profile '" +:+ profile_id +:+ "' already exists"))).
Proof.
  intros Hex. unfold ProfileManager.create, mbind, M_bind, reads. by rewrite Hex.
Qed.

Lemma create_new self profile_id data w :
  ProfileManager.exists_ self profile_id w = false →
  ProfileManager.create self profile_id data w =
  match model_validate (dict_value data) with
  | inl msg => (w, inl (ValidationError msg))
  | inr profile =>
      match ProfileManager.save self profile_id profile w with
      | (w', inl e) => (w', inl e)
      | (w', inr _) => (w', inr profile)
      end
  end.
Proof.
  intros Hex. unfold ProfileManager.create, mbind, M_bind, reads, validate.
  rewrite Hex. destruct (model_validate _); [done|].
  by destruct (ProfileManager.save _ _ _ _) as [w' [e|[]]].
Qed.

Lemma update_missing self profile_id updates w e :
  ProfileManager.load self profile_id w = inl e →
  ProfileManager.update self profile_id updates w = (w, inl e).
Proof.
  intros Hl. unfold ProfileManager.update, mbind, M_bind, reads. by rewrite Hl.
Qed.

Lemma update_present self profile_id updates w profile :
  ProfileManager.load self profile_id w = inr profile →
  ProfileManager.update self profile_id updates w =
  match model_validate
          (dict_value (ProfileManager.dict_update (model_dump profile) updates)) with
  | inl msg => (w, inl (ValidationError msg))
  | inr updated =>
      match ProfileManager.save self profile_id updated w with
      | (w', inl e) => (w', inl e)
      | (w', inr _) => (w', inr updated)
      end
  end.
Proof.
  intros Hl. unfold ProfileManager.update, mbind, M_bind, reads, validate.
  rewrite Hl. destruct (model_validate _); [done|].
  by destruct (ProfileManager.save _ _ _ _) as [w' [e|[]]].
Qed.

(** [dict.update]: the keys of [updates] are overridden, the others
    keep their value. *)
Lemma dict_update_lookup (d updates : gmap string Value) (k : string) :
  ProfileManager.dict_update d updates !! k =
  match updates !! k with
  | Some v => Some v
  | None => d !! k
  end.
Proof.
  unfold ProfileManager.dict_update. rewrite lookup_union.
  destruct (updates !! k), (d !! k); done.
Qed.

End manager_facts.

(** ** Overwriting a record *)

Section overwrite.
Context {model : DataModel} {python : Version} {sdk : azure.SDK}.

Lemma split_append_last (sep : ascii) (s t : string) :
  Str.contains sep t = false →
  ∃ ws w, Str.split sep (s +:+ t) = ws ++ [w +:+ t].
Proof.
  intros Ht. induction s as [|a s (ws & w & IH)].
  - exists [], "". by rewrite append_nil_l, split_without_separator.
  - rewrite append_cons. cbn [Str.split]. rewrite IH.
    destruct (Ascii.eqb a sep).
    + by exists ("" :: ws), w.
    + destruct ws as [|x ws]; cbn.
      * by exists [], (String a w).
      * by exists (String a x :: ws), w.
Qed.

(** The path of a record always ends in a component of its own. *)
Lemma file_path_parts (self : LocalFileStorage.t) (profile_id : string) :
  ∃ ps c, parts (LocalFileStorage._get_file_path self profile_id) = ps ++ [c].
Proof.
  destruct (split_append_last "/" profile_id ".json") as (ws & w & Hsp); [done|].
  assert (keeps (w +:+ ".json") = true) as Hk.
  { unfold keeps.
    assert (w +:+ ".json" ≠ "") as H1.
    { intros E%(f_equal String.length). rewrite json_name_length in E. cbn in E. lia. }
    assert (w +:+ ".json" ≠ ".") as H2.
    { intros E%(f_equal String.length). rewrite json_name_length in E. cbn in E. lia. }
    apply String.eqb_neq in H1, H2. by rewrite H1, H2. }
  assert (parts (of_string (profile_id +:+ ".json")) =
          List.filter keeps ws ++ [w +:+ ".json"]) as Hq.
  { unfold of_string; cbn. rewrite Hsp, List.filter_app. cbn. by rewrite Hk. }
  unfold LocalFileStorage._get_file_path, div.
  destruct (absolute (of_string _)); cbv zeta; cbn [parts]; rewrite Hq.
  - eauto.
  - rewrite app_assoc. eauto.
Qed.

Lemma located_has_parent (fs : FileSystem) (p : Path) ps c k :
  parts p = ps ++ [c] → locate fs p = inr k → is_dir fs (parent p) = true.
Proof.
  intros Hp Hloc. apply is_dir_spec. unfold locate, start, parent in *; cbn.
  rewrite Hp in *. rewrite removelast_last. rewrite resolve_snoc in Hloc.
  destruct (resolve fs _ ps) as [e|kd]; [done|].
  destruct (node_at fs kd) as [[|]|] eqn:E; try done. eauto.
Qed.

(** A record that can be read can be overwritten. *)
Lemma local_save_over_record (self : LocalFileStorage.t) (profile_id : string)
    (profile : CompanyProfile) (fs : FileSystem) (bytes : string) :
  read_bytes fs (LocalFileStorage._get_file_path self profile_id) = inr bytes →
  ∃ fs', LocalFileStorage.save self profile_id profile fs = (fs', inr ()).
Proof.
  unfold read_bytes, stat.
  destruct (locate fs _) as [e|k] eqn:Hloc; [done|].
  destruct (node_at fs k) as [[old|]|] eqn:Hk; try done. intros _.
  destruct (file_path_parts self profile_id) as (ps & c & Hp).
  eexists. eapply local_save_over_file; [done..|].
  by eapply located_has_parent.
Qed.

Lemma local_loaded_is_read (self : LocalFileStorage.t) (profile_id : string)
    (fs : FileSystem) (old : CompanyProfile) :
  LocalFileStorage.load self profile_id fs = inr old →
  ∃ bytes, read_bytes fs (LocalFileStorage._get_file_path self profile_id) = inr bytes.
Proof.
  unfold LocalFileStorage.load. destruct (negb _); [done|].
  destruct (read_bytes fs _); [done|]. eauto.
Qed.

End overwrite.

(** ** The small data model *)

Section sample_facts.
Import sample.

Lemma sample_round_trip : json_round_trip (model := sample.model).
Proof.
  intros [[] []]; eexists _, _; (split; [reflexivity|]); (split; [reflexivity|]);
    reflexivity.
Qed.

Lemma sample_dump_lookup (p : sample.profile) (k : string) :
  sample.dump p !! k =
  if decide (k = "active") then Some (VBool (active p))
  else if decide (k = "verified") then Some (VBool (verified p))
  else None.
Proof.
  unfold sample.dump.
  repeat case_decide; subst; simplify_map_eq; done.
Qed.

Lemma sample_keeps_fields : validation_keeps_dumped_fields (model := sample.model).
Proof.
  intros p d q k Hv Hk. cbn in *. rewrite sample_dump_lookup in Hk.
  rewrite !sample_dump_lookup. unfold sample.validate_doc in Hv.
  destruct (flag (default VMissing (d !! "active")) None) as [a|] eqn:Ea; [|done].
  destruct (flag (default VMissing (d !! "verified")) (Some false)) as [v|] eqn:Ev;
    [|done].
  injection Hv as <-. cbn.
  repeat case_decide; subst; [..|done].
  - rewrite Hk in Ea. cbn in Ea. congruence.
  - rewrite Hk in Ev. cbn in Ev. congruence.
Qed.

End sample_facts.

(** ** Either backend *)

Section any_backend.
Context {model : DataModel} {python : Version} {sdk : azure.SDK}.

Lemma save_local l profile_id p w :
  save (Local l) profile_id p w =
  ({| fs := (LocalFileStorage.save l profile_id p (fs w)).1;
      cloud := cloud w; stdout := stdout w |},
   (LocalFileStorage.save l profile_id p (fs w)).2).
Proof.
  change (save (Local l) profile_id p w)
    with (on_fs (LocalFileStorage.save l profile_id p) w).
  unfold on_fs. by destruct (LocalFileStorage.save l profile_id p (fs w)).
Qed.

Lemma delete_local l profile_id w :
  delete (Local l) profile_id w =
  ({| fs := (LocalFileStorage.delete l profile_id (fs w)).1;
      cloud := cloud w; stdout := stdout w |},
   (LocalFileStorage.delete l profile_id (fs w)).2).
Proof.
  change (delete (Local l) profile_id w)
    with (on_fs (LocalFileStorage.delete l profile_id) w).
  unfold on_fs. by destruct (LocalFileStorage.delete l profile_id (fs w)).
Qed.

Lemma save_azure a profile_id p w :
  save (Azure a) profile_id p w =
  ({| fs := fs w;
      cloud := (AzureBlobStorage.save a profile_id p (cloud w)).1;
      stdout := stdout w |},
   (AzureBlobStorage.save a profile_id p (cloud w)).2).
Proof.
  change (save (Azure a) profile_id p w)
    with (on_cloud (AzureBlobStorage.save a profile_id p) w).
  unfold on_cloud. by destruct (AzureBlobStorage.save a profile_id p (cloud w)).
Qed.

Lemma delete_azure a profile_id w :
  delete (Azure a) profile_id w =
  ({| fs := fs w;
      cloud := (AzureBlobStorage.delete a profile_id (cloud w)).1;
      stdout := stdout w |},
   (AzureBlobStorage.delete a profile_id (cloud w)).2).
Proof.
  change (delete (Azure a) profile_id w)
    with (on_cloud (AzureBlobStorage.delete a profile_id) w).
  unfold on_cloud. by destruct (AzureBlobStorage.delete a profile_id (cloud w)).
Qed.

Lemma world_eta (w : World) :
  {| fs := fs w; cloud := cloud w; stdout := stdout w |} = w.
Proof. by destruct w. Qed.

End any_backend.

(** ** Either backend, as the manager sees it *)

Section storage_facts.
Context {model : DataModel} {python : Version} {sdk : azure.SDK}.
Implicit Types (s : Storage) (w : World).

Lemma storage_save_then_load s w w' profile_id p :
  save s profile_id p w = (w', inr ()) →
  exists_ s profile_id w' = true ∧
  load s profile_id w' = parse_profile (model_dump_json p).
Proof.
  destruct s as [l|a]; intros Hsave.
  - rewrite save_local in Hsave.
    destruct (LocalFileStorage.save l profile_id p (fs w)) as [fs' r] eqn:E.
    injection Hsave as <- ->. by apply (local_save_then_load _ _ _ _ _ E).
  - rewrite save_azure in Hsave.
    destruct (AzureBlobStorage.save a profile_id p (cloud w)) as [c' r] eqn:E.
    injection Hsave as <- ->. by apply (azure_save_then_load _ _ _ _ _ E).
Qed.

Lemma storage_save_twice s w w' profile_id p :
  save s profile_id p w = (w', inr ()) →
  save s profile_id p w' = (w', inr ()).
Proof.
  destruct s as [l|a]; intros Hsave.
  - rewrite save_local in Hsave |- *.
    destruct (LocalFileStorage.save l profile_id p (fs w)) as [fs' r] eqn:E.
    injection Hsave as <- ->. cbn [fs cloud stdout].
    by rewrite (local_save_twice _ _ _ _ _ E).
  - rewrite save_azure in Hsave |- *.
    destruct (AzureBlobStorage.save a profile_id p (cloud w)) as [c' r] eqn:E.
    injection Hsave as <- ->. cbn [fs cloud stdout].
    by rewrite (azure_save_twice _ _ _ _ _ E).
Qed.

Lemma local_overwrite (l : LocalFileStorage.t) w profile_id p old :
  load (Local l) profile_id w = inr old →
  ∃ w', save (Local l) profile_id p w = (w', inr ()).
Proof.
  intros Hload.
  change (LocalFileStorage.load l profile_id (fs w) = inr old) in Hload.
  apply local_loaded_is_read in Hload as [bytes Hb].
  destruct (local_save_over_record l profile_id p _ _ Hb) as [fs' E].
  rewrite save_local, E. eauto.
Qed.

(** An ID that does not exist yet can be saved, when it has no path
    separator and the profiles directory is in place. *)
Lemma local_save_fresh_id (l : LocalFileStorage.t) w profile_id p :
  is_dir (fs w) (LocalFileStorage.profiles_dir l) = true →
  no_separator profile_id →
  exists_ (Local l) profile_id w = false →
  ∃ w', save (Local l) profile_id p w = (w', inr ()).
Proof.
  intros [kd Hd]%is_dir_dir_at Hs Hex.
  change (LocalFileStorage.exists_ l profile_id (fs w) = false) in Hex.
  rewrite (local_exists_plain _ _ _ _ Hs Hd) in Hex.
  apply bool_decide_eq_false in Hex.
  rewrite save_local, (local_save_plain _ _ _ _ _ Hs Hd).
  destruct (nodes (fs w) !! record_key kd profile_id) as [x|] eqn:E; [|eauto].
  destruct Hex. eauto.
Qed.

(** Through the manager's eyes too, the blob backend's [save] raises and
    leaves the world as it was. *)
Lemma save_azure_raises (a : AzureBlobStorage.t) w profile_id p :
  save (Azure a) profile_id p w =
  (w, inl (AttributeError "'dict' object has no attribute 'cache_control'")).
Proof. rewrite save_azure, azure_save_spec. cbn. by rewrite world_eta. Qed.

Lemma storage_absent s w profile_id :
  exists_ s profile_id w = false →
  (∃ msg, load s profile_id w = inl (FileNotFoundError msg)) ∧
  (∃ msg, delete s profile_id w = (w, inl (FileNotFoundError msg))).
Proof.
  destruct s as [l|a]; intros Hex.
  - destruct (local_absent l profile_id (fs w) Hex) as [Hl Hd]. split; [done|].
    rewrite delete_local, Hd. cbn. rewrite world_eta. eauto.
  - destruct (azure_absent a profile_id (cloud w) Hex) as [Hl Hd]. split.
    + eexists. exact Hl.
    + rewrite delete_azure, Hd. cbn. rewrite world_eta. eauto.
Qed.

Lemma storage_delete_then_absent s w w' profile_id :
  delete s profile_id w = (w', inr ()) →
  exists_ s profile_id w' = false.
Proof.
  destruct s as [l|a]; intros Hdel.
  - rewrite delete_local in Hdel.
    destruct (LocalFileStorage.delete l profile_id (fs w)) as [fs' r] eqn:E.
    injection Hdel as <- ->. by apply (local_delete_then_absent _ _ _ _ E).
  - rewrite delete_azure in Hdel.
    destruct (AzureBlobStorage.delete a profile_id (cloud w)) as [c' r] eqn:E.
    injection Hdel as <- ->. by apply (azure_delete_then_absent _ _ _ _ E).
Qed.

Lemma local_present_load_not_NotFound (l : LocalFileStorage.t) profile_id
    (fs : FileSystem) e :
  LocalFileStorage.exists_ l profile_id fs = true →
  LocalFileStorage.load l profile_id fs = inl e → is_NotFound e = false.
Proof.
  intros Hex Hload. rewrite (local_load_present _ _ _ Hex) in Hload.
  unfold read_bytes, stat in Hload.
  apply path_exists_spec in Hex as (k & n & Hloc & Hk). rewrite Hloc, Hk in Hload.
  destruct n as [bytes|]; [|by injection Hload as <-].
  by eapply parse_profile_not_NotFound.
Qed.

Lemma storage_save_frame s w profile_id p other :
  ready s w → flat_id s profile_id → flat_id s other → profile_id ≠ other →
  exists_ s other (save s profile_id p w).1 = exists_ s other w ∧
  load s other (save s profile_id p w).1 = load s other w.
Proof.
  destruct s as [l|a]; intros Hr Hi Ho Hne.
  - rewrite save_local. by apply local_save_frame.
  - rewrite save_azure. by apply azure_save_frame.
Qed.

Lemma storage_delete_frame s w profile_id other :
  ready s w → flat_id s profile_id → flat_id s other → profile_id ≠ other →
  exists_ s other (delete s profile_id w).1 = exists_ s other w ∧
  load s other (delete s profile_id w).1 = load s other w.
Proof.
  destruct s as [l|a]; intros Hr Hi Ho Hne.
  - rewrite delete_local. by apply local_delete_frame.
  - rewrite delete_azure. by apply azure_delete_frame.
Qed.

Lemma storage_list_exact s w l :
  list_ s w = inr l →
  StronglySorted String.le l ∧
  (listable s w →
   NoDup l ∧
   ∀ profile_id, flat_id s profile_id →
     (profile_id ∈ l ↔ exists_ s profile_id w = true)).
Proof.
  destruct s as [ls|a]; intros Hl.
  - change (LocalFileStorage.list_ ls (fs w) = inr l) in Hl. split.
    + destruct (local_list_returns ls (fs w)) as (l' & Hl' & Hs). congruence.
    + intros Hok. by apply local_list_exact.
  - change (AzureBlobStorage.list_ a (cloud w) = inr l) in Hl.
    destruct (azure_list_exact _ _ _ Hl) as (Hs & Hn & Hm).
    split; [done|]. intros _. split; [done|]. intros profile_id _. apply Hm.
Qed.

Lemma storage_history_absent s w history profile_id :
  fresh s w = true →
  Forall (λ o, flat_id s (op_id o)) history →
  flat_id s profile_id →
  live profile_id history = false →
  exists_ s profile_id (run s history w) = false.
Proof.
  destruct s as [l|a]; intros Hf Hall Hi Hlive.
  - change (LocalFileStorage.exists_ l profile_id (fs (run (Local l) history w)) = false).
    rewrite run_local. destruct (empty_dir_inv _ _ Hf) as [kd Hinv].
    eapply local_inv_absent; [|done..]. by apply local_inv_run.
  - change (AzureBlobStorage.exists_ a profile_id (cloud (run (Azure a) history w)) = false).
    rewrite run_azure. eapply azure_inv_absent; [|done].
    by apply azure_inv_run, fresh_azure_inv.
Qed.

End storage_facts.

(** ** The detector and the blob constructor *)

Section detector_facts.
Context {python : Version} {sdk : azure.SDK}
        {interp : builtins.Interpreter}.

(** The flag the detector tests is true with or without the SDK. *)
Lemma package_flag_always_true (sdk_installed : bool) :
  storage_package.AZURE_AVAILABLE sdk_installed = true.
Proof. by destruct sdk_installed. Qed.

(** The flag the constructor tests is the presence of the SDK. *)
Lemma module_flag_is_sdk (sdk_installed : bool) :
  AzureBlobStorage.AZURE_AVAILABLE sdk_installed = sdk_installed.
Proof. by destruct sdk_installed. Qed.

(** Without the two conditions on the environment the detector builds the
    local backend on [PROFILES_DIR]. *)
Lemma auto_detect_local (environ : gmap string string) (sdk_installed : bool)
    (w : World) :
  wants_azure environ = false →
  _auto_detect_storage environ sdk_installed w =
  let profiles_dir := builtins.getenv_default environ "PROFILES_DIR" "./profiles" in
  (_ ← print ("📁 Using Local File Storage (directory: " +:+ profiles_dir +:+ ")");
   s ← on_fs (LocalFileStorage.__init__ profiles_dir);
   mret (Local s)) w.
Proof.
  unfold wants_azure, _auto_detect_storage. intros ->. done.
Qed.

(** With them it goes for the blob backend, SDK or not, and never builds
    the local one. *)
Lemma auto_detect_azure (environ : gmap string string) (sdk_installed : bool)
    (w : World) :
  wants_azure environ = true →
  ∀ w' l, _auto_detect_storage environ sdk_installed w ≠ (w', inr (Local l)).
Proof.
  unfold wants_azure, _auto_detect_storage. intros -> w' l.
  rewrite package_flag_always_true. cbn [andb].
  unfold mbind, M_bind, print, raise, mret, M_ret, on_cloud.
  destruct (builtins.int _); [|done].
  destruct (AzureBlobStorage.__init__ _ _ _ _ _) as [c [e|a]]; done.
Qed.

(** When the container lookup raises nothing, the constructor leaves the
    account as it found it: a container that is missing stays missing. *)
Lemma init_without_lookup_error (c : azure.Cloud)
    (connection_string container_name : string) (timeout : Z) :
  azure.from_connection_string connection_string timeout = inr () →
  azure.get_container_client c container_name = inr () →
  (AzureBlobStorage.__init__ true connection_string container_name timeout c).1 = c.
Proof.
  intros Hconn Hlookup.
  unfold AzureBlobStorage.__init__, AzureBlobStorage._ensure_container_exists,
    mbind, M_bind, mret, M_ret, reads. cbn. by rewrite Hconn, Hlookup.
Qed.

End detector_facts.

(** * The claims *)

Section claims.
Context {model : DataModel} {python : Version} {sdk : azure.SDK}
        {interp : builtins.Interpreter}.

(** C1. After [save(id, p)] returned, on either backend, [exists(id)] is
    true and [load(id)] returns a profile with the field content of [p].
    The data model is assumed to read back what it writes
    ([json_round_trip]). *)
Theorem C1_save_then_load (s : Storage) (w w' : World) (profile_id : string)
    (p : CompanyProfile) :
  json_round_trip →
  save s profile_id p w = (w', inr ()) →
  exists_ s profile_id w' = true ∧
  ∃ q, load s profile_id w' = inr q ∧ same_content q p.
Proof.
  intros Hrt Hsave.
  destruct (parse_profile_round_trip p Hrt) as (q & Hq & Hsame).
  destruct (storage_save_then_load _ _ _ _ _ Hsave) as [Hex Hload].
  split; [done|]. exists q. split; [|done]. by rewrite Hload.
Qed.

(** C9.  Once [save(id, p)] has returned, saving the same again returns
    and leaves the very same store, so [load(id)] is the same after two
    saves as after one, and what [load(id)] then reads is what [p] was
    written as, whatever the store held before.  On the local backend a
    record that [load] can read is always replaced: [save] on it returns.
    On the blob backend no [save] returns: the call hands [upload_blob] a
    dictionary as [content_settings], the SDK reads an attribute off it
    before it sends anything, and [AttributeError] is raised with the
    account as it was; so a record that [load] reads there is read the
    same after [save(id, p)], whatever [p] is. *)
Theorem C9_blob_save_never_overwrites (profile_id : string) (p : CompanyProfile) :
  (∀ (s : Storage) w w1, save s profile_id p w = (w1, inr ()) →
     save s profile_id p w1 = (w1, inr ()) ∧
     load s profile_id (save s profile_id p w1).1 = load s profile_id w1 ∧
     load s profile_id w1 = parse_profile (model_dump_json p)) ∧
  (∀ (l : LocalFileStorage.t) w old, load (Local l) profile_id w = inr old →
     ∃ w1, save (Local l) profile_id p w = (w1, inr ()) ∧
           load (Local l) profile_id w1 = parse_profile (model_dump_json p)) ∧
  (∀ (a : AzureBlobStorage.t) w,
     save (Azure a) profile_id p w =
       (w, inl (AttributeError "'dict' object has no attribute 'cache_control'")) ∧
     AzureBlobStorage.save a profile_id p (cloud w) =
       (cloud w, inl (AttributeError "'dict' object has no attribute 'cache_control'")) ∧
     load (Azure a) profile_id (save (Azure a) profile_id p w).1 =
       load (Azure a) profile_id w).
Proof.
  split_and!.
  - intros s w w1 Hsave. pose proof (storage_save_twice _ _ _ _ _ Hsave) as Htwice.
    split; [done|]. rewrite Htwice. split; [done|].
    by apply (storage_save_then_load _ _ _ _ _ Hsave).
  - intros l w old Hload. destruct (local_overwrite l w profile_id p old Hload) as [w1 Hs].
    exists w1. split; [done|]. by apply (storage_save_then_load _ _ _ _ _ Hs).
  - intros a w. rewrite save_azure_raises. by rewrite azure_save_spec.
Qed.

(** C7. The local backend's [load(id)] raises NotFound exactly when the
    path [<directory>/<id>.json] does not exist; when the file can be read
    and its content fails JSON parsing or validation, that very failure is
    what [load] raises. *)
Theorem C7_local_load_not_found_iff_absent (self : LocalFileStorage.t)
    (profile_id : string) (fs : FileSystem) :
  (LocalFileStorage.exists_ self profile_id fs = false ↔
   ∃ msg, LocalFileStorage.load self profile_id fs = inl (FileNotFoundError msg)) ∧
  (∀ bytes,
     read_bytes fs (LocalFileStorage._get_file_path self profile_id) = inr bytes →
     (∀ e, json_load bytes = inl e →
        LocalFileStorage.load self profile_id fs = inl (parse_exn e)) ∧
     (∀ data msg, json_load bytes = inr data → model_validate data = inl msg →
        LocalFileStorage.load self profile_id fs = inl (ValidationError msg))).
Proof.
  split.
  - split.
    + intros Hex. eexists. by apply local_load_absent.
    + intros [msg Hload].
      destruct (LocalFileStorage.exists_ self profile_id fs) eqn:Hex; [|done].
      pose proof (local_present_load_not_NotFound _ _ _ _ Hex Hload). done.
  - intros bytes Hread.
    assert (LocalFileStorage.exists_ self profile_id fs = true) as Hex.
    { unfold LocalFileStorage.exists_, path_exists. unfold read_bytes in Hread.
      by destruct (stat fs _). }
    rewrite (local_load_present _ _ _ Hex), Hread. unfold parse_profile. split.
    + by intros e ->.
    + by intros data msg -> ->.
Qed.

(** C3. [create(id, data)] on an ID that exists raises AlreadyExists (a
    [ValueError]) and leaves the store as it was.  On an ID that does not
    exist it validates [data] and hands the profile to the backend's
    [save(id, profile)].  When it has returned the profile, that [save]
    has returned: [exists(id)] is true, [load(id)] reads what the profile
    was written as (a profile with the same field content, under
    [json_round_trip]), and a second [create] on the same ID raises
    AlreadyExists and changes nothing.  And on the local backend it does
    return the validated profile, for an ID that does not exist, has no
    path separator and a record path within the limits of the platform,
    when the profiles directory is in place. *)
Theorem C3_create (self : ProfileManager.t (B := Storage)) (profile_id : string)
    (data : gmap string Value) (w : World) :
  (ProfileManager.exists_ self profile_id w = true →
   ProfileManager.create self profile_id data w =
   (w, inl (ValueError ("Profile '" +:+ profile_id +:+ "' already exists")))) ∧
  (ProfileManager.exists_ self profile_id w = false →
   ProfileManager.create self profile_id data w =
   match model_validate (dict_value data) with
   | inl msg => (w, inl (ValidationError msg))
   | inr profile =>
       match save (ProfileManager.storage self) profile_id profile w with
       | (w', inl e) => (w', inl e)
       | (w', inr _) => (w', inr profile)
       end
   end) ∧
  (∀ w1 profile again,
     ProfileManager.create self profile_id data w = (w1, inr profile) →
     ProfileManager.exists_ self profile_id w = false ∧
     model_validate (dict_value data) = inr profile ∧
     save (ProfileManager.storage self) profile_id profile w = (w1, inr ()) ∧
     ProfileManager.exists_ self profile_id w1 = true ∧
     ProfileManager.load self profile_id w1 = parse_profile (model_dump_json profile) ∧
     (json_round_trip →
      ∃ q, ProfileManager.load self profile_id w1 = inr q ∧ same_content q profile) ∧
     ∃ msg, ProfileManager.create self profile_id again w1 = (w1, inl (ValueError msg))) ∧
  (∀ l profile,
     ProfileManager.storage self = Local l →
     is_dir (fs w) (LocalFileStorage.profiles_dir l) = true →
     storable l profile_id →
     ProfileManager.exists_ self profile_id w = false →
     model_validate (dict_value data) = inr profile →
     ∃ w1, ProfileManager.create self profile_id data w = (w1, inr profile)).
Proof.
  split; [apply create_existing|]. split; [apply create_new|]. split; cycle 1.
  { intros l profile Hl Hdir [Hsep _] Hex Hv.
    rewrite (create_new _ _ _ _ Hex), Hv. unfold ProfileManager.save.
    unfold ProfileManager.exists_ in Hex. rewrite Hl in *.
    destruct (local_save_fresh_id l w profile_id profile Hdir Hsep Hex) as [w1 ->].
    eauto. }
  intros w1 profile again Hc.
  destruct (ProfileManager.exists_ self profile_id w) eqn:E.
  { by rewrite (create_existing _ _ _ _ E) in Hc. }
  rewrite (create_new _ _ _ _ E) in Hc.
  destruct (model_validate (dict_value data)) as [msg|q]; [done|].
  unfold ProfileManager.save in Hc.
  destruct (save (ProfileManager.storage self) profile_id q w) as [w' [e|[]]] eqn:Hs;
    [done|].
  injection Hc as <- <-.
  destruct (storage_save_then_load _ _ _ _ _ Hs) as [Hex Hload].
  split_and!; [done..| |].
  - intros Hrt. destruct (parse_profile_round_trip q Hrt) as (q' & Hq & Hsame).
    exists q'. split; [|done]. unfold ProfileManager.load. by rewrite Hload.
  - eexists. by apply create_existing.
Qed.

(** C2. [update(id, partial_data)] fails as [load(id)] fails, with
    NotFound when [id] has no record, and then leaves the store as it
    was.  Otherwise it dumps the stored profile to a mapping, overrides
    the top-level keys of [partial_data] and no other, validates the
    merged mapping and hands the result to the backend's [save(id, _)].
    When it has returned the updated profile, that [save] has returned:
    [exists(id)] is true and [load(id)] reads what the updated profile was
    written as (a profile with the same field content, under
    [json_round_trip]).  Under a data model that validates field by
    field, every top-level field whose key is not in [partial_data] dumps
    from the updated profile as it did from the stored one.  And on the
    local backend it does return the validated profile, for every ID
    with a record that [load] reads. *)
Theorem C2_update (self : ProfileManager.t (B := Storage)) (profile_id : string)
    (updates : gmap string Value) (w : World) :
  (ProfileManager.exists_ self profile_id w = false →
   ∃ msg, ProfileManager.update self profile_id updates w =
          (w, inl (FileNotFoundError msg))) ∧
  (∀ e, ProfileManager.load self profile_id w = inl e →
        ProfileManager.update self profile_id updates w = (w, inl e)) ∧
  (∀ stored, ProfileManager.load self profile_id w = inr stored →
     let merged := ProfileManager.dict_update (model_dump stored) updates in
     (∀ k v, updates !! k = Some v → merged !! k = Some v) ∧
     (∀ k, updates !! k = None → merged !! k = model_dump stored !! k) ∧
     ProfileManager.update self profile_id updates w =
     match model_validate (dict_value merged) with
     | inl msg => (w, inl (ValidationError msg))
     | inr updated =>
         match save (ProfileManager.storage self) profile_id updated w with
         | (w', inl e) => (w', inl e)
         | (w', inr _) => (w', inr updated)
         end
     end ∧
     (∀ w' updated,
        ProfileManager.update self profile_id updates w = (w', inr updated) →
        model_validate (dict_value merged) = inr updated ∧
        save (ProfileManager.storage self) profile_id updated w = (w', inr ()) ∧
        ProfileManager.exists_ self profile_id w' = true ∧
        ProfileManager.load self profile_id w' =
          parse_profile (model_dump_json updated) ∧
        (json_round_trip →
         ∃ q, ProfileManager.load self profile_id w' = inr q ∧ same_content q updated) ∧
        (validation_keeps_dumped_fields →
         ∀ k, updates !! k = None →
              model_dump updated !! k = model_dump stored !! k)) ∧
     (∀ l updated,
        ProfileManager.storage self = Local l →
        model_validate (dict_value merged) = inr updated →
        ∃ w', ProfileManager.update self profile_id updates w = (w', inr updated))).
Proof.
  split; [|split].
  - intros Hex. destruct (storage_absent _ _ _ Hex) as [[msg Hl] _].
    exists msg. by apply update_missing.
  - intros e. apply update_missing.
  - intros stored Hload merged.
    assert (∀ k, updates !! k = None → merged !! k = model_dump stored !! k) as Hkeep.
    { intros k Hk. unfold merged. by rewrite dict_update_lookup, Hk. }
    split_and!; [|done|by apply update_present| |].
    + intros k v Hk. unfold merged. by rewrite dict_update_lookup, Hk.
    + intros w' updated Hu.
      rewrite (update_present _ _ _ _ _ Hload) in Hu. fold merged in Hu.
      destruct (model_validate (dict_value merged)) as [msg|q] eqn:Hv; [done|].
      unfold ProfileManager.save in Hu.
      destruct (save (ProfileManager.storage self) profile_id q w) as [w2 [e|[]]] eqn:Hs;
        [done|].
      injection Hu as <- <-.
      destruct (storage_save_then_load _ _ _ _ _ Hs) as [Hex Hl].
      split_and!; [done..| |].
      * intros Hrt. destruct (parse_profile_round_trip q Hrt) as (q' & Hq & Hsame).
        exists q'. split; [|done]. unfold ProfileManager.load. by rewrite Hl.
      * intros Hfields k Hk. eapply Hfields; [done|]. by apply Hkeep.
    + intros l updated Hl Hv.
      rewrite (update_present _ _ _ _ _ Hload). fold merged. rewrite Hv.
      unfold ProfileManager.save. unfold ProfileManager.load in Hload.
      rewrite Hl in *.
      destruct (local_overwrite l w profile_id updated stored Hload) as [w' ->].
      eauto.
Qed.

(** C8.  Constructing the blob backend (SDK installed, connection string
    accepted) creates the container when, and only when, the lookup
    [get_container_client] raises [ResourceNotFoundError]; in every other
    case the account is left as it was.  The lookup of the released SDK
    builds a client and sends no request ([lookup_sends_nothing]): with
    it the constructor returns on an account that lacks the container
    and the container is still missing afterwards, so that [list()] on
    the new backend raises [ResourceNotFoundError]. *)
Theorem C8_container_not_ensured (c : azure.Cloud)
    (connection_string container_name : string) (timeout : Z) :
  azure.from_connection_string connection_string timeout = inr () →
  let built :=
    AzureBlobStorage.__init__ true connection_string container_name timeout c in
  (azure.get_container_client c container_name = inl ResourceNotFoundError →
   built.1 = (azure.create_container container_name c).1 ∧
   azure.container_exists built.1 container_name = true) ∧
  (azure.get_container_client c container_name ≠ inl ResourceNotFoundError →
   built.1 = c) ∧
  (azure.lookup_sends_nothing →
   azure.container_exists c container_name = false →
   ∃ self, built = (c, inr self) ∧
     AzureBlobStorage.container_name self = container_name ∧
     azure.container_exists built.1 container_name = false ∧
     AzureBlobStorage.list_ self built.1 = inl ResourceNotFoundError).
Proof.
  intros Hconn. cbv zeta.
  unfold AzureBlobStorage.__init__, AzureBlobStorage._ensure_container_exists,
    mbind, M_bind, mret, M_ret, reads. cbn. rewrite Hconn.
  unfold azure.create_container, azure.container_exists. split_and!.
  - intros ->. destruct (azure.containers c !! container_name) eqn:E; cbn.
    + split; [done|]. apply bool_decide_eq_true_2. by rewrite E.
    + split; [done|]. apply bool_decide_eq_true_2. by rewrite lookup_insert_eq.
  - intros Hne. destruct (azure.get_container_client c container_name) as [e|[]];
      [|done]. by destruct e.
  - intros Hlookup Hmissing. rewrite Hlookup. eexists. split; [done|]. cbn.
    split; [done|]. split; [done|].
    apply bool_decide_eq_false_1 in Hmissing.
    unfold AzureBlobStorage.list_, azure.list_blobs. cbn. rewrite Hlookup.
    destruct (azure.containers c !! container_name) eqn:E; [|done].
    destruct Hmissing. eauto.
Qed.

(** C5, at the failing input.  In a production environment with a
    connection string and without the Azure SDK installed, the flag the
    detector tests is true although the SDK is missing, and the detector
    announces the blob backend and raises [ImportError]; it does not
    fall back to the local backend. *)
Theorem C5_detector_without_sdk (w : World) :
  wants_azure production_environ = true ∧
  AzureBlobStorage.AZURE_AVAILABLE false = false ∧
  storage_package.AZURE_AVAILABLE false = true ∧
  _auto_detect_storage production_environ false w =
  ({| fs := fs w; cloud := cloud w;
      stdout := stdout w ++
        ["🔵 Using Azure Blob Storage (container: company-profiles)"] |},
   inl (ImportError ("Azure Storage SDK not installed. " +:+
                     "Install with: pip install carm-company-profile[azure]"))).
Proof. split_and!; reflexivity. Qed.

(** C10, amended.  For two distinct IDs, [save(id, p)] and [delete(id)]
    leave [exists(id')] and [load(id')] as they were: on the blob backend
    for all IDs, on the local backend for IDs without a path separator
    when the profiles directory is in place.  The key [id + ".json"]
    determines [id] in any case. *)
Theorem C10_other_id_untouched (s : Storage) (w : World)
    (profile_id other : string) (p : CompanyProfile) :
  ready s w → flat_id s profile_id → flat_id s other → profile_id ≠ other →
  AzureBlobStorage._get_blob_name profile_id ≠ AzureBlobStorage._get_blob_name other ∧
  exists_ s other (save s profile_id p w).1 = exists_ s other w ∧
  load s other (save s profile_id p w).1 = load s other w ∧
  exists_ s other (delete s profile_id w).1 = exists_ s other w ∧
  load s other (delete s profile_id w).1 = load s other w.
Proof.
  intros Hr Hi Ho Hne.
  destruct (storage_save_frame s w profile_id p other) as [? ?]; [done..|].
  destruct (storage_delete_frame s w profile_id other) as [? ?]; [done..|].
  split_and!; [|done..].
  unfold AzureBlobStorage._get_blob_name. by intros ?%append_inj_l.
Qed.

(** C4, amended.  [list()] returns on the local backend, and on the blob
    backend when the container is in place; whenever it returns, the IDs
    come in ascending order.  On the blob backend, and on the local
    backend when no entry [*.json] has only dots before the extension,
    they come without duplicates, and an ID (on the local backend: one
    without a path separator) is listed exactly when [exists] is true for
    it. *)
Theorem C4_list_sorted_and_exact (s : Storage) (w : World) :
  (can_list s w → ∃ l, list_ s w = inr l) ∧
  (∀ l, list_ s w = inr l →
     StronglySorted String.le l ∧
     (listable s w →
      NoDup l ∧
      ∀ profile_id, flat_id s profile_id →
        (profile_id ∈ l ↔ exists_ s profile_id w = true))).
Proof.
  split; [|apply storage_list_exact].
  destruct s as [l|a]; intros Hc.
  - destruct (local_list_returns l (fs w)) as (ids & Hl & _). by exists ids.
  - destruct Hc as [Hlookup Hc]. by apply azure_list_returns.
Qed.

(** C6, amended.  Start from a backend nothing was saved to (an empty
    profiles directory, an empty or missing container) and run any
    history of [save] and [delete] calls (on the local backend: on IDs
    without a path separator).  For an ID (the same proviso, and on the
    local backend a record path within the limits of the platform) that
    was never saved, or was deleted after its last save, [exists] is
    false and [load] and [delete] raise NotFound.  And on any store and
    for any ID, after [delete(id)] returned, [exists(id)] is false and a
    second [delete(id)] raises NotFound.  The file-system model has no
    limit on names; the proviso on the record path keeps the statement
    to the paths it stands for. *)
Theorem C6_absent_ids (s : Storage) :
  (∀ w history profile_id,
     fresh s w = true →
     Forall (λ o, flat_id s (op_id o)) history →
     flat_id s profile_id →
     id_within_limits s profile_id →
     live profile_id history = false →
     let w' := run s history w in
     exists_ s profile_id w' = false ∧
     (∃ msg, load s profile_id w' = inl (FileNotFoundError msg)) ∧
     (∃ msg, delete s profile_id w' = (w', inl (FileNotFoundError msg)))) ∧
  (∀ w w' profile_id,
     delete s profile_id w = (w', inr ()) →
     exists_ s profile_id w' = false ∧
     (∃ msg, load s profile_id w' = inl (FileNotFoundError msg)) ∧
     (∃ msg, delete s profile_id w' = (w', inl (FileNotFoundError msg)))).
Proof.
  split.
  - intros w history profile_id Hf Hall Hi _ Hlive w'.
    pose proof (storage_history_absent _ _ _ _ Hf Hall Hi Hlive) as Hex.
    split; [done|]. by apply storage_absent.
  - intros w w' profile_id Hdel.
    pose proof (storage_delete_then_absent _ _ _ _ Hdel) as Hex.
    split; [done|]. by apply storage_absent.
Qed.

End claims.

(** * Further properties *)

(** ** The local backend: construction *)

Section fs_growth.

Lemma only_adds_dirs_refl fs : only_adds_dirs fs fs.
Proof. by split_and!. Qed.

Lemma only_adds_dirs_trans fs1 fs2 fs3 :
  only_adds_dirs fs1 fs2 → only_adds_dirs fs2 fs3 → only_adds_dirs fs1 fs3.
Proof.
  intros (Hc & Hk & Hf) (Hc' & Hk' & Hf'). split_and!.
  - by rewrite Hc'.
  - intros k n Hn. by apply Hk', Hk.
  - intros k text Ht. by apply Hf, Hf'.
Qed.

Lemma node_at_nodes fs k : node_at fs k = None → nodes fs !! k = None ∧ k ≠ [].
Proof. destruct k; [done|]. by cbn. Qed.

Lemma put_dir_only_adds fs k :
  node_at fs k = None → only_adds_dirs fs (put k Dir fs).
Proof.
  intros [Hk Hne]%node_at_nodes. split_and!; [done|..]; cbn.
  - intros k' n Hn. rewrite lookup_insert_ne; [done|]. intros ->. congruence.
  - intros k' text. destruct (decide (k = k')) as [->|].
    + by rewrite lookup_insert_eq.
    + by rewrite lookup_insert_ne.
Qed.

Lemma mkdir_only_adds p fs : only_adds_dirs fs (mkdir p fs).1.
Proof.
  unfold mkdir. destruct (locate fs p) as [e|k]; [apply only_adds_dirs_refl|].
  destruct (node_at fs k) eqn:E; [apply only_adds_dirs_refl|].
  by apply put_dir_only_adds.
Qed.

Lemma mkdir_exist_ok_only_adds p fs : only_adds_dirs fs (mkdir_exist_ok p fs).1.
Proof.
  unfold mkdir_exist_ok. pose proof (mkdir_only_adds p fs) as Hm.
  destruct (mkdir p fs) as [fs' [e|[]]]; [|done].
  destruct e; try done; by destruct (is_dir fs' p).
Qed.

Lemma mkdir_parents_rev_unfold rt r fs :
  mkdir_parents_rev rt r fs =
  let p := {| root := rt; parts := rev r |} in
  match mkdir p fs with
  | (fs', inr _) => (fs', inr ())
  | (fs', inl (FileNotFoundError m)) =>
      match r with
      | [] => (fs', inl (FileNotFoundError m))
      | _ :: rparent =>
          match mkdir_parents_rev rt rparent fs' with
          | (fs1, inl e) => (fs1, inl e)
          | (fs1, inr _) => mkdir_exist_ok p fs1
          end
      end
  | (fs', inl e) => if is_dir fs' p then (fs', inr ()) else (fs', inl e)
  end.
Proof. by destruct r. Qed.

Lemma mkdir_parents_rev_only_adds rt r fs :
  only_adds_dirs fs (mkdir_parents_rev rt r fs).1.
Proof.
  revert fs. induction r as [|c r IH]; intros fs;
    rewrite mkdir_parents_rev_unfold; cbv zeta;
    match goal with |- context [mkdir ?p fs] =>
      pose proof (mkdir_only_adds p fs) as Hm;
      destruct (mkdir p fs) as [fs' [e|[]]]; [|done]
    end.
  - destruct e; try done; by destruct (is_dir fs' _).
  - destruct e; try (by destruct (is_dir fs' _)).
    pose proof (IH fs') as Hp.
    destruct (mkdir_parents_rev rt r fs') as [fs1 [e|[]]].
    + by eapply only_adds_dirs_trans.
    + match goal with |- context [mkdir_exist_ok ?p fs1] =>
        pose proof (mkdir_exist_ok_only_adds p fs1) as Hx end.
      eapply only_adds_dirs_trans; [done|]. by eapply only_adds_dirs_trans.
Qed.

Lemma mkdir_parents_only_adds p fs : only_adds_dirs fs (mkdir_parents p fs).1.
Proof. apply mkdir_parents_rev_only_adds. Qed.

Lemma mkdir_parents_rev_refused rt r fs e :
  mkdir {| root := rt; parts := rev r |} fs = (fs, inl e) →
  is_NotFound e = false →
  is_dir fs {| root := rt; parts := rev r |} = false →
  mkdir_parents_rev rt r fs = (fs, inl e).
Proof.
  intros Hm He Hd. rewrite mkdir_parents_rev_unfold. cbv zeta. rewrite Hm.
  destruct e; try done; by rewrite Hd.
Qed.

End fs_growth.

Section local_init.

(** X1. Constructing the local backend never removes or rewrites anything:
    every node of the file system is still there afterwards and no file
    is new, whether the constructor returns or raises.  When it returns,
    the profiles directory is a directory, and constructing again changes
    nothing more. *)
Theorem local_init_only_adds_dirs (profiles_dir : string) (fs : FileSystem) :
  let built := LocalFileStorage.__init__ profiles_dir fs in
  only_adds_dirs fs built.1 ∧
  (∀ self, built.2 = inr self →
     LocalFileStorage.profiles_dir self = of_string profiles_dir ∧
     is_dir built.1 (of_string profiles_dir) = true ∧
     LocalFileStorage.__init__ profiles_dir built.1 = (built.1, inr self)).
Proof.
  cbv zeta. unfold LocalFileStorage.__init__, mbind, M_bind, mret, M_ret.
  pose proof (mkdir_parents_only_adds (of_string profiles_dir) fs) as Hadds.
  destruct (mkdir_parents (of_string profiles_dir) fs) as [fs' [e|[]]] eqn:Hm;
    cbn [fst snd] in *.
  - split; [done|]. by intros self.
  - split; [done|]. intros self [= <-]. cbn [LocalFileStorage.profiles_dir].
    pose proof (mkdir_parents_is_dir _ _ _ Hm) as Hd.
    split; [done|]. split; [done|].
    by rewrite (mkdir_parents_on_dir _ _ Hd).
Qed.

(** X2. The constructor's failures.  When the profiles path names a
    regular file the constructor raises [FileExistsError]; when a
    component on the way to it is a regular file it raises
    [NotADirectoryError]; either way the file system is left as it
    was. *)
Theorem local_init_refused (profiles_dir : string) (fs : FileSystem) :
  (∀ k text,
     locate fs (of_string profiles_dir) = inr k →
     node_at fs k = Some (File text) →
     LocalFileStorage.__init__ profiles_dir fs = (fs, inl FileExistsError)) ∧
  (locate fs (of_string profiles_dir) = inl NotADirectoryError →
   LocalFileStorage.__init__ profiles_dir fs = (fs, inl NotADirectoryError)).
Proof.
  unfold LocalFileStorage.__init__, mbind, M_bind, mkdir_parents.
  set (p := of_string profiles_dir).
  assert (p = {| root := root p; parts := rev (rev (parts p)) |}) as Hp.
  { by rewrite path_rev_rev. }
  split.
  - intros k text Hl Hn.
    rewrite (mkdir_parents_rev_refused _ _ _ FileExistsError); [done| |done|].
    + rewrite <- Hp. unfold mkdir. by rewrite Hl, Hn.
    + rewrite <- Hp. unfold is_dir, stat. by rewrite Hl, Hn.
  - intros Hl.
    rewrite (mkdir_parents_rev_refused _ _ _ NotADirectoryError); [done| |done|].
    + rewrite <- Hp. unfold mkdir. by rewrite Hl.
    + rewrite <- Hp. unfold is_dir, stat. by rewrite Hl.
Qed.

End local_init.

(** ** The local backend: what [save] and [delete] touch *)

Section local_effects.
Context {model : DataModel} {python : Version}.

Lemma nodes_not_dir fs k :
  node_at fs k ≠ Some Dir → k ≠ [] ∧ nodes fs !! k ≠ Some Dir.
Proof. destruct k; [done|]. by cbn. Qed.

(** X3. What [save] does to the file system, for every ID.  It keeps the
    working directory and every directory; a file that was there keeps
    its bytes unless it is the very file the ID resolves to; and the only
    file that can be new or changed is that one, holding the profile's
    JSON, and only when [save] returned. *)
Theorem local_save_changes_one_file (self : LocalFileStorage.t)
    (profile_id : string) (profile : CompanyProfile) (fs : FileSystem) :
  let file_path := LocalFileStorage._get_file_path self profile_id in
  let out := LocalFileStorage.save self profile_id profile fs in
  cwd out.1 = cwd fs ∧
  (∀ k, nodes fs !! k = Some Dir → nodes out.1 !! k = Some Dir) ∧
  (∀ k text, nodes fs !! k = Some (File text) →
     nodes out.1 !! k = Some (File text) ∨
     (out.2 = inr () ∧ locate out.1 file_path = inr k)) ∧
  (∀ k text, nodes out.1 !! k = Some (File text) →
     nodes fs !! k = Some (File text) ∨
     (out.2 = inr () ∧ locate out.1 file_path = inr k ∧
      text = model_dump_json profile)).
Proof.
  cbv zeta. unfold LocalFileStorage.save, mbind, M_bind.
  set (file_path := LocalFileStorage._get_file_path self profile_id).
  pose proof (mkdir_parents_only_adds (parent file_path) fs) as (Hc & Hk & Hf).
  destruct (mkdir_parents (parent file_path) fs) as [fs1 [e|[]]];
    cbn [fst snd] in *.
  { split_and!; [done|by intros; apply Hk|by left; apply Hk|by left; eapply Hf]. }
  unfold write_text.
  destruct (locate fs1 file_path) as [e|k] eqn:Hl; cbn [fst snd].
  { split_and!; [done|by intros; apply Hk|by left; apply Hk|by left; eapply Hf]. }
  destruct (decide (node_at fs1 k = Some Dir)) as [Hd|Hd].
  { rewrite Hd. cbn [fst snd].
    split_and!; [done|by intros; apply Hk|by left; apply Hk|by left; eapply Hf]. }
  destruct (written_file_is_there fs1 file_path (model_dump_json profile) k Hl Hd)
    as [Hl' _].
  destruct (nodes_not_dir _ _ Hd) as [Hne Hnd].
  assert ((match node_at fs1 k with
           | Some Dir => (fs1, inl IsADirectoryError)
           | _ => (put k (File (model_dump_json profile)) fs1, inr ())
           end) = (put k (File (model_dump_json profile)) fs1, inr ())) as ->.
  { by destruct (node_at fs1 k) as [[]|]. }
  cbn [fst snd]. split_and!; [done|..].
  - intros k' Hk'. cbn. rewrite lookup_insert_ne; [by apply Hk|].
    intros ->. apply Hk in Hk'. congruence.
  - intros k' text Hk'. destruct (decide (k = k')) as [<-|Hkk]; [by right|].
    left. cbn. rewrite lookup_insert_ne; [by apply Hk|done].
  - intros k' text. cbn. destruct (decide (k = k')) as [<-|Hkk].
    + rewrite lookup_insert_eq. intros [= <-]. by right.
    + rewrite lookup_insert_ne; [|done]. intros Hk'. left. by eapply Hf.
Qed.

Lemma local_delete_raises (self : LocalFileStorage.t) (profile_id : string)
    (fs : FileSystem) (e : exn) :
  (LocalFileStorage.delete self profile_id fs).2 = inl e →
  (LocalFileStorage.delete self profile_id fs).1 = fs.
Proof.
  unfold LocalFileStorage.delete, unlink.
  destruct (negb (path_exists fs _)); [done|].
  destruct (locate fs _) as [e'|k]; [done|].
  by destruct (node_at fs k) as [[]|].
Qed.

(** X4. What [delete] does to the file system, for every ID.  When it
    raises, nothing has changed.  When it returns, the ID resolved to a
    regular file, that file is gone, and every other node, directories
    included, is as it was. *)
Theorem local_delete_removes_one_file (self : LocalFileStorage.t)
    (profile_id : string) (fs : FileSystem) :
  let file_path := LocalFileStorage._get_file_path self profile_id in
  let out := LocalFileStorage.delete self profile_id fs in
  cwd out.1 = cwd fs ∧
  (∀ e, out.2 = inl e → out.1 = fs) ∧
  (out.2 = inr () →
   ∃ k text,
     locate fs file_path = inr k ∧ nodes fs !! k = Some (File text) ∧
     nodes out.1 !! k = None ∧
     ∀ k', k' ≠ k → nodes out.1 !! k' = nodes fs !! k').
Proof.
  cbv zeta.
  pose proof (local_delete_raises self profile_id fs) as Hraises.
  destruct (LocalFileStorage.delete self profile_id fs) as [fs' [e|[]]] eqn:Hdel;
    cbn [fst snd] in *.
  - assert (fs' = fs) as -> by (by eapply Hraises). by split_and!.
  - clear Hraises. destruct (local_delete_ok _ _ _ _ Hdel) as (k & old & Hl & Hn & ->).
    split; [done|]. split; [done|]. intros _. exists k, old.
    assert (k ≠ []) as Hne by (intros ->; done).
    split; [done|]. split; [by destruct k|]. cbn. split.
    + by rewrite lookup_delete_eq.
    + intros k' Hk'. by rewrite lookup_delete_ne.
Qed.

End local_effects.

Section storage_effects.
Context {model : DataModel} {python : Version} {sdk : azure.SDK}.
Import azure.

Lemma azure_delete_raises self profile_id c e :
  (AzureBlobStorage.delete self profile_id c).2 = inl e →
  (AzureBlobStorage.delete self profile_id c).1 = c.
Proof.
  rewrite azure_delete_spec.
  destruct (containers c !! _) as [blobs|]; [|done].
  by destruct (blobs !! _).
Qed.

Lemma azure_delete_returns self profile_id c :
  (AzureBlobStorage.delete self profile_id c).2 = inr () →
  AzureBlobStorage.exists_ self profile_id c = true.
Proof.
  rewrite azure_delete_spec, azure_exists_spec.
  destruct (containers c !! _) as [blobs|]; [|done].
  destruct (blobs !! _) eqn:E; [|done]. intros _.
  by apply bool_decide_eq_true_2.
Qed.

Lemma local_delete_returns self profile_id fs :
  (LocalFileStorage.delete self profile_id fs).2 = inr () →
  LocalFileStorage.exists_ self profile_id fs = true.
Proof.
  unfold LocalFileStorage.delete, LocalFileStorage.exists_.
  by destruct (path_exists fs _).
Qed.

(** X5. [delete] is all or nothing on both backends: when it raises, the
    world is exactly as it was; it returns only on an ID for which
    [exists] was true, and then [exists] is false. *)
Theorem delete_all_or_nothing (s : Storage) (profile_id : string) (w : World) :
  let out := delete s profile_id w in
  (∀ e, out.2 = inl e → out.1 = w) ∧
  (out.2 = inr () →
   exists_ s profile_id w = true ∧ exists_ s profile_id out.1 = false).
Proof.
  cbv zeta. split.
  - destruct s as [l|a].
    + rewrite delete_local. cbn [fst snd]. intros e He.
      rewrite (local_delete_raises _ _ _ _ He). apply world_eta.
    + rewrite delete_azure. cbn [fst snd]. intros e He.
      rewrite (azure_delete_raises _ _ _ _ He). apply world_eta.
  - intros Hret. split.
    + destruct s as [l|a].
      * rewrite delete_local in Hret. by apply local_delete_returns.
      * rewrite delete_azure in Hret. by apply azure_delete_returns.
    + apply (storage_delete_then_absent s w).
      destruct (delete s profile_id w) as [w' [e|[]]]; [discriminate Hret|done].
Qed.

End storage_effects.

(** ** The blob backend *)

Section azure_effects.
Context {model : DataModel} {sdk : azure.SDK}.
Import azure.

Lemma container_exists_spec (c : Cloud) (n : string) :
  container_exists c n = true ↔ is_Some (containers c !! n).
Proof. unfold container_exists. apply bool_decide_eq_true. Qed.

Lemma container_missing_spec (c : Cloud) (n : string) :
  container_exists c n = false ↔ containers c !! n = None.
Proof.
  unfold container_exists. rewrite bool_decide_eq_false.
  by rewrite eq_None_not_Some.
Qed.

(** X6. The blob backend's [load(id)] raises NotFound exactly when
    [exists(id)] is false; the SDK's [ResourceNotFoundError] never leaves
    [load]; and when the blob is there, a failure of JSON parsing or of
    validation is what [load] raises, unchanged. *)
Theorem azure_load_not_found_iff_absent (self : AzureBlobStorage.t)
    (profile_id : string) (c : Cloud) :
  (AzureBlobStorage.exists_ self profile_id c = false ↔
   ∃ msg, AzureBlobStorage.load self profile_id c = inl (FileNotFoundError msg)) ∧
  AzureBlobStorage.load self profile_id c ≠ inl ResourceNotFoundError ∧
  (∀ bytes,
     download_blob (AzureBlobStorage._get_blob_client self profile_id) c = inr bytes →
     (∀ e, json_load bytes = inl e →
        AzureBlobStorage.load self profile_id c = inl (parse_exn e)) ∧
     (∀ data msg, json_load bytes = inr data → model_validate data = inl msg →
        AzureBlobStorage.load self profile_id c = inl (ValidationError msg))).
Proof.
  split_and!.
  - rewrite azure_load_spec, azure_exists_spec.
    destruct (containers c !! _) as [blobs|]; [|by split; eauto].
    destruct (blobs !! _) as [bytes|] eqn:E.
    + split.
      * intros Hex. apply bool_decide_eq_false in Hex. by destruct Hex.
      * intros [msg Hl]. by apply parse_profile_not_NotFound in Hl.
    + split; [by eauto|]. intros _. apply bool_decide_eq_false. by intros [? ?].
  - rewrite azure_load_spec.
    destruct (containers c !! _) as [blobs|]; [|done].
    destruct (blobs !! _) as [bytes|]; [|done].
    unfold parse_profile. destruct (json_load bytes) as [[]|data]; [done..|].
    by destruct (model_validate data).
  - intros bytes Hd. unfold AzureBlobStorage.load. rewrite Hd. split.
    + intros e ->. by destruct e.
    + by intros data msg -> ->.
Qed.

(** X7. Nothing is stored through the blob backend.  [save] raises
    [AttributeError] on every input, with or without the container, and
    leaves the account as it was.  So after any history of [save] and
    [delete] calls, an ID for which [exists] is true had it true before
    the history, and [load] reads it as before.  Without the container,
    [exists] is false, [load] and [delete] raise NotFound, and [list]
    raises. *)
Theorem azure_save_stores_nothing (self : AzureBlobStorage.t)
    (profile_id : string) (profile : CompanyProfile) (c : Cloud) :
  AzureBlobStorage.save self profile_id profile c =
    (c, inl (AttributeError "'dict' object has no attribute 'cache_control'")) ∧
  (∀ history : list op,
     AzureBlobStorage.exists_ self profile_id (run self history c) = true →
     AzureBlobStorage.exists_ self profile_id c = true ∧
     AzureBlobStorage.load self profile_id (run self history c) =
       AzureBlobStorage.load self profile_id c) ∧
  (container_exists c (AzureBlobStorage.container_name self) = false →
   AzureBlobStorage.exists_ self profile_id c = false ∧
   AzureBlobStorage.load self profile_id c = inl (azure_not_found profile_id) ∧
   AzureBlobStorage.delete self profile_id c =
     (c, inl (FileNotFoundError ("Profile '" +:+ profile_id +:+ "' not found"))) ∧
   ∃ e, AzureBlobStorage.list_ self c = inl e).
Proof.
  split; [apply azure_save_spec|]. split.
  - intros history. induction history as [|o history IH] using rev_ind; [done|].
    rewrite run_snoc. generalize dependent (run self history c). intros c1 IH.
    destruct o as [i p|i]; unfold run_op.
    + change (save self i p c1) with (AzureBlobStorage.save self i p c1).
      by rewrite azure_save_spec.
    + change (delete self i c1) with (AzureBlobStorage.delete self i c1).
      destruct (decide (i = profile_id)) as [->|Hne].
      * pose proof (azure_delete_raises self profile_id c1) as Hraises.
        destruct (AzureBlobStorage.delete self profile_id c1) as [c2 [e|[]]] eqn:Hd;
          cbn [fst snd] in *.
        -- by rewrite (Hraises e eq_refl).
        -- rewrite (azure_delete_then_absent _ _ _ _ Hd). done.
      * destruct (azure_delete_frame self i profile_id c1 Hne) as [-> ->]. exact IH.
  - rewrite container_missing_spec.
    rewrite azure_exists_spec, azure_load_spec, azure_delete_spec.
    unfold AzureBlobStorage.list_, list_blobs.
    intros ->. split_and!; [done..|].
    destruct (get_container_client c _); eauto.
Qed.

Lemma azure_reads_agree (a : AzureBlobStorage.t) (profile_id : string) (c c' : Cloud) :
  download_blob (AzureBlobStorage._get_blob_client a profile_id) c' =
  download_blob (AzureBlobStorage._get_blob_client a profile_id) c →
  AzureBlobStorage.exists_ a profile_id c' = AzureBlobStorage.exists_ a profile_id c ∧
  AzureBlobStorage.load a profile_id c' = AzureBlobStorage.load a profile_id c.
Proof.
  intros Hd. split.
  - unfold AzureBlobStorage.exists_, blob_exists. unfold download_blob in Hd.
    destruct (containers c' !! _) as [b'|], (containers c !! _) as [b|]; try done.
    + destruct (b' !! _), (b !! _); try done.
    + by destruct (b' !! _).
    + by destruct (b !! _).
  - unfold AzureBlobStorage.load. by rewrite Hd.
Qed.

Lemma upload_other_blob (b b' : BlobClient) (data : string)
    (settings : option content_settings) (c : Cloud) :
  b ≠ b' → download_blob b' (upload_blob b data settings c).1 = download_blob b' c.
Proof.
  intros Hne. unfold upload_blob, download_blob.
  destruct (blob_headers settings); [done|].
  destruct (containers c !! container b) as [blobs|] eqn:E; [|done]. cbn.
  destruct (decide (container b = container b')) as [Hc|Hc].
  - rewrite <- Hc, lookup_insert_eq, E.
    rewrite lookup_insert_ne; [done|]. intros Hb. apply Hne.
    destruct b, b'; cbn in *; congruence.
  - by rewrite lookup_insert_ne.
Qed.

Lemma delete_other_blob (b b' : BlobClient) (c : Cloud) :
  b ≠ b' → download_blob b' (delete_blob b c).1 = download_blob b' c.
Proof.
  intros Hne. unfold delete_blob, download_blob.
  destruct (containers c !! container b) as [blobs|] eqn:E; [|done].
  destruct (blobs !! blob b) eqn:Eb; [|done]. cbn.
  destruct (decide (container b = container b')) as [Hc|Hc].
  - rewrite <- Hc, lookup_insert_eq, E.
    rewrite lookup_delete_ne; [done|]. intros Hb. apply Hne.
    destruct b, b'; cbn in *; congruence.
  - by rewrite lookup_insert_ne.
Qed.

Lemma blob_client_ne (a b : AzureBlobStorage.t) (i j : string) :
  AzureBlobStorage.container_name a ≠ AzureBlobStorage.container_name b ∨ i ≠ j →
  AzureBlobStorage._get_blob_client a i ≠ AzureBlobStorage._get_blob_client b j.
Proof.
  unfold AzureBlobStorage._get_blob_client, AzureBlobStorage._get_blob_name.
  intros [Hc|Hi] [= Hn Hb]; [done|]. by apply append_inj_l in Hb.
Qed.

(** X8. A [save] or a [delete] on the blob backend reaches one blob only.
    For a backend object [b] and an ID [j] that differ from the acting
    object [a] and ID [i] in the container or in the ID, [exists(j)] and
    [load(j)] on [b] are what they were. *)
Theorem azure_other_blobs_untouched (a b : AzureBlobStorage.t) (i j : string)
    (profile : CompanyProfile) (c : Cloud) :
  AzureBlobStorage.container_name a ≠ AzureBlobStorage.container_name b ∨ i ≠ j →
  let saved := (AzureBlobStorage.save a i profile c).1 in
  let deleted := (AzureBlobStorage.delete a i c).1 in
  AzureBlobStorage.exists_ b j saved = AzureBlobStorage.exists_ b j c ∧
  AzureBlobStorage.load b j saved = AzureBlobStorage.load b j c ∧
  AzureBlobStorage.exists_ b j deleted = AzureBlobStorage.exists_ b j c ∧
  AzureBlobStorage.load b j deleted = AzureBlobStorage.load b j c.
Proof.
  intros Hne%blob_client_ne. cbv zeta.
  assert ((AzureBlobStorage.delete a i c).1 =
          (delete_blob (AzureBlobStorage._get_blob_client a i) c).1) as ->.
  { unfold AzureBlobStorage.delete.
    destruct (delete_blob _ c) as [c' [[]|[]]]; done. }
  destruct (azure_reads_agree b j c (AzureBlobStorage.save a i profile c).1) as [? ?].
  { by apply upload_other_blob. }
  destruct (azure_reads_agree b j c
              (delete_blob (AzureBlobStorage._get_blob_client a i) c).1) as [? ?].
  { by apply delete_other_blob. }
  done.
Qed.

(** X9. Constructing the blob backend never removes or changes a blob:
    every container that was there holds the same blobs afterwards, so
    [exists] and [load] of every backend object answer as before; and a
    constructor that raises (SDK missing, connection string refused, a
    failing lookup or creation) has changed nothing. *)
Theorem azure_init_keeps_blobs (sdk_installed : bool)
    (connection_string container_name : string) (timeout : Z) (c : Cloud) :
  let built :=
    AzureBlobStorage.__init__ sdk_installed connection_string container_name
      timeout c in
  (∀ n blobs, containers c !! n = Some blobs → containers built.1 !! n = Some blobs) ∧
  (∀ b profile_id,
     AzureBlobStorage.exists_ b profile_id built.1 = AzureBlobStorage.exists_ b profile_id c ∧
     AzureBlobStorage.load b profile_id built.1 = AzureBlobStorage.load b profile_id c) ∧
  (∀ e, built.2 = inl e → built.1 = c).
Proof.
  cbv zeta.
  assert (∀ out : Cloud * (exn + AzureBlobStorage.t),
            out.1 = c ∨
            (containers c !! container_name = None ∧
             out.1 = {| containers := <[container_name := ∅]> (containers c) |} ∧
             ∃ self, out.2 = inr self) →
            (∀ n blobs, containers c !! n = Some blobs →
                        containers out.1 !! n = Some blobs) ∧
            (∀ b profile_id,
               AzureBlobStorage.exists_ b profile_id out.1 =
                 AzureBlobStorage.exists_ b profile_id c ∧
               AzureBlobStorage.load b profile_id out.1 =
                 AzureBlobStorage.load b profile_id c) ∧
            (∀ e, out.2 = inl e → out.1 = c)) as Hcases.
  { intros [c' r] [Hsame|(Hnone & Hnew & self & Hself)]; cbn [fst snd] in *.
    - subst c'. by split_and!.
    - subst c'. split_and!.
      + intros n blobs Hn. cbn. rewrite lookup_insert_ne; [done|].
        intros <-. congruence.
      + intros b profile_id. apply azure_reads_agree. unfold download_blob. cbn.
        destruct (decide (container_name = AzureBlobStorage.container_name b)) as [<-|Hc].
        * by rewrite lookup_insert_eq, Hnone, lookup_empty.
        * by rewrite lookup_insert_ne.
      + intros e He. rewrite Hself in He. done. }
  apply Hcases.
  unfold AzureBlobStorage.__init__.
  destruct (negb (AzureBlobStorage.AZURE_AVAILABLE sdk_installed)); [by left|].
  unfold mbind, M_bind, reads, mret, M_ret, AzureBlobStorage._ensure_container_exists.
  destruct (from_connection_string connection_string timeout) as [e|[]]; [by left|].
  cbn [AzureBlobStorage.container_name].
  destruct (get_container_client c container_name) as [e|[]]; [|by left].
  destruct e; try (by left).
  unfold create_container.
  destruct (containers c !! container_name) as [blobs|] eqn:E; [by left|].
  right. split; [done|]. split; [done|]. eauto.
Qed.

End azure_effects.

(** ** The local backend as a map *)

Section stored_facts.
Context {model : DataModel}.

Lemma last_saved_snoc (profile_id : string) (history : list op) (o : op) :
  last_saved profile_id (history ++ [o]) =
  match o with
  | Save i p => if decide (i = profile_id) then Some p else last_saved profile_id history
  | Delete i => if decide (i = profile_id) then None else last_saved profile_id history
  end.
Proof. unfold last_saved. by rewrite foldl_app. Qed.

Lemma stored_snoc (history : list op) (o : op) :
  stored (history ++ [o]) =
  match o with
  | Save i p => <[i +:+ ".json" := model_dump_json p]> (stored history)
  | Delete i => base.delete (i +:+ ".json") (stored history)
  end.
Proof. unfold stored. by rewrite foldl_app. Qed.

Lemma live_last_saved (profile_id : string) (history : list op) :
  live profile_id history = bool_decide (is_Some (last_saved profile_id history)).
Proof.
  induction history as [|o history IH] using rev_ind; [done|].
  rewrite live_snoc, last_saved_snoc.
  destruct o as [i p|i]; case_decide; done.
Qed.

Lemma json_key_ne (i j : string) : i ≠ j → i +:+ ".json" ≠ j +:+ ".json".
Proof. intros Hne Heq. by apply append_inj_l in Heq. Qed.

Lemma stored_lookup (profile_id : string) (history : list op) :
  stored history !! (profile_id +:+ ".json") =
  model_dump_json <$> last_saved profile_id history.
Proof.
  induction history as [|o history IH] using rev_ind; [done|].
  rewrite stored_snoc, last_saved_snoc.
  destruct o as [i p|i]; case_decide as Hi.
  - subst. by rewrite lookup_insert_eq.
  - rewrite lookup_insert_ne; [done|]. by apply json_key_ne.
  - subst. by rewrite lookup_delete_eq.
  - rewrite lookup_delete_ne; [done|]. by apply json_key_ne.
Qed.

Lemma stored_key (history : list op) (n : string) :
  is_Some (stored history !! n) →
  ∃ o, o ∈ history ∧ n = op_id o +:+ ".json".
Proof.
  induction history as [|o history IH] using rev_ind.
  { intros [? Hx]. unfold stored in Hx. cbn in Hx. by rewrite lookup_empty in Hx. }
  rewrite stored_snoc. destruct o as [i p|i].
  - destruct (decide (n = i +:+ ".json")) as [->|Hne].
    + intros _. exists (Save i p). split; [|done]. set_solver.
    + rewrite lookup_insert_ne; [|done]. intros (o & Ho & ->)%IH.
      exists o. split; [|done]. set_solver.
  - destruct (decide (n = i +:+ ".json")) as [->|Hne].
    + rewrite lookup_delete_eq. by intros [? ?].
    + rewrite lookup_delete_ne; [|done]. intros (o & Ho & ->)%IH.
      exists o. split; [|done]. set_solver.
Qed.

Lemma live_in_history (profile_id : string) (history : list op) :
  live profile_id history = true → ∃ o, o ∈ history ∧ op_id o = profile_id.
Proof.
  rewrite live_last_saved. intros Hl%bool_decide_eq_true_1.
  destruct (stored_key history (profile_id +:+ ".json")) as (o & Ho & Heq).
  { rewrite stored_lookup. destruct Hl as [p ->]. eauto. }
  exists o. split; [done|]. by apply append_inj_l in Heq.
Qed.

End stored_facts.

Section local_records.
Context {model : DataModel} {python : Version}.

Lemma empty_dir_holds (self : LocalFileStorage.t) (fs : FileSystem) :
  empty_dir self fs = true → ∃ kd, local_holds self kd ∅ fs.
Proof.
  intros (kd & Hd & Hinv)%empty_dir_inv. exists kd. split; [done|].
  intros n. rewrite lookup_empty. cbn.
  destruct (nodes fs !! (kd ++ [n])) as [x|] eqn:E; [|done].
  by destruct (Hinv _ _ E) as (? & ? & _ & _ & ?).
Qed.

Lemma local_holds_step (self : LocalFileStorage.t) kd (history : list op) (o : op)
    (fs : FileSystem) :
  no_separator (op_id o) →
  local_holds self kd (stored history) fs →
  local_holds self kd (stored (history ++ [o])) (run_op self o fs).
Proof.
  intros Hs [Hd Hinv]. rewrite stored_snoc.
  assert (nodes fs !! record_key kd (op_id o) ≠ Some Dir) as Hnd.
  { unfold record_key. rewrite Hinv. by destruct (stored history !! _). }
  destruct o as [i p|i]; cbn in Hs, Hnd; unfold run_op.
  - change (save self i p fs) with (LocalFileStorage.save self i p fs).
    split; [by apply dir_at_save|].
    intros n. rewrite (local_save_plain _ _ _ _ _ Hs Hd).
    assert ((match nodes fs !! record_key kd i with
             | Some Dir => (fs, inl IsADirectoryError)
             | _ => (put (record_key kd i) (File (model_dump_json p)) fs, inr ())
             end).1 = put (record_key kd i) (File (model_dump_json p)) fs) as ->.
    { by destruct (nodes fs !! record_key kd i) as [[]|]. }
    cbn. unfold record_key.
    destruct (decide (n = i +:+ ".json")) as [->|Hne].
    + by rewrite !lookup_insert_eq.
    + rewrite !lookup_insert_ne; [done|done|]. by intros [= ?]%app_inv_head.
  - change (delete self i fs) with (LocalFileStorage.delete self i fs).
    split; [by apply dir_at_delete|].
    intros n. rewrite (local_delete_plain _ _ _ _ Hs Hd).
    pose proof (Hinv (i +:+ ".json")) as Hi. fold (record_key kd i) in Hi.
    destruct (nodes fs !! record_key kd i) as [[old|]|] eqn:E; [|done|]; cbn.
    + unfold record_key. destruct (decide (n = i +:+ ".json")) as [->|Hne].
      * by rewrite !lookup_delete_eq.
      * rewrite !lookup_delete_ne; [done|done|]. by intros [= ?]%app_inv_head.
    + destruct (decide (n = i +:+ ".json")) as [->|Hne].
      * rewrite lookup_delete_eq. by rewrite Hinv, <- Hi.
      * by rewrite lookup_delete_ne.
Qed.

Lemma local_holds_run (self : LocalFileStorage.t) kd (history : list op)
    (fs : FileSystem) :
  Forall (λ o, no_separator (op_id o)) history →
  local_holds self kd ∅ fs →
  local_holds self kd (stored history) (run self history fs).
Proof.
  intros Hall Hinit.
  induction history as [|o history IH] using rev_ind; [done|].
  apply Forall_app in Hall as [Hall Ho]. rewrite Forall_singleton in Ho.
  rewrite run_snoc. apply local_holds_step; [done|]. by apply IH.
Qed.

Lemma local_holds_reads (self : LocalFileStorage.t) kd (history : list op)
    (fs : FileSystem) (profile_id : string) :
  local_holds self kd (stored history) fs → no_separator profile_id →
  LocalFileStorage.exists_ self profile_id fs = live profile_id history ∧
  match last_saved profile_id history with
  | Some p => LocalFileStorage.load self profile_id fs = parse_profile (model_dump_json p)
  | None => ∃ msg, LocalFileStorage.load self profile_id fs = inl (FileNotFoundError msg)
  end.
Proof.
  intros [Hd Hinv] Hs.
  rewrite (local_exists_plain _ _ _ _ Hs Hd), (local_load_plain _ _ _ _ Hs Hd).
  unfold record_key. rewrite Hinv, stored_lookup, live_last_saved.
  destruct (last_saved profile_id history) as [p|]; cbn; [done|].
  split; [done|eauto].
Qed.

End local_records.

Section store_as_map.
Context {model : DataModel} {python : Version} {sdk : azure.SDK}.

Lemma local_reads_after_history (l : LocalFileStorage.t) (w : World)
    (history : list op) (profile_id : string) :
  empty_store (Local l) w = true →
  Forall (λ o, no_separator (op_id o)) history →
  no_separator profile_id →
  exists_ (Local l) profile_id (run (Local l) history w) = live profile_id history ∧
  match last_saved profile_id history with
  | Some p =>
      load (Local l) profile_id (run (Local l) history w) =
        parse_profile (model_dump_json p)
  | None =>
      ∃ msg, load (Local l) profile_id (run (Local l) history w) =
             inl (FileNotFoundError msg)
  end.
Proof.
  intros He Hall Hi. cbn in He.
  change (exists_ (Local l) profile_id (run (Local l) history w))
    with (LocalFileStorage.exists_ l profile_id (fs (run (Local l) history w))).
  change (load (Local l) profile_id (run (Local l) history w))
    with (LocalFileStorage.load l profile_id (fs (run (Local l) history w))).
  rewrite run_local.
  destruct (empty_dir_holds _ _ He) as [kd Hinit].
  eapply local_holds_reads; [|done]. by apply local_holds_run.
Qed.

(** X10. The local backend is a map from IDs to profiles.  Starting from
    an empty profiles directory and after any history of [save] and
    [delete] calls on IDs without a path separator and with a record path
    within the limits of the platform, [exists(id)] is true exactly when
    the last call on [id] was a [save]; [load(id)] then reads what the
    profile of that last [save] was written as, and returns a profile
    with its field content when the data model reads back what it
    writes; and [load(id)] raises NotFound otherwise. *)
Theorem store_after_history (l : LocalFileStorage.t) (w : World)
    (history : list op) (profile_id : string) :
  empty_store (Local l) w = true →
  Forall (λ o, storable l (op_id o)) history →
  storable l profile_id →
  let w' := run (Local l) history w in
  exists_ (Local l) profile_id w' =
    bool_decide (is_Some (last_saved profile_id history)) ∧
  match last_saved profile_id history with
  | Some p =>
      load (Local l) profile_id w' = parse_profile (model_dump_json p) ∧
      (json_round_trip →
       ∃ q, load (Local l) profile_id w' = inr q ∧ same_content q p)
  | None => ∃ msg, load (Local l) profile_id w' = inl (FileNotFoundError msg)
  end.
Proof.
  intros He Hall [Hi _]. cbv zeta.
  destruct (local_reads_after_history l w history profile_id He) as [Hex Hload];
    [|done|].
  { eapply Forall_impl; [exact Hall|]. by intros o [? _]. }
  rewrite <- live_last_saved. split; [done|].
  destruct (last_saved profile_id history) as [p|]; [|done].
  split; [done|]. intros Hrt.
  destruct (parse_profile_round_trip p Hrt) as (q & Hq & Hsame).
  exists q. by rewrite Hload.
Qed.

Lemma local_holds_listable (l : LocalFileStorage.t) kd (history : list op)
    (fs : FileSystem) :
  Forall (λ o, plain_id (op_id o)) history →
  local_holds l kd (stored history) fs →
  ∀ n, n ∈ glob_star_json fs (LocalFileStorage.profiles_dir l) →
       ∃ o, o ∈ history ∧ n = op_id o +:+ ".json" ∧
            has_non_dot (Str.drop_last 5 n) = true.
Proof.
  intros Hall [Hd Hinv] n (Hm & kd' & Hd' & Hn)%elem_of_glob.
  rewrite (dir_at_unique _ _ _ _ Hd' Hd), Hinv in Hn.
  destruct (stored_key history n) as (o & Ho & ->).
  { by destruct (stored history !! n); [eauto|destruct Hn]. }
  exists o. split; [done|]. split; [done|].
  rewrite Forall_forall in Hall. destruct (Hall o Ho) as [_ Hdot].
  change 5 with (String.length ".json"). by rewrite drop_last_append.
Qed.

(** X11. What the local backend's [list()] returns after a history.
    Starting from an empty profiles directory and after any history of
    [save] and [delete] calls on IDs without a path separator, not made
    of dots only, and with a record path within the limits of the
    platform, [list()] returns, in ascending order, without duplicates,
    exactly the IDs whose last call was a [save]. *)
Theorem list_after_history (l : LocalFileStorage.t) (w : World)
    (history : list op) :
  empty_store (Local l) w = true →
  Forall (λ o, storable l (op_id o) ∧ has_non_dot (op_id o) = true) history →
  let w' := run (Local l) history w in
  ∃ ids, list_ (Local l) w' = inr ids ∧
    StronglySorted String.le ids ∧ NoDup ids ∧
    ∀ profile_id, profile_id ∈ ids ↔ is_Some (last_saved profile_id history).
Proof.
  intros He Hlim. cbv zeta.
  assert (Forall (λ o, plain_id (op_id o)) history) as Hall.
  { eapply Forall_impl; [exact Hlim|]. by intros o [[? _] ?]. }
  destruct (local_list_returns l (fs (run (Local l) history w))) as (ids & Hlist & _).
  exists ids. split; [exact Hlist|].
  assert (∀ profile_id,
            is_Some (last_saved profile_id history) ↔ live profile_id history = true)
    as Hsome.
  { intros i. by rewrite live_last_saved, bool_decide_eq_true. }
  setoid_rewrite Hsome.
  assert (Forall (λ o, no_separator (op_id o)) history) as Hflat.
  { eapply Forall_impl; [exact Hall|]. by intros o [? ?]. }
  assert (∀ profile_id, live profile_id history = true → no_separator profile_id)
    as Hlive.
  { intros i (o & Ho & <-)%live_in_history. rewrite Forall_forall in Hflat. eauto. }
  destruct (storage_list_exact (Local l) _ _ Hlist) as [Hsorted _].
  split; [done|].
  cbn in He. rewrite run_local in Hlist.
  destruct (empty_dir_holds _ _ He) as [kd Hinit].
  assert (local_holds l kd (stored history) (run l history (fs w))) as Hholds.
  { by apply local_holds_run. }
  pose proof (local_holds_listable l kd history _ Hall Hholds) as Hentries.
  destruct (local_list_exact l _ ids Hlist) as [Hnodup Hin].
  { apply Forall_forall. intros n Hn. by destruct (Hentries n Hn) as (? & _ & _ & ?). }
  split; [done|]. intros profile_id.
  assert (no_separator profile_id →
          (profile_id ∈ ids ↔ live profile_id history = true)) as Hflat_case.
  { intros Hs. rewrite (Hin profile_id Hs).
    by destruct (local_holds_reads l kd history _ profile_id Hholds Hs) as [-> _]. }
  split.
  - intros Hid. apply Hflat_case; [|done].
    apply (local_list_elem_of _ _ _ _ Hlist), list_elem_of_fmap in Hid
      as (n & -> & Hn).
    destruct (Hentries n Hn) as (o & Ho & Heq & Hdot).
    apply elem_of_glob in Hn as [Hm _].
    destruct (json_name_stem n Hm Hdot) as [-> _].
    rewrite Heq. change 5 with (String.length ".json"). rewrite drop_last_append.
    rewrite Forall_forall in Hall. by destruct (Hall o Ho).
  - intros Hl. apply Hflat_case; [|done]. by apply (Hlive profile_id Hl).
Qed.

End store_as_map.

(** ** The manager and the dictionary helpers *)

Section recreate.
Context {model : DataModel} {python : Version} {sdk : azure.SDK}.

Lemma is_dir_keeps_dirs (fs fs' : FileSystem) (p : Path) :
  keeps_dirs fs fs' → is_dir fs p = true → is_dir fs' p = true.
Proof.
  intros Hk (k & Hl & Hn)%is_dir_spec. apply is_dir_spec. exists k. split.
  - by eapply locate_keeps_dirs.
  - by apply Hk.
Qed.

Lemma local_delete_then_save (self : LocalFileStorage.t) (profile_id : string)
    (profile : CompanyProfile) (fs fs1 : FileSystem) :
  LocalFileStorage.delete self profile_id fs = (fs1, inr ()) →
  ∃ fs2, LocalFileStorage.save self profile_id profile fs1 = (fs2, inr ()).
Proof.
  intros (k & old & Hl & Hn & ->)%local_delete_ok.
  destruct (file_path_parts self profile_id) as (ps & c & Hp).
  pose proof (located_has_parent _ _ _ _ _ Hp Hl) as Hd.
  destruct (remove_file_keeps_dirs _ _ _ Hn) as [Hkeeps _].
  assert (k ≠ []) as Hne by (intros ->; done).
  unfold LocalFileStorage.save, mbind, M_bind.
  rewrite (mkdir_parents_on_dir _ _ (is_dir_keeps_dirs _ _ _ Hkeeps Hd)).
  unfold write_text. rewrite (locate_keeps_dirs _ _ _ _ Hkeeps Hl).
  rewrite node_at_remove by done. rewrite decide_True by done. eauto.
Qed.

(** X12. An ID is free again after [delete].  Once the manager's
    [delete(id)] has returned, [exists(id)] is false.  On the local
    backend a [create(id, data)] with valid data then returns the
    validated profile and stores it, for every ID.  On the blob backend
    that [create] raises the [AttributeError] of [save] and the ID stays
    free. *)
Theorem delete_then_create (self : ProfileManager.t (B := Storage))
    (profile_id : string) (data : gmap string Value) (w w1 : World) :
  ProfileManager.delete self profile_id w = (w1, inr ()) →
  ProfileManager.exists_ self profile_id w1 = false ∧
  ∀ profile, model_validate (dict_value data) = inr profile →
    match ProfileManager.storage self with
    | Local _ =>
        ∃ w2, ProfileManager.create self profile_id data w1 = (w2, inr profile) ∧
              ProfileManager.exists_ self profile_id w2 = true ∧
              ProfileManager.load self profile_id w2 =
                parse_profile (model_dump_json profile)
    | Azure _ =>
        ProfileManager.create self profile_id data w1 =
          (w1, inl (AttributeError "'dict' object has no attribute 'cache_control'"))
    end.
Proof.
  intros Hdel. unfold ProfileManager.delete in Hdel.
  pose proof (storage_delete_then_absent _ _ _ _ Hdel) as Hex.
  split; [done|]. intros profile Hv.
  pose proof (create_new self profile_id data w1 Hex) as Hc. rewrite Hv in Hc.
  unfold ProfileManager.save, ProfileManager.exists_, ProfileManager.load in *.
  destruct (ProfileManager.storage self) as [l|a].
  - rewrite delete_local in Hdel.
    destruct (LocalFileStorage.delete l profile_id (fs w)) as [fs1 [e|[]]] eqn:Hd;
      [done|]. injection Hdel as <-.
    destruct (local_delete_then_save _ _ profile _ _ Hd) as [fs2 Hs].
    rewrite save_local in Hc. cbn [fs cloud stdout] in Hc. rewrite Hs in Hc.
    cbn [fst snd] in Hc. eexists. split; [exact Hc|].
    apply (storage_save_then_load (Local l)
             {| fs := fs1; cloud := cloud w; stdout := stdout w |} _ _ profile).
    rewrite save_local. cbn [fs cloud stdout]. by rewrite Hs.
  - by rewrite save_azure_raises in Hc.
Qed.

(** X13. What [create] and [update] return is what is stored.  After
    either has returned a profile, [exists(id)] is true and [load(id)]
    returns a profile with the same field content, when the data model
    reads back what it writes. *)
Theorem created_or_updated_is_stored (self : ProfileManager.t (B := Storage))
    (profile_id : string) (data : gmap string Value) (w w' : World)
    (profile : CompanyProfile) :
  json_round_trip →
  ProfileManager.create self profile_id data w = (w', inr profile) ∨
  ProfileManager.update self profile_id data w = (w', inr profile) →
  ProfileManager.exists_ self profile_id w' = true ∧
  ∃ q, ProfileManager.load self profile_id w' = inr q ∧ same_content q profile.
Proof.
  intros Hrt Hcall.
  assert (ProfileManager.save self profile_id profile w = (w', inr ())) as Hs.
  { destruct Hcall as [Hc|Hu].
    - destruct (ProfileManager.exists_ self profile_id w) eqn:Hex.
      + by rewrite (create_existing _ _ _ _ Hex) in Hc.
      + rewrite (create_new _ _ _ _ Hex) in Hc.
        destruct (model_validate (dict_value data)) as [msg|q]; [done|].
        destruct (ProfileManager.save self profile_id q w) as [w2 [e|[]]] eqn:Hq;
          [done|].
        by injection Hc as <- <-.
    - destruct (ProfileManager.load self profile_id w) as [e|stored] eqn:Hl.
      + by rewrite (update_missing _ _ _ _ _ Hl) in Hu.
      + rewrite (update_present _ _ _ _ _ Hl) in Hu.
        destruct (model_validate _) as [msg|q]; [done|].
        destruct (ProfileManager.save self profile_id q w) as [w2 [e|[]]] eqn:Hq;
          [done|].
        by injection Hu as <- <-. }
  unfold ProfileManager.save in Hs.
  destruct (storage_save_then_load _ _ _ _ _ Hs) as [Hex Hload].
  destruct (parse_profile_round_trip profile Hrt) as (q & Hq & Hsame).
  split; [done|]. exists q. unfold ProfileManager.load. by rewrite Hload.
Qed.

(** X14. The dictionary helpers of the storage contract.  [save_dict] on
    data that fails validation raises [ValidationError] and leaves the
    world as it was.  After a [save_dict(id, data)] that returned,
    [exists(id)] is true and [load_dict(id)] returns the dump of the
    profile [data] validates to, when the data model reads back what it
    writes.  And [load_dict] on an ID that does not exist raises
    NotFound. *)
Theorem save_dict_then_load_dict (s : Storage) (profile_id : string)
    (data : gmap string Value) (w : World) :
  (∀ msg, model_validate (dict_value data) = inl msg →
     save_dict s profile_id data w = (w, inl (ValidationError msg))) ∧
  (json_round_trip →
   ∀ w', save_dict s profile_id data w = (w', inr ()) →
     exists_ s profile_id w' = true ∧
     ∃ profile, model_validate (dict_value data) = inr profile ∧
                load_dict s profile_id w' = inr (model_dump profile)) ∧
  (exists_ s profile_id w = false →
   ∃ msg, load_dict s profile_id w = inl (FileNotFoundError msg)).
Proof.
  unfold save_dict, load_dict, mbind, M_bind, validate. split_and!.
  - by intros msg ->.
  - intros Hrt w'.
    destruct (model_validate (dict_value data)) as [msg|profile]; [done|].
    intros Hs. destruct (storage_save_then_load _ _ _ _ _ Hs) as [Hex Hload].
    destruct (parse_profile_round_trip profile Hrt) as (q & Hq & Hsame).
    split; [done|]. exists profile. split; [done|].
    by rewrite Hload, Hq, Hsame.
  - intros Hex. destruct (storage_absent _ _ _ Hex) as [[msg ->] _]. eauto.
Qed.

End recreate.

Section escape.
Context {model : DataModel} {python : Version}.

Lemma leading_slash_is_absolute (s : string) :
  absolute (of_string (String "/" s)) = true.
Proof.
  unfold absolute, of_string, root_of; cbn [root].
  destruct s as [|b s]; [done|].
  destruct b as [[] [] [] [] [] [] [] []]; try done.
  destruct s as [|c s]; [done|].
  destruct c as [[] [] [] [] [] [] [] []]; done.
Qed.

Lemma absolute_file_path (self : LocalFileStorage.t) (rest : string) :
  LocalFileStorage._get_file_path self (String "/" rest) =
  of_string (String "/" rest +:+ ".json").
Proof.
  unfold LocalFileStorage._get_file_path, div.
  by rewrite append_cons, leading_slash_is_absolute.
Qed.

(** X15. An ID that starts with [/] is not kept inside the profiles
    directory: its path is the absolute path [id.json], whatever the
    directory of the backend.  So what one local backend saves under
    such an ID, every other local backend sees under it. *)
Theorem absolute_id_leaves_directory (self other : LocalFileStorage.t)
    (rest : string) (profile : CompanyProfile) (fs fs' : FileSystem) :
  let profile_id := String "/" rest in
  LocalFileStorage.save self profile_id profile fs = (fs', inr ()) →
  LocalFileStorage._get_file_path self profile_id =
    of_string (profile_id +:+ ".json") ∧
  LocalFileStorage.exists_ other profile_id fs' = true ∧
  LocalFileStorage.load other profile_id fs' = parse_profile (model_dump_json profile).
Proof.
  cbv zeta. intros Hs. split; [apply absolute_file_path|].
  destruct (local_save_then_load _ _ _ _ _ Hs) as [Hex Hload].
  unfold LocalFileStorage.exists_, LocalFileStorage.load in *.
  by rewrite !absolute_file_path in *.
Qed.

End escape.

(** ** The detector *)

Section detector.
Context {python : Version} {sdk : azure.SDK}
        {interp : builtins.Interpreter}.

(** X16. The detector's local branch.  When the environment is not
    [production] (compared in lower case) or holds no non-empty
    connection string, then with or without the SDK the detector prints
    the one line naming [PROFILES_DIR] (default [./profiles]), leaves the
    storage account alone, removes or rewrites nothing in the file
    system, and, when it returns, returns the local backend on that
    directory, which is then a directory. *)
Theorem detector_selects_local (environ : gmap string string)
    (sdk_installed : bool) (w : World) :
  wants_azure environ = false →
  let profiles_dir := builtins.getenv_default environ "PROFILES_DIR" "./profiles" in
  let out := _auto_detect_storage environ sdk_installed w in
  stdout out.1 =
    stdout w ++ ["📁 Using Local File Storage (directory: " +:+ profiles_dir +:+ ")"] ∧
  cloud out.1 = cloud w ∧
  only_adds_dirs (fs w) (fs out.1) ∧
  ∀ s, out.2 = inr s →
    s = Local {| LocalFileStorage.profiles_dir := of_string profiles_dir |} ∧
    is_dir (fs out.1) (of_string profiles_dir) = true.
Proof.
  intros Hw. cbv zeta. rewrite (auto_detect_local _ _ _ Hw). cbv zeta.
  unfold mbind, M_bind, print, on_fs, mret, M_ret. cbn [fs cloud stdout].
  set (dir := builtins.getenv_default environ "PROFILES_DIR" "./profiles").
  pose proof (mkdir_parents_only_adds (of_string dir) (fs w)) as Hadds.
  unfold LocalFileStorage.__init__, mbind, M_bind, mret, M_ret.
  destruct (mkdir_parents (of_string dir) (fs w)) as [fs' [e|[]]] eqn:Hm;
    cbn [fst snd fs cloud stdout] in *.
  - by split_and!.
  - split_and!; [done..|]. intros s [= <-]. split; [done|].
    by apply (mkdir_parents_is_dir _ _ _ Hm).
Qed.

Lemma azure_init_returns (sdk_installed : bool)
    (connection_string container_name : string) (timeout : Z) (c : azure.Cloud)
    (self : AzureBlobStorage.t) :
  (AzureBlobStorage.__init__ sdk_installed connection_string container_name
     timeout c).2 = inr self →
  sdk_installed = true ∧
  self = {| AzureBlobStorage.connection_string := connection_string;
            AzureBlobStorage.container_name := container_name;
            AzureBlobStorage.timeout_seconds := timeout |}.
Proof.
  unfold AzureBlobStorage.__init__. rewrite module_flag_is_sdk.
  destruct sdk_installed; [|done]. cbn [negb].
  unfold mbind, M_bind, reads, mret, M_ret.
  destruct (azure.from_connection_string _ _) as [e|[]]; [done|].
  destruct (AzureBlobStorage._ensure_container_exists _ c) as [c' [e|[]]]; [done|].
  by intros [= <-].
Qed.

Lemma azure_init_without_sdk
    (connection_string container_name : string) (timeout : Z) (c : azure.Cloud) :
  ∃ e, AzureBlobStorage.__init__ false connection_string container_name timeout c =
       (c, inl e).
Proof. eexists. reflexivity. Qed.

(** X17. The detector's blob branch.  When the environment is
    [production] and holds a non-empty connection string, the detector
    prints the one line naming the container (default
    [company-profiles]) and never touches the file system.  A timeout
    that [int] rejects makes it raise [ValueError] with the storage
    account untouched; without the SDK it raises in any case; and
    whatever it returns is the blob backend built from the connection
    string, the container name and the timeout (30 when the variable is
    not set). *)
Theorem detector_selects_azure (environ : gmap string string)
    (sdk_installed : bool) (w : World) :
  wants_azure environ = true →
  let container :=
    builtins.getenv_default environ "AZURE_STORAGE_CONTAINER_NAME" "company-profiles" in
  let seconds :=
    builtins.getenv_default environ "AZURE_STORAGE_TIMEOUT_SECONDS" "30" in
  let out := _auto_detect_storage environ sdk_installed w in
  stdout out.1 =
    stdout w ++ ["🔵 Using Azure Blob Storage (container: " +:+ container +:+ ")"] ∧
  fs out.1 = fs w ∧
  (builtins.int seconds = None →
   (∃ msg, out.2 = inl (ValueError msg)) ∧ cloud out.1 = cloud w) ∧
  (sdk_installed = false → ∃ e, out.2 = inl e ∧ cloud out.1 = cloud w) ∧
  (∀ s, out.2 = inr s →
     ∃ conn timeout,
       environ !! "AZURE_STORAGE_CONNECTION_STRING" = Some conn ∧
       builtins.int seconds = Some timeout ∧
       (environ !! "AZURE_STORAGE_TIMEOUT_SECONDS" = None → timeout = 30%Z) ∧
       s = Azure {| AzureBlobStorage.connection_string := conn;
                    AzureBlobStorage.container_name := container;
                    AzureBlobStorage.timeout_seconds := timeout |}).
Proof.
  intros Hw. cbv zeta. unfold _auto_detect_storage.
  unfold wants_azure in Hw. rewrite Hw, package_flag_always_true. cbn [andb].
  apply andb_true_iff in Hw as [_ Hconn].
  unfold mbind, M_bind, print, raise, mret, M_ret, on_cloud. cbn [fs cloud stdout].
  set (seconds := builtins.getenv_default environ "AZURE_STORAGE_TIMEOUT_SECONDS" "30").
  set (container :=
         builtins.getenv_default environ "AZURE_STORAGE_CONTAINER_NAME" "company-profiles").
  assert (environ !! "AZURE_STORAGE_TIMEOUT_SECONDS" = None →
          builtins.int seconds = Some 30%Z) as Hdefault.
  { intros Hunset. unfold seconds, builtins.getenv_default. by rewrite Hunset. }
  destruct (builtins.int seconds) as [timeout|] eqn:Hint; cbn [fst snd fs cloud stdout].
  - unfold builtins.getenv in *.
    destruct (environ !! "AZURE_STORAGE_CONNECTION_STRING") as [conn|] eqn:Hc;
      [|done]. cbn [default from_option id].
    pose proof (azure_init_returns sdk_installed conn container timeout (cloud w))
      as Hret.
    pose proof (azure_init_without_sdk conn container timeout (cloud w)) as Hno.
    destruct (AzureBlobStorage.__init__ sdk_installed conn container timeout (cloud w))
      as [c' [e|a]] eqn:Hinit; cbn [fst snd fs cloud stdout] in *.
    + split_and!; [done..| |done].
      intros ->. destruct Hno as [e' Hno]. rewrite Hinit in Hno.
      injection Hno as -> _. eauto.
    + destruct (Hret a eq_refl) as [-> ->]. split_and!; [done..| |].
      * done.
      * intros s [= <-]. exists conn, timeout. split_and!; [done..| |done].
        intros Hunset. specialize (Hdefault Hunset). congruence.
  - split_and!; [done|done|by eauto| |done].
    intros _. eauto.
Qed.

End detector.

(** ** Listings, the loader, neighbouring directories *)

Section listed.
Context {model : DataModel} {python : Version} {sdk : azure.SDK}.

Lemma local_existing_is_listed (l : LocalFileStorage.t) (profile_id : string)
    (fs : FileSystem) :
  plain_id profile_id →
  LocalFileStorage.exists_ l profile_id fs = true →
  ∃ ids, LocalFileStorage.list_ l fs = inr ids ∧ profile_id ∈ ids.
Proof.
  intros [Hs Hdot] Hex.
  destruct (local_list_returns l fs) as (ids & Hl & _). exists ids. split; [done|].
  apply (local_list_elem_of _ _ _ _ Hl), list_elem_of_fmap.
  exists (profile_id +:+ ".json").
  assert (matches_star_json (profile_id +:+ ".json") = true) as Hm.
  { apply endswith_append. }
  assert (Str.drop_last 5 (profile_id +:+ ".json") = profile_id) as Hdrop.
  { change 5 with (String.length ".json"). apply drop_last_append. }
  split.
  - destruct (json_name_stem (profile_id +:+ ".json") Hm) as [-> _]; by rewrite Hdrop.
  - apply elem_of_glob. split; [done|]. by apply local_exists_plain_iff.
Qed.

Lemma storage_existing_is_listed (s : Storage) (profile_id : string) (w : World)
    (ids : list string) :
  listed_id s profile_id →
  exists_ s profile_id w = true →
  list_ s w = inr ids → profile_id ∈ ids.
Proof.
  intros Hid Hex Hl. destruct s as [l|a].
  - destruct (local_existing_is_listed l profile_id (fs w) Hid Hex) as (ids' & Hl' & Hin).
    change (list_ (Local l) w) with (LocalFileStorage.list_ l (fs w)) in Hl.
    congruence.
  - change (list_ (Azure a) w) with (AzureBlobStorage.list_ a (cloud w)) in Hl.
    destruct (azure_list_exact a (cloud w) ids Hl) as (_ & _ & Hin). by apply Hin.
Qed.

(** X18. What exists is listed.  On either backend, whatever else the
    store holds, an ID for which [exists] is true is in every listing the
    manager returns (on the local backend: an ID without a path
    separator and not made of dots only), and the local backend's
    listing always returns. *)
Theorem existing_id_is_listed (self : ProfileManager.t (B := Storage))
    (profile_id : string) (w : World) :
  listed_id (ProfileManager.storage self) profile_id →
  ProfileManager.exists_ self profile_id w = true →
  (∀ ids, ProfileManager.list_ self w = inr ids → profile_id ∈ ids) ∧
  (∀ l, ProfileManager.storage self = Local l →
        ∃ ids, ProfileManager.list_ self w = inr ids).
Proof.
  intros Hid Hex. split.
  - intros ids Hl. by eapply storage_existing_is_listed.
  - intros l Hs. unfold ProfileManager.list_. rewrite Hs.
    destruct (local_list_returns l (fs w)) as (ids & Hl & _). by exists ids.
Qed.

End listed.

Section loader_facts.
Context {model : DataModel} {python : Version} {sdk : azure.SDK}
        {interp : builtins.Interpreter}.

Lemma auto_detect_local_returns (environ : gmap string string)
    (sdk_installed : bool) (w w' : World) (s : Storage) :
  wants_azure environ = false →
  _auto_detect_storage environ sdk_installed w = (w', inr s) →
  let profiles_dir := builtins.getenv_default environ "PROFILES_DIR" "./profiles" in
  s = Local {| LocalFileStorage.profiles_dir := of_string profiles_dir |} ∧
  stdout w' =
    stdout w ++ ["📁 Using Local File Storage (directory: " +:+ profiles_dir +:+ ")"].
Proof.
  intros Hw. rewrite (auto_detect_local _ _ _ Hw). cbv zeta.
  unfold mbind, M_bind, print, on_fs, mret, M_ret. cbn [fs cloud stdout].
  unfold LocalFileStorage.__init__, mbind, M_bind, mret, M_ret.
  destruct (mkdir_parents _ (fs w)) as [fs' [e|[]]]; [done|].
  by intros [= <- <-].
Qed.

Lemma get_manager_cached (st : loader.Process) (m : ProfileManager.t)
    (environ : gmap string string) (sdk_installed : bool) :
  loader._manager st = Some m →
  loader._get_manager environ sdk_installed st = (st, inr m).
Proof. unfold loader._get_manager. by intros ->. Qed.

Lemma get_manager_returns (st st' : loader.Process) (m : ProfileManager.t)
    (environ : gmap string string) (sdk_installed : bool) :
  loader._get_manager environ sdk_installed st = (st', inr m) →
  loader._manager st' = Some m.
Proof.
  unfold loader._get_manager. destruct (loader._manager st) as [m0|] eqn:E.
  - by intros [= <- <-].
  - destruct (ProfileManager.__init__ _ _ _ _) as [w' [e|m0]]; [done|].
    by intros [= <- <-].
Qed.

(** X19. The loader's manager is built once.  After [_get_manager()] has
    returned a manager, the global holds it, and every later call
    returns that same manager and changes nothing, whatever the
    environment has become.  A call that raises leaves the global
    unset, so the next call detects again. *)
Theorem manager_is_built_once (environ : gmap string string)
    (sdk_installed : bool) (st : loader.Process) :
  let out := loader._get_manager environ sdk_installed st in
  (∀ m, out.2 = inr m →
     loader._manager out.1 = Some m ∧
     ∀ environ' sdk_installed',
       loader._get_manager environ' sdk_installed' out.1 = (out.1, inr m)) ∧
  (∀ e, out.2 = inl e →
     loader._manager out.1 = None ∧
     ∀ environ' sdk_installed',
       loader._get_manager environ' sdk_installed' out.1 =
       match ProfileManager.__init__ environ' sdk_installed' None
               (loader.world out.1) with
       | (w', inl e') => ({| loader.world := w'; loader._manager := None |}, inl e')
       | (w', inr m) => ({| loader.world := w'; loader._manager := Some m |}, inr m)
       end).
Proof.
  cbv zeta.
  destruct (loader._get_manager environ sdk_installed st) as [st' [e|m]] eqn:Hget;
    cbn [fst snd]; (split; [intros m'|intros e']); intros [= <-].
  - unfold loader._get_manager in Hget.
    destruct (loader._manager st) as [m0|] eqn:E; [done|].
    destruct (ProfileManager.__init__ _ _ _ _) as [w' [e0|m0]]; [|done].
    injection Hget as <- <-. done.
  - pose proof (get_manager_returns _ _ _ _ _ Hget) as Hm. split; [done|].
    intros environ' sdk_installed'. by apply get_manager_cached.
Qed.

(** X20. The convenience functions keep to the manager of their first
    call.  After [save_company_profile(id, p)] has returned, and whatever
    the environment has become since, [profile_exists(id)] returns true
    and [load_company_profile(id)] returns a profile with the field
    content of [p] (the data model reading back what it writes), both
    leaving the process as it is. *)
Theorem loader_save_then_load (environ : gmap string string)
    (sdk_installed : bool) (profile_id : string) (profile : CompanyProfile)
    (st st' : loader.Process) :
  json_round_trip →
  loader.save_company_profile environ sdk_installed profile_id profile st =
    (st', inr ()) →
  ∀ environ' sdk_installed',
    loader.profile_exists environ' sdk_installed' profile_id st' = (st', inr true) ∧
    ∃ q, loader.load_company_profile environ' sdk_installed' profile_id st' =
           (st', inr q) ∧
         same_content q profile.
Proof.
  intros Hrt Hsave environ' sdk_installed'.
  unfold loader.save_company_profile, mbind, M_bind in Hsave.
  destruct (loader._get_manager environ sdk_installed st) as [st1 [e|m]] eqn:Hget;
    [done|].
  pose proof (get_manager_returns _ _ _ _ _ Hget) as Hm.
  unfold loader.in_world in Hsave.
  destruct (ProfileManager.save m profile_id profile (loader.world st1))
    as [w' [e|[]]] eqn:Hs; [done|].
  injection Hsave as <-.
  unfold ProfileManager.save in Hs.
  destruct (storage_save_then_load _ _ _ _ _ Hs) as [Hex Hload].
  destruct (parse_profile_round_trip profile Hrt) as (q & Hq & Hsame).
  unfold loader.profile_exists, loader.load_company_profile, mbind, M_bind.
  rewrite (get_manager_cached _ m) by done.
  unfold loader.in_world, reads, ProfileManager.exists_, ProfileManager.load.
  cbn [loader.world loader._manager]. rewrite Hex, Hload, Hq, Hm.
  split; [done|]. by exists q.
Qed.

(** X21. Where the loader stores.  In a process that has no manager yet
    and whose environment selects the local backend, a
    [save_company_profile(id, p)] that returns has printed the one line
    of the detector, has set the global to a manager on [PROFILES_DIR]
    (default [./profiles]), and has written the record where a
    [LocalFileStorage] on that directory finds it; and
    [list_company_profiles()] then returns a list that holds [id], when
    [id] has no path separator and is not made of dots only. *)
Theorem loader_stores_in_profiles_dir (environ : gmap string string)
    (sdk_installed : bool) (profile_id : string) (profile : CompanyProfile)
    (st st' : loader.Process) :
  wants_azure environ = false →
  loader._manager st = None →
  loader.save_company_profile environ sdk_installed profile_id profile st =
    (st', inr ()) →
  let profiles_dir := builtins.getenv_default environ "PROFILES_DIR" "./profiles" in
  let storage := {| LocalFileStorage.profiles_dir := of_string profiles_dir |} in
  loader._manager st' = Some {| ProfileManager.storage := Local storage |} ∧
  stdout (loader.world st') =
    stdout (loader.world st) ++
    ["📁 Using Local File Storage (directory: " +:+ profiles_dir +:+ ")"] ∧
  LocalFileStorage.exists_ storage profile_id (fs (loader.world st')) = true ∧
  LocalFileStorage.load storage profile_id (fs (loader.world st')) =
    parse_profile (model_dump_json profile) ∧
  (plain_id profile_id →
   ∀ environ' sdk_installed',
     ∃ ids, loader.list_company_profiles environ' sdk_installed' st' = (st', inr ids) ∧
            profile_id ∈ ids).
Proof.
  intros Hw Hnone Hsave. cbv zeta.
  unfold loader.save_company_profile, mbind, M_bind in Hsave.
  unfold loader._get_manager in Hsave. rewrite Hnone in Hsave.
  unfold ProfileManager.__init__, mbind, M_bind, mret, M_ret in Hsave.
  pose proof (auto_detect_local_returns environ sdk_installed (loader.world st)) as Hret.
  destruct (_auto_detect_storage environ sdk_installed (loader.world st))
    as [w1 [e|s]]; [done|].
  destruct (Hret w1 s Hw eq_refl) as [-> Hout].
  unfold loader.in_world in Hsave. cbn [loader.world loader._manager] in Hsave.
  unfold ProfileManager.save in Hsave. cbn [ProfileManager.storage] in Hsave.
  rewrite save_local in Hsave.
  destruct (LocalFileStorage.save _ profile_id profile (fs w1)) as [fs' [e|[]]] eqn:Hs;
    [done|].
  injection Hsave as <-. cbn [loader.world loader._manager fs stdout fst].
  destruct (local_save_then_load _ _ _ _ _ Hs) as [Hex Hload].
  split_and!; [done..|].
  intros Hplain environ' sdk_installed'.
  destruct (local_existing_is_listed _ _ _ Hplain Hex) as (ids & Hl & Hin).
  exists ids. split; [|done].
  unfold loader.list_company_profiles, mbind, M_bind, loader._get_manager.
  cbn [loader.world loader._manager].
  unfold loader.in_world, reads, ProfileManager.list_.
  cbn [loader.world loader._manager ProfileManager.storage].
  change (list_ (Local ?l) ?w) with (LocalFileStorage.list_ l (fs w)).
  cbn [fs]. by rewrite Hl.
Qed.

End loader_facts.

Section neighbours.
Context {model : DataModel} {python : Version}.

Lemma record_key_ne_dirs (kd kd' : list string) (i j : string) :
  kd ≠ kd' → record_key kd i ≠ record_key kd' j.
Proof. unfold record_key. intros Hne Heq. by apply app_inj_tail in Heq as [? _]. Qed.

Lemma dir_at_other_put (other : LocalFileStorage.t) (fs : FileSystem)
    (kd : list string) (k : list string) (text : string) :
  dir_at other fs kd → node_at fs k ≠ Some Dir →
  dir_at other (put k (File text) fs) kd.
Proof.
  intros [Hl Hn] Hk. destruct (put_file_keeps_dirs fs k text Hk) as [Hkeeps _].
  split; [by eapply locate_keeps_dirs|]. by apply Hkeeps.
Qed.

Lemma dir_at_other_remove (other : LocalFileStorage.t) (fs : FileSystem)
    (kd : list string) (k : list string) (text : string) :
  dir_at other fs kd → node_at fs k = Some (File text) →
  dir_at other (remove k fs) kd.
Proof.
  intros [Hl Hn] Hk. destruct (remove_file_keeps_dirs fs k text Hk) as [Hkeeps _].
  split; [by eapply locate_keeps_dirs|]. by apply Hkeeps.
Qed.

(** X22. Two local backends on different directories do not meet.  When
    the directories of [self] and [other] are in place at different
    canonical paths, a [save] or a [delete] through [self] leaves
    [exists] and [load] through [other] as they were, for IDs without a
    path separator. *)
Theorem other_directory_untouched (self other : LocalFileStorage.t)
    (fs : FileSystem) (kd kd' : list string) (i j : string)
    (profile : CompanyProfile) :
  dir_at self fs kd → dir_at other fs kd' → kd ≠ kd' →
  no_separator i → no_separator j →
  let saved := (LocalFileStorage.save self i profile fs).1 in
  let deleted := (LocalFileStorage.delete self i fs).1 in
  LocalFileStorage.exists_ other j saved = LocalFileStorage.exists_ other j fs ∧
  LocalFileStorage.load other j saved = LocalFileStorage.load other j fs ∧
  LocalFileStorage.exists_ other j deleted = LocalFileStorage.exists_ other j fs ∧
  LocalFileStorage.load other j deleted = LocalFileStorage.load other j fs.
Proof.
  intros Hd Hd' Hne Hi Hj. cbv zeta.
  pose proof (record_key_ne_dirs kd kd' i j Hne) as Hkeys.
  pose proof (record_key_not_root kd i) as Hroot.
  rewrite (local_save_plain _ _ _ _ _ Hi Hd), (local_delete_plain _ _ _ _ Hi Hd).
  assert (∀ text, nodes fs !! record_key kd i ≠ Some Dir →
            LocalFileStorage.exists_ other j (put (record_key kd i) (File text) fs) =
              LocalFileStorage.exists_ other j fs ∧
            LocalFileStorage.load other j (put (record_key kd i) (File text) fs) =
              LocalFileStorage.load other j fs) as Hput.
  { intros text Hnd. apply (local_plain_reads other fs _ kd' j Hj Hd').
    - apply dir_at_other_put; [done|]. by rewrite node_at_record.
    - cbn. by rewrite lookup_insert_ne. }
  assert (∀ text, nodes fs !! record_key kd i = Some (File text) →
            LocalFileStorage.exists_ other j (remove (record_key kd i) fs) =
              LocalFileStorage.exists_ other j fs ∧
            LocalFileStorage.load other j (remove (record_key kd i) fs) =
              LocalFileStorage.load other j fs) as Hremove.
  { intros text Hf. apply (local_plain_reads other fs _ kd' j Hj Hd').
    - eapply dir_at_other_remove; [done|]. by rewrite node_at_record.
    - cbn. by rewrite lookup_delete_ne. }
  destruct (nodes fs !! record_key kd i) as [[text|]|] eqn:E; cbn [fst snd].
  - destruct (Hput (model_dump_json profile)) as [? ?]; [done|].
    destruct (Hremove text) as [? ?]; [done|]. done.
  - done.
  - destruct (Hput (model_dump_json profile)) as [? ?]; [done|]. done.
Qed.

Lemma is_dir_record (self : LocalFileStorage.t) (profile_id : string)
    (fs : FileSystem) (kd : list string) :
  no_separator profile_id → dir_at self fs kd →
  is_dir fs (LocalFileStorage._get_file_path self profile_id) =
  bool_decide (nodes fs !! record_key kd profile_id = Some Dir).
Proof.
  intros Hs Hd. unfold is_dir, stat.
  rewrite (locate_plain _ _ _ _ Hs Hd), node_at_record.
  by destruct (nodes fs !! record_key kd profile_id) as [[]|].
Qed.

(** X23. When the local backend's [save] returns.  With the profiles
    directory in place and for an ID without a path separator whose
    record path is within the limits of the platform, [save] returns
    unless [id.json] is a directory; in that case it raises
    [IsADirectoryError] and leaves the file system as it was. *)
Theorem local_save_returns_unless_directory (self : LocalFileStorage.t)
    (profile_id : string) (profile : CompanyProfile) (fs : FileSystem) :
  is_dir fs (LocalFileStorage.profiles_dir self) = true →
  storable self profile_id →
  let file_path := LocalFileStorage._get_file_path self profile_id in
  (is_dir fs file_path = false →
   ∃ fs', LocalFileStorage.save self profile_id profile fs = (fs', inr ())) ∧
  (is_dir fs file_path = true →
   LocalFileStorage.save self profile_id profile fs = (fs, inl IsADirectoryError)).
Proof.
  intros [kd Hd]%is_dir_dir_at [Hs _]. cbv zeta.
  rewrite (is_dir_record _ _ _ _ Hs Hd), (local_save_plain _ _ _ _ _ Hs Hd).
  split.
  - intros Hn%bool_decide_eq_false.
    destruct (nodes fs !! record_key kd profile_id) as [[]|]; [eauto|done|eauto].
  - by intros ->%bool_decide_eq_true.
Qed.

End neighbours.

(** ** Undoing a [save]; what the manager writes *)

Section undo.
Context {model : DataModel} {python : Version} {sdk : azure.SDK}.

Lemma remove_put (fs : FileSystem) (k : list string) (n : node) :
  nodes fs !! k = None → remove k (put k n fs) = fs.
Proof.
  intros Hk. destruct fs as [cwd0 nodes0]. unfold remove, put. cbn in *.
  by rewrite delete_insert_id.
Qed.

Lemma local_save_then_delete (l : LocalFileStorage.t) (profile_id : string)
    (profile : CompanyProfile) (fs fs1 : FileSystem) :
  is_dir fs (LocalFileStorage.profiles_dir l) = true →
  no_separator profile_id →
  LocalFileStorage.exists_ l profile_id fs = false →
  LocalFileStorage.save l profile_id profile fs = (fs1, inr ()) →
  LocalFileStorage.delete l profile_id fs1 = (fs, inr ()).
Proof.
  intros [kd Hd]%is_dir_dir_at Hs Hex.
  rewrite (local_exists_plain _ _ _ _ Hs Hd) in Hex.
  apply bool_decide_eq_false in Hex.
  assert (nodes fs !! record_key kd profile_id = None) as Hnone.
  { by apply eq_None_not_Some. }
  rewrite (local_save_plain _ _ _ _ _ Hs Hd), Hnone. intros [= <-].
  rewrite (local_delete_plain _ _ _ kd Hs).
  - cbn. rewrite lookup_insert_eq. by rewrite remove_put.
  - apply dir_at_put; [done|]. by rewrite Hnone.
Qed.

Lemma azure_save_then_delete (a : AzureBlobStorage.t) (profile_id : string)
    (profile : CompanyProfile) (c c1 : azure.Cloud) :
  AzureBlobStorage.exists_ a profile_id c = false →
  AzureBlobStorage.save a profile_id profile c = (c1, inr ()) →
  AzureBlobStorage.delete a profile_id c1 = (c, inr ()).
Proof. intros _. by rewrite azure_save_spec. Qed.

(** X24. [delete] undoes a [save] that added a record.  When [exists(id)]
    is false and [save(id, p)] returns, a [delete(id)] right after it
    returns and leaves the world exactly as it was before the [save]: on
    the blob backend for every ID, on the local backend for an ID
    without a path separator with the profiles directory in place. *)
Theorem save_then_delete_restores (s : Storage) (profile_id : string)
    (profile : CompanyProfile) (w w1 : World) :
  ready s w → flat_id s profile_id →
  exists_ s profile_id w = false →
  save s profile_id profile w = (w1, inr ()) →
  delete s profile_id w1 = (w, inr ()).
Proof.
  intros Hr Hi Hex. destruct s as [l|a]; cbn in Hr, Hi.
  - rewrite save_local.
    destruct (LocalFileStorage.save l profile_id profile (fs w)) as [fs1 [e|[]]] eqn:Hs;
      [done|]. intros [= <-].
    rewrite delete_local. cbn [fs cloud stdout].
    rewrite (local_save_then_delete _ _ _ _ _ Hr Hi Hex Hs). cbn [fst snd].
    by rewrite world_eta.
  - rewrite save_azure.
    destruct (AzureBlobStorage.save a profile_id profile (cloud w)) as [c1 [e|[]]] eqn:Hs;
      [done|]. intros [= <-].
    rewrite delete_azure. cbn [fs cloud stdout].
    rewrite (azure_save_then_delete _ _ _ _ _ Hex Hs). cbn [fst snd].
    by rewrite world_eta.
Qed.

(** X25. [create] and [update] write one ID.  Whatever they return or
    raise, [create(id, data)] and [update(id, data)] leave [exists(id')]
    and [load(id')] as they were for every other ID [id']: on the blob
    backend for all IDs, on the local backend for IDs without a path
    separator with the profiles directory in place. *)
Theorem manager_writes_one_id (self : ProfileManager.t (B := Storage))
    (profile_id other : string) (data : gmap string Value) (w : World) :
  let s := ProfileManager.storage self in
  ready s w → flat_id s profile_id → flat_id s other → profile_id ≠ other →
  let created := (ProfileManager.create self profile_id data w).1 in
  let updated := (ProfileManager.update self profile_id data w).1 in
  ProfileManager.exists_ self other created = ProfileManager.exists_ self other w ∧
  ProfileManager.load self other created = ProfileManager.load self other w ∧
  ProfileManager.exists_ self other updated = ProfileManager.exists_ self other w ∧
  ProfileManager.load self other updated = ProfileManager.load self other w.
Proof.
  cbv zeta. intros Hr Hi Ho Hne.
  assert (∀ p,
            exists_ (ProfileManager.storage self) other
              (ProfileManager.save self profile_id p w).1 =
              exists_ (ProfileManager.storage self) other w ∧
            load (ProfileManager.storage self) other
              (ProfileManager.save self profile_id p w).1 =
              load (ProfileManager.storage self) other w) as Hsave.
  { intros p. by apply storage_save_frame. }
  unfold ProfileManager.exists_, ProfileManager.load.
  assert (∀ out : World * (exn + CompanyProfile),
            (out.1 = w ∨ ∃ p, out.1 = (ProfileManager.save self profile_id p w).1) →
            exists_ (ProfileManager.storage self) other out.1 =
              exists_ (ProfileManager.storage self) other w ∧
            load (ProfileManager.storage self) other out.1 =
              load (ProfileManager.storage self) other w) as Hout.
  { intros out [->|[p ->]]; [done|apply Hsave]. }
  destruct (Hout (ProfileManager.create self profile_id data w)) as [? ?].
  { destruct (ProfileManager.exists_ self profile_id w) eqn:Hex.
    - rewrite (create_existing _ _ _ _ Hex). by left.
    - rewrite (create_new _ _ _ _ Hex).
      destruct (model_validate (dict_value data)) as [msg|p]; [by left|].
      right. exists p. by destruct (ProfileManager.save self profile_id p w) as [? [|]]. }
  destruct (Hout (ProfileManager.update self profile_id data w)) as [? ?].
  { destruct (ProfileManager.load self profile_id w) as [e|stored] eqn:Hl.
    - rewrite (update_missing _ _ _ _ _ Hl). by left.
    - rewrite (update_present _ _ _ _ _ Hl).
      destruct (model_validate _) as [msg|p]; [by left|].
      right. exists p. by destruct (ProfileManager.save self profile_id p w) as [? [|]]. }
  done.
Qed.

End undo.


(** * The claims on a run *)

Section runs.
Import sample.

(** The end-to-end scenario of the package's test on the local backend. *)
Example scenario_local :
  scenario manager world0 =
  (inr {| active := true; verified := false |},
   inr {| active := true; verified := true |},
   inr {| active := true; verified := true |},
   true, inr ["acme"], inr (), false).
Proof. by_running. Qed.

(** On the blob backend it stops at [create]: nothing is ever stored. *)
Example scenario_blob :
  scenario blob_manager world0 =
  (inl (AttributeError "'dict' object has no attribute 'cache_control'"),
   inl (azure_not_found "acme"),
   inl (azure_not_found "acme"),
   false, inr [], inl (local_not_found "acme"), false).
Proof. by_running. Qed.

(** A timeout written in Arabic-Indic digits is a number to [int]. *)
Example int_reads_arabic_indic : builtins.int "٣٠" = Some 30%Z.
Proof. by_running. Qed.

Lemma C1_save_then_load_witness :
  let w' := (save (Local store) "acme" acme world0).1 in
  json_round_trip (model := sample.model) ∧
  save (Local store) "acme" acme world0 = (w', inr ()) ∧
  exists_ (Local store) "acme" w' = true ∧
  ∃ q, load (Local store) "acme" w' = inr q ∧ same_content q acme.
Proof.
  cbv zeta. split; [exact sample_round_trip|]. split; [by_running|].
  apply (C1_save_then_load (Local store) world0 _ "acme" acme sample_round_trip).
  by_running.
Defined.

Lemma C9_blob_save_never_overwrites_witness :
  let w1 := (save (Local store) "acme" acme world0).1 in
  (load (Local store) "acme" w1 = inr acme ∧
   ∃ w2, save (Local store) "acme" other w1 = (w2, inr ()) ∧
         load (Local store) "acme" w2 = parse_profile (model_dump_json other)) ∧
  (load (Azure blob_store) "acme" world_acme = inr acme ∧
   save (Azure blob_store) "acme" other world_acme =
     (world_acme, inl (AttributeError "'dict' object has no attribute 'cache_control'")) ∧
   load (Azure blob_store) "acme" (save (Azure blob_store) "acme" other world_acme).1 =
     load (Azure blob_store) "acme" world_acme).
Proof.
  cbv zeta.
  destruct (C9_blob_save_never_overwrites "acme" other) as (_ & Hlocal & Hblob).
  split.
  - split; [by_running|]. apply (Hlocal store _ acme). clear. by_running.
  - split; [by_running|].
    destruct (Hblob blob_store world_acme) as (Hsave & _ & Hload).
    split; [exact Hsave|exact Hload].
Defined.

Lemma C7_local_load_not_found_iff_absent_witness :
  read_bytes fs_junk (LocalFileStorage._get_file_path store "acme") = inr "not json" ∧
  json_load "not json" = inl not_json ∧
  LocalFileStorage.load store "acme" fs_junk = inl JSONDecodeError.
Proof.
  split; [by_running|]. split; [by_running|].
  apply (proj1 (proj2 (C7_local_load_not_found_iff_absent store "acme" fs_junk)
                  "not json" ltac:(by_running)) not_json).
  by_running.
Defined.

Lemma C3_create_witness :
  let w1 := (ProfileManager.create manager "acme" {[ "active" := VBool true ]} world0).1 in
  ProfileManager.create manager "acme" {[ "active" := VBool true ]} world0 =
    (w1, inr acme) ∧
  ProfileManager.exists_ manager "acme" world0 = false ∧
  ProfileManager.exists_ manager "acme" w1 = true ∧
  ProfileManager.load manager "acme" w1 = parse_profile (model_dump_json acme) ∧
  ProfileManager.create manager "acme" {[ "active" := VBool false ]} w1 =
    (w1, inl (ValueError "Profile 'acme' already exists")).
Proof.
  cbv zeta. split; [by_running|].
  destruct (C3_create manager "acme" {[ "active" := VBool true ]} world0)
    as (_ & _ & Hreturned & _).
  destruct (Hreturned
              (ProfileManager.create manager "acme" {[ "active" := VBool true ]} world0).1
              acme ∅) as (Hfree & _ & _ & Hex & Hload & _); [by_running|].
  split; [exact Hfree|]. split; [exact Hex|]. split; [exact Hload|].
  apply (proj1 (C3_create manager "acme" {[ "active" := VBool false ]}
                  (ProfileManager.create manager "acme"
                     {[ "active" := VBool true ]} world0).1)).
  exact Hex.
Defined.

Lemma C2_update_witness :
  let w1 := (save (Local store) "acme" acme world0).1 in
  let w2 := (ProfileManager.update manager "acme" {[ "verified" := VBool true ]} w1).1 in
  validation_keeps_dumped_fields (model := sample.model) ∧
  ProfileManager.load manager "acme" w1 = inr acme ∧
  ProfileManager.update manager "acme" {[ "verified" := VBool true ]} w1 =
    (w2, inr {| active := true; verified := true |}) ∧
  ProfileManager.exists_ manager "acme" w2 = true ∧
  ProfileManager.load manager "acme" w2 =
    parse_profile (model_dump_json {| active := true; verified := true |}) ∧
  ({[ "verified" := VBool true ]} : gmap string value) !! "active" = None ∧
  model_dump {| active := true; verified := true |} !! "active" =
    model_dump acme !! "active".
Proof.
  cbv zeta. split; [exact sample_keeps_fields|]. split; [by_running|].
  split; [by_running|].
  destruct (C2_update manager "acme" {[ "verified" := VBool true ]}
              (save (Local store) "acme" acme world0).1) as (_ & _ & Hstored).
  destruct (Hstored acme) as (_ & _ & _ & Hreturned & _); [by_running|].
  destruct (Hreturned
              (ProfileManager.update manager "acme" {[ "verified" := VBool true ]}
                 (save (Local store) "acme" acme world0).1).1
              {| active := true; verified := true |})
    as (_ & _ & Hex & Hload & _ & Hfields); [clear; by_running|].
  split; [exact Hex|]. split; [exact Hload|]. split; [by_running|].
  apply (Hfields sample_keeps_fields). clear. by_running.
Defined.

Lemma C8_container_not_ensured_witness :
  let built :=
    AzureBlobStorage.__init__ true account "company-profiles" 30 empty_cloud in
  azure.from_connection_string account 30 = inr () ∧
  azure.lookup_sends_nothing ∧
  azure.container_exists empty_cloud "company-profiles" = false ∧
  built = (empty_cloud, inr blob_store) ∧
  azure.container_exists built.1 "company-profiles" = false ∧
  AzureBlobStorage.list_ blob_store built.1 = inl ResourceNotFoundError.
Proof.
  cbv zeta. split; [by_running|]. split; [by intros c n|]. split; [by_running|].
  split; [by_running|].
  destruct (C8_container_not_ensured empty_cloud account "company-profiles" 30)
    as (_ & _ & Hmissing); [by_running|].
  destruct Hmissing as (self & Hbuilt & _ & Hstill & Hlist);
    [by intros c n|by_running|].
  split; [exact Hstill|].
  injection Hbuilt as <-. exact Hlist.
Defined.

Lemma C10_other_id_untouched_witness :
  let w1 := (save (Local store) "acme" acme world0).1 in
  ready (Local store) w1 ∧ no_separator "acme" ∧ no_separator "zeta" ∧ "zeta" ≠ "acme" ∧
  exists_ (Local store) "acme" (save (Local store) "zeta" other w1).1 = true ∧
  exists_ (Local store) "acme" (delete (Local store) "zeta" w1).1 = true.
Proof.
  cbv zeta. split; [by_running|]. split; [by_running|].
  split; [by_running|]. split; [done|].
  destruct (C10_other_id_untouched (Local store)
              (save (Local store) "acme" acme world0).1 "zeta" "acme" other)
    as (_ & Hs & _ & Hd & _); [by_running..|done|].
  rewrite Hs, Hd. clear Hs Hd. by_running.
Defined.

Lemma C4_list_sorted_and_exact_witness :
  let w2 := (save (Local store) "acme" acme
               (save (Local store) "zeta" other world0).1).1 in
  list_ (Local store) w2 = inr ["acme"; "zeta"] ∧
  listable (Local store) w2 ∧
  StronglySorted String.le ["acme"; "zeta"] ∧
  ("acme" ∈ ["acme"; "zeta"] ↔ exists_ (Local store) "acme" w2 = true).
Proof.
  cbv zeta.
  assert (listable (Local store)
            (save (Local store) "acme" acme
               (save (Local store) "zeta" other world0).1).1) as Hok.
  { vm_compute. repeat constructor. }
  split; [by_running|]. split; [exact Hok|].
  destruct (proj2 (C4_list_sorted_and_exact (Local store)
              (save (Local store) "acme" acme
                 (save (Local store) "zeta" other world0).1).1) ["acme"; "zeta"])
    as [Hs Hx]; [by_running|].
  split; [exact Hs|]. apply (Hx Hok). clear Hs Hx Hok. by_running.
Defined.

Lemma C6_absent_ids_witness :
  let history := [Save "acme" acme; Save "zeta" other; Delete "acme"] in
  fresh (Local store) world0 = true ∧
  id_within_limits (Local store) "acme" ∧
  live "acme" history = false ∧
  exists_ (Local store) "acme" (run (Local store) history world0) = false.
Proof.
  cbv zeta. split; [by_running|]. split; [by_running|]. split; [by_running|].
  apply (proj1 (C6_absent_ids (Local store)) world0
           [Save "acme" acme; Save "zeta" other; Delete "acme"] "acme").
  - by_running.
  - repeat constructor.
  - by_running.
  - by_running.
  - by_running.
Defined.

(** C4 as stated fails on the local backend.  After [save("a/b", p)] in
    an empty directory [exists("a/b")] is true and the listing is empty.
    After [save("", p)] and [save(".json", p)] the listing is
    [".json"; ".json"], with a duplicate, and misses the empty ID, which
    exists.  And under Python 3.14, after [save(".", p)] the listing is
    ["..json"], an ID that does not exist, and misses ["."], which does. *)
Lemma C4_counterexample :
  (let w := (save (Local store) "a/b" acme world0).1 in
   exists_ (Local store) "a/b" w = true ∧ list_ (Local store) w = inr []) ∧
  (let w := (save (Local store) ".json" acme
               (save (Local store) "" acme world0).1).1 in
   list_ (Local store) w = inr [".json"; ".json"] ∧
   exists_ (Local store) "" w = true) ∧
  (let fs1 := (LocalFileStorage.save store "." acme fs0).1 in
   LocalFileStorage.list_ (python := py314) store fs1 = inr ["..json"] ∧
   LocalFileStorage.exists_ store "..json" fs1 = false ∧
   LocalFileStorage.exists_ store "." fs1 = true).
Proof. by_running. Qed.

(** C6 as stated fails on the local backend.  The local backend built
    on the directory [a.json/..] in an otherwise empty working directory
    has made [a.json] a directory: the ID ["a"] was never saved, yet
    [exists("a")] is true, [load("a")] and [delete("a")] raise
    [IsADirectoryError], not NotFound, and [list()] names it.  And in an
    empty profiles directory, after [save("a.json/b", p)] [exists("a")]
    is true, and after [save("a", p)] the ID ["./a"], never saved,
    exists and loads. *)
Lemma C6_counterexample :
  (let built := LocalFileStorage.__init__ "a.json/.." empty_fs in
   built.2 = inr dotdot_store ∧
   no_separator "a" ∧
   within_limits (LocalFileStorage._get_file_path dotdot_store "a") = true ∧
   LocalFileStorage.exists_ dotdot_store "a" built.1 = true ∧
   LocalFileStorage.load dotdot_store "a" built.1 = inl IsADirectoryError ∧
   LocalFileStorage.delete dotdot_store "a" built.1 = (built.1, inl IsADirectoryError) ∧
   LocalFileStorage.list_ dotdot_store built.1 = inr ["a"]) ∧
  (let history := [Save "a.json/b" acme] in
   let w := run (Local store) history world0 in
   fresh (Local store) world0 = true ∧
   live "a" history = false ∧
   exists_ (Local store) "a" w = true ∧
   load (Local store) "a" w = inl IsADirectoryError ∧
   (delete (Local store) "a" w).2 = inl IsADirectoryError) ∧
  (let history := [Save "a" acme] in
   let w := run (Local store) history world0 in
   live "./a" history = false ∧
   exists_ (Local store) "./a" w = true ∧
   load (Local store) "./a" w = inr acme).
Proof. by_running. Qed.

(** C10 as stated fails on the local backend.  ["a.json/b"] and ["a"] are
    distinct, and [save("a.json/b", p)] turns [exists("a")] from false to
    true; ["./a"] and ["a"] are distinct, and [delete("./a")] removes the
    record of ["a"]; and where the profiles directory [a.json/..] is not in
    place, [save("b", p)] turns [exists("a")] from false to true. *)
Lemma C10_counterexample :
  ("a.json/b" ≠ "a" ∧
   exists_ (Local store) "a" world0 = false ∧
   exists_ (Local store) "a" (save (Local store) "a.json/b" acme world0).1 = true) ∧
  (let w := (save (Local store) "a" acme world0).1 in
   "./a" ≠ "a" ∧
   load (Local store) "a" w = inr acme ∧
   exists_ (Local store) "a" (delete (Local store) "./a" w).1 = false) ∧
  ("b" ≠ "a" ∧
   exists_ (Local dotdot_store) "a" bare_world = false ∧
   exists_ (Local dotdot_store) "a" (save (Local dotdot_store) "b" acme bare_world).1
   = true).
Proof. by_running. Qed.

End runs.

(** * The further properties on a run *)

Section further_runs.
Import sample.

Lemma local_init_only_adds_dirs_witness :
  (LocalFileStorage.__init__ "./profiles" empty_fs).2 = inr store ∧
  is_dir fs0 (of_string "./profiles") = true ∧
  LocalFileStorage.__init__ "./profiles" fs0 = (fs0, inr store).
Proof.
  split; [by_running|].
  destruct (local_init_only_adds_dirs "./profiles" empty_fs) as [_ Hreturns].
  destruct (Hreturns store) as (_ & Hdir & Hagain); [by_running|].
  split; [exact Hdir|exact Hagain].
Defined.

Lemma local_init_refused_witness :
  locate fs_blocked (of_string "profiles") = inr ["srv"; "profiles"] ∧
  node_at fs_blocked ["srv"; "profiles"] = Some (File "notes") ∧
  LocalFileStorage.__init__ "profiles" fs_blocked = (fs_blocked, inl FileExistsError) ∧
  locate fs_blocked (of_string "profiles/data") = inl NotADirectoryError ∧
  LocalFileStorage.__init__ "profiles/data" fs_blocked =
    (fs_blocked, inl NotADirectoryError).
Proof.
  split; [by_running|]. split; [by_running|]. split.
  - apply (proj1 (local_init_refused "profiles" fs_blocked) ["srv"; "profiles"] "notes");
      by_running.
  - split; [by_running|].
    apply (proj2 (local_init_refused "profiles/data" fs_blocked)). by_running.
Defined.

Lemma local_save_changes_one_file_witness :
  let fs1 := (LocalFileStorage.save store "acme" acme fs0).1 in
  let out := LocalFileStorage.save store "acme.json/../zeta" other fs1 in
  nodes fs1 !! ["srv"; "profiles"; "acme.json"] = Some (File (dump_json acme)) ∧
  out.2 = inl NotADirectoryError ∧
  nodes out.1 !! ["srv"; "profiles"; "acme.json"] = Some (File (dump_json acme)).
Proof.
  cbv zeta. split; [by_running|]. split; [by_running|].
  destruct (local_save_changes_one_file store "acme.json/../zeta" other
              (LocalFileStorage.save store "acme" acme fs0).1)
    as (_ & _ & Hfiles & _).
  destruct (Hfiles ["srv"; "profiles"; "acme.json"] (dump_json acme)) as [Hkept|[Hret _]];
    [by_running|exact Hkept|].
  exfalso. clear Hfiles. revert Hret. by_running.
Defined.

Lemma local_delete_removes_one_file_witness :
  let fs1 := (LocalFileStorage.save store "acme" acme fs0).1 in
  let out := LocalFileStorage.delete store "acme" fs1 in
  out.2 = inr () ∧
  ∃ k text,
    locate fs1 (LocalFileStorage._get_file_path store "acme") = inr k ∧
    nodes fs1 !! k = Some (File text) ∧
    nodes out.1 !! k = None ∧
    ∀ k', k' ≠ k → nodes out.1 !! k' = nodes fs1 !! k'.
Proof.
  cbv zeta. split; [by_running|].
  apply (proj2 (proj2 (local_delete_removes_one_file store "acme"
                         (LocalFileStorage.save store "acme" acme fs0).1))).
  by_running.
Defined.

Lemma absolute_id_leaves_directory_witness :
  let fs' := (LocalFileStorage.save store "/srv/shared" acme fs0).1 in
  LocalFileStorage.save store "/srv/shared" acme fs0 = (fs', inr ()) ∧
  LocalFileStorage.exists_ backup_store "/srv/shared" fs' = true ∧
  LocalFileStorage.load backup_store "/srv/shared" fs' =
    parse_profile (model_dump_json acme).
Proof.
  cbv zeta. split; [by_running|].
  apply (absolute_id_leaves_directory store backup_store "srv/shared" acme fs0).
  by_running.
Defined.

Lemma other_directory_untouched_witness :
  dir_at store fs_two ["srv"; "profiles"] ∧
  dir_at backup_store fs_two ["srv"; "backup"] ∧
  LocalFileStorage.exists_ backup_store "acme"
    (LocalFileStorage.save store "acme" acme fs_two).1 =
  LocalFileStorage.exists_ backup_store "acme" fs_two.
Proof.
  split; [by_running|]. split; [by_running|].
  apply (other_directory_untouched store backup_store fs_two
           ["srv"; "profiles"] ["srv"; "backup"] "acme" "acme" acme);
    by_running.
Defined.

Lemma azure_load_not_found_iff_absent_witness :
  AzureBlobStorage.exists_ blob_store "zeta" cloud_acme = false ∧
  ∃ msg, AzureBlobStorage.load blob_store "zeta" cloud_acme = inl (FileNotFoundError msg).
Proof.
  split; [by_running|].
  apply (proj1 (azure_load_not_found_iff_absent blob_store "zeta" cloud_acme)).
  by_running.
Defined.

Lemma azure_save_stores_nothing_witness :
  let history := [Save "zeta" other; Save "acme" other; Delete "zeta"] in
  AzureBlobStorage.save blob_store "zeta" other cloud_acme =
    (cloud_acme, inl (AttributeError "'dict' object has no attribute 'cache_control'")) ∧
  AzureBlobStorage.exists_ blob_store "zeta" (run blob_store history cloud_acme) = false ∧
  AzureBlobStorage.load blob_store "acme" (run blob_store history cloud_acme) = inr acme ∧
  azure.container_exists empty_cloud "company-profiles" = false ∧
  AzureBlobStorage.exists_ blob_store "acme" empty_cloud = false ∧
  ∃ e, AzureBlobStorage.list_ blob_store empty_cloud = inl e.
Proof.
  cbv zeta.
  split; [apply (proj1 (azure_save_stores_nothing blob_store "zeta" other cloud_acme))|].
  split; [by_running|]. split.
  - destruct (proj1 (proj2 (azure_save_stores_nothing blob_store "acme" other cloud_acme))
                [Save "zeta" other; Save "acme" other; Delete "zeta"]) as [_ Hload];
      [by_running|].
    rewrite Hload. clear. by_running.
  - split; [by_running|].
    destruct (proj2 (proj2 (azure_save_stores_nothing blob_store "acme" other empty_cloud)))
      as (Hex & _ & _ & Hlist); [by_running|].
    split; [exact Hex|exact Hlist].
Defined.

Lemma azure_other_blobs_untouched_witness :
  let deleted := (AzureBlobStorage.delete archive_store "acme" cloud_two).1 in
  AzureBlobStorage.container_name archive_store ≠
    AzureBlobStorage.container_name blob_store ∧
  AzureBlobStorage.load blob_store "acme" cloud_two = inr acme ∧
  AzureBlobStorage.load archive_store "acme" cloud_two = inr other ∧
  AzureBlobStorage.exists_ archive_store "acme" deleted = false ∧
  AzureBlobStorage.load blob_store "acme" deleted =
    AzureBlobStorage.load blob_store "acme" cloud_two.
Proof.
  cbv zeta. split; [done|]. split; [by_running|]. split; [by_running|].
  split; [by_running|].
  apply (azure_other_blobs_untouched archive_store blob_store "acme" "acme" other
           cloud_two).
  by left.
Defined.

Lemma azure_init_keeps_blobs_witness :
  let built := AzureBlobStorage.__init__ true account "archive" 30 cloud_acme in
  built.2 = inr archive_store ∧
  azure.containers cloud_acme !! "company-profiles" =
    Some {[ "acme.json" := dump_json acme ]} ∧
  azure.containers built.1 !! "company-profiles" =
    Some {[ "acme.json" := dump_json acme ]}.
Proof.
  cbv zeta. split; [by_running|]. split; [by_running|].
  apply (proj1 (azure_init_keeps_blobs true account "archive" 30 cloud_acme)).
  by_running.
Defined.

Lemma delete_all_or_nothing_witness :
  (delete (Local store) "acme" world0).2 = inl (local_not_found "acme") ∧
  (delete (Local store) "acme" world0).1 = world0.
Proof.
  split; [by_running|].
  apply (proj1 (delete_all_or_nothing (Local store) "acme" world0)
           (local_not_found "acme")).
  by_running.
Defined.

Lemma store_after_history_witness :
  empty_store (Local store) world0 = true ∧
  last_saved "zeta" session = Some other ∧
  last_saved "acme" session = None ∧
  exists_ (Local store) "zeta" (run (Local store) session world0) = true ∧
  load (Local store) "zeta" (run (Local store) session world0) =
    parse_profile (model_dump_json other) ∧
  exists_ (Local store) "acme" (run (Local store) session world0) = false.
Proof.
  split; [by_running|]. split; [by_running|]. split; [by_running|].
  assert (Forall (λ o, storable store (op_id o)) session) as Hflat.
  { repeat constructor. }
  destruct (store_after_history store world0 session "zeta")
    as [Hzeta Hload]; [by_running|exact Hflat|by_running|].
  destruct (store_after_history store world0 session "acme")
    as [Hacme _]; [by_running|exact Hflat|by_running|].
  split; [exact Hzeta|]. split; [exact (proj1 Hload)|exact Hacme].
Defined.

Lemma list_after_history_witness :
  empty_store (Local store) world0 = true ∧
  ∃ ids, list_ (Local store) (run (Local store) session world0) = inr ids ∧
    StronglySorted String.le ids ∧ NoDup ids ∧
    ∀ profile_id, profile_id ∈ ids ↔ is_Some (last_saved profile_id session).
Proof.
  split; [by_running|].
  apply (list_after_history store world0 session); [by_running|].
  repeat constructor.
Defined.

Lemma delete_then_create_witness :
  let w1 := (save (Local store) "acme" acme world0).1 in
  let w2 := (ProfileManager.delete manager "acme" w1).1 in
  ProfileManager.delete manager "acme" w1 = (w2, inr ()) ∧
  model_validate (dict_value {[ "active" := VBool false ]}) =
    inr {| active := false; verified := false |} ∧
  ∃ w3, ProfileManager.create manager "acme" {[ "active" := VBool false ]} w2 =
          (w3, inr {| active := false; verified := false |}) ∧
        ProfileManager.exists_ manager "acme" w3 = true ∧
        ProfileManager.load manager "acme" w3 =
          parse_profile (model_dump_json {| active := false; verified := false |}).
Proof.
  cbv zeta. split; [by_running|]. split; [by_running|].
  destruct (delete_then_create manager "acme" {[ "active" := VBool false ]}
              (save (Local store) "acme" acme world0).1
              (ProfileManager.delete manager "acme"
                 (save (Local store) "acme" acme world0).1).1) as [_ Hcreate];
    [by_running|].
  refine (Hcreate {| active := false; verified := false |} _). clear Hcreate. by_running.
Defined.

Lemma created_or_updated_is_stored_witness :
  let w' := (ProfileManager.create manager "acme" {[ "active" := VBool true ]} world0).1 in
  ProfileManager.create manager "acme" {[ "active" := VBool true ]} world0 =
    (w', inr acme) ∧
  ProfileManager.exists_ manager "acme" w' = true ∧
  ∃ q, ProfileManager.load manager "acme" w' = inr q ∧ same_content q acme.
Proof.
  cbv zeta. split; [by_running|].
  apply (created_or_updated_is_stored manager "acme" {[ "active" := VBool true ]}
           world0 _ acme sample_round_trip).
  left. by_running.
Defined.

Lemma save_dict_then_load_dict_witness :
  let w' := (save_dict (Local store) "acme" {[ "active" := VBool true ]} world0).1 in
  model_validate (dict_value (∅ : gmap string value)) =
    inl "validation error for CompanyProfile" ∧
  save_dict (Local store) "acme" ∅ world0 =
    (world0, inl (ValidationError "validation error for CompanyProfile")) ∧
  save_dict (Local store) "acme" {[ "active" := VBool true ]} world0 = (w', inr ()) ∧
  exists_ (Local store) "acme" w' = true ∧
  ∃ profile, model_validate (dict_value {[ "active" := VBool true ]}) = inr profile ∧
             load_dict (Local store) "acme" w' = inr (model_dump profile).
Proof.
  cbv zeta. split; [by_running|]. split.
  - apply (proj1 (save_dict_then_load_dict (Local store) "acme" ∅ world0)). by_running.
  - split; [by_running|].
    apply (proj1 (proj2 (save_dict_then_load_dict (Local store) "acme"
                           {[ "active" := VBool true ]} world0)) sample_round_trip).
    by_running.
Defined.

Lemma detector_selects_local_witness :
  let environ : gmap string string :=
    {[ "ENVIRONMENT" := "Production"; "PROFILES_DIR" := "/srv/data" ]} in
  let out := _auto_detect_storage environ true bare_world in
  wants_azure environ = false ∧
  out.2 = inr (Local {| LocalFileStorage.profiles_dir := of_string "/srv/data" |}) ∧
  is_dir (fs out.1) (of_string "/srv/data") = true.
Proof.
  cbv zeta. split; [by_running|]. split; [by_running|].
  destruct (detector_selects_local
              {[ "ENVIRONMENT" := "Production"; "PROFILES_DIR" := "/srv/data" ]}
              true bare_world) as (_ & _ & _ & Hret); [by_running|].
  refine (proj2 (Hret _ _)). clear Hret. by_running.
Defined.

Lemma detector_selects_azure_witness :
  let environ : gmap string string :=
    {[ "ENVIRONMENT" := "PRODUCTION";
       "AZURE_STORAGE_CONNECTION_STRING" := account;
       "AZURE_STORAGE_TIMEOUT_SECONDS" := "soon" ]} in
  let out := _auto_detect_storage environ true bare_world in
  wants_azure environ = true ∧
  builtins.int "soon" = None ∧
  (∃ msg, out.2 = inl (ValueError msg)) ∧ cloud out.1 = cloud bare_world.
Proof.
  cbv zeta. split; [by_running|]. split; [by_running|].
  destruct (detector_selects_azure
              {[ "ENVIRONMENT" := "PRODUCTION";
                 "AZURE_STORAGE_CONNECTION_STRING" := account;
                 "AZURE_STORAGE_TIMEOUT_SECONDS" := "soon" ]}
              true bare_world) as (_ & _ & Hbad & _); [by_running|].
  apply Hbad. clear Hbad. by_running.
Defined.

(** A timeout in Arabic-Indic digits is taken: the detector returns the
    blob backend with a timeout of 30 seconds. *)
Example detector_reads_arabic_indic_timeout :
  (_auto_detect_storage
     {[ "ENVIRONMENT" := "production";
        "AZURE_STORAGE_CONNECTION_STRING" := account;
        "AZURE_STORAGE_TIMEOUT_SECONDS" := "٣٠" ]} true bare_world).2 =
  inr (Azure blob_store).
Proof. by_running. Qed.

Lemma manager_is_built_once_witness :
  let out := loader._get_manager ∅ false process0 in
  out.2 = inr manager ∧
  loader._manager out.1 = Some manager ∧
  loader._get_manager production_environ true out.1 = (out.1, inr manager).
Proof.
  cbv zeta. split; [by_running|].
  destruct (proj1 (manager_is_built_once ∅ false process0) manager) as [Hset Hlater];
    [by_running|].
  split; [exact Hset|apply Hlater].
Defined.

Lemma loader_save_then_load_witness :
  let st' := (loader.save_company_profile ∅ false "acme" acme process0).1 in
  loader.save_company_profile ∅ false "acme" acme process0 = (st', inr ()) ∧
  loader.profile_exists production_environ true "acme" st' = (st', inr true) ∧
  ∃ q, loader.load_company_profile production_environ true "acme" st' = (st', inr q) ∧
       same_content q acme.
Proof.
  cbv zeta. split; [by_running|].
  apply (loader_save_then_load ∅ false "acme" acme process0 _ sample_round_trip).
  by_running.
Defined.

Lemma loader_stores_in_profiles_dir_witness :
  let st' := (loader.save_company_profile ∅ false "acme" acme process0).1 in
  wants_azure ∅ = false ∧
  loader.save_company_profile ∅ false "acme" acme process0 = (st', inr ()) ∧
  loader._manager st' = Some manager ∧
  LocalFileStorage.exists_ store "acme" (fs (loader.world st')) = true ∧
  ∃ ids, loader.list_company_profiles production_environ true st' = (st', inr ids) ∧
         "acme" ∈ ids.
Proof.
  cbv zeta. split; [by_running|]. split; [by_running|].
  destruct (loader_stores_in_profiles_dir ∅ false "acme" acme process0
              (loader.save_company_profile ∅ false "acme" acme process0).1)
    as (Hset & _ & Hex & _ & Hlist); [by_running..|].
  split; [exact Hset|]. split; [exact Hex|].
  apply Hlist. clear. by_running.
Defined.

Lemma existing_id_is_listed_witness :
  let w := (save (Local store) "acme" acme
              {| fs := (LocalFileStorage.save store "." other fs0).1;
                 cloud := cloud0; stdout := [] |}).1 in
  ProfileManager.exists_ manager "acme" w = true ∧
  ProfileManager.list_ manager w = inr ["."; "acme"] ∧
  "acme" ∈ ["."; "acme"].
Proof.
  cbv zeta. split; [by_running|]. split; [by_running|].
  refine (proj1 (existing_id_is_listed manager "acme"
                   (save (Local store) "acme" acme
                      {| fs := (LocalFileStorage.save store "." other fs0).1;
                         cloud := cloud0; stdout := [] |}).1 _ _) ["."; "acme"] _);
    by_running.
Defined.

Lemma local_save_returns_unless_directory_witness :
  let fs1 := (LocalFileStorage.save store "a.json/b" acme fs0).1 in
  is_dir fs1 (LocalFileStorage.profiles_dir store) = true ∧
  is_dir fs1 (LocalFileStorage._get_file_path store "a") = true ∧
  LocalFileStorage.save store "a" other fs1 = (fs1, inl IsADirectoryError) ∧
  is_dir fs1 (LocalFileStorage._get_file_path store "zeta") = false ∧
  ∃ fs', LocalFileStorage.save store "zeta" other fs1 = (fs', inr ()).
Proof.
  cbv zeta. split; [by_running|]. split; [by_running|]. split.
  - apply (proj2 (local_save_returns_unless_directory store "a" other
                    (LocalFileStorage.save store "a.json/b" acme fs0).1
                    ltac:(by_running) ltac:(by_running))).
    by_running.
  - split; [by_running|].
    apply (proj1 (local_save_returns_unless_directory store "zeta" other
                    (LocalFileStorage.save store "a.json/b" acme fs0).1
                    ltac:(by_running) ltac:(by_running))).
    by_running.
Defined.

Lemma save_then_delete_restores_witness :
  let w1 := (save (Local store) "acme" acme world0).1 in
  ready (Local store) world0 ∧
  exists_ (Local store) "acme" world0 = false ∧
  save (Local store) "acme" acme world0 = (w1, inr ()) ∧
  delete (Local store) "acme" w1 = (world0, inr ()).
Proof.
  cbv zeta. split; [by_running|]. split; [by_running|]. split; [by_running|].
  apply (save_then_delete_restores (Local store) "acme" acme world0); by_running.
Defined.

Lemma manager_writes_one_id_witness :
  let w1 := (save (Local store) "acme" acme world0).1 in
  ready (Local store) w1 ∧
  ProfileManager.load manager "acme" w1 = inr acme ∧
  ProfileManager.load manager "acme"
    (ProfileManager.create manager "zeta" {[ "active" := VBool false ]} w1).1 =
  ProfileManager.load manager "acme" w1.
Proof.
  cbv zeta. split; [by_running|]. split; [by_running|].
  destruct (manager_writes_one_id manager "zeta" "acme" {[ "active" := VBool false ]}
              (save (Local store) "acme" acme world0).1) as (_ & Hload & _);
    [by_running..|done|exact Hload].
Defined.

End further_runs.
